(** * sauce_bot_backend_v1: the trade API (trade-api.js, models/User.js)

    A shallow embedding of the secure trade API server and of the
    properties its specification states about it.

    - Part 1: thrown errors, buffers, base64 and hex, [split].
    - Part 2: the credential vault ([encryptSecret], [decryptSecret]) on
      AES-256-CBC: chaining, padding and the streaming interface over a
      block cipher, and AES-256 itself.
    - Part 3: JavaScript values and numbers, the user store, the
      aggregator and the chain network as services, and the handler
      monad with its trace of calls.
    - Part 4: start-up, [checkApiKey], [getJupiterSwapTransaction], the
      two handlers and the middleware chain; a stubbed world to run
      them in.
    - Part 5: the theorems.
    - Part 6: the theorems at work on the stubbed world.
    - Part 7: further properties of the code: start-up, the vault, the
      key check, the handlers and the aggregator client.
    - Part 8: those properties at work on the stubbed world. *)

From Stdlib Require Import String Ascii Bool Arith ZArith Lia Floats List.
From Stdlib Require Import DecimalString Btauto.
Import ListNotations.

Local Open Scope list_scope.
Local Open Scope string_scope.

(** Decimal literals such as [0.1] stand for the nearest binary64 value,
    as in the source. *)
Set Warnings "-inexact-float".

(* ================================================================== *)
(** * Part 1: errors, buffers, encodings *)
(* ================================================================== *)

(** ** Thrown errors

    Every [throw] of the source throws [new Error(message)]; the errors
    raised by the runtime and by the libraries are [Error] objects too,
    and the handlers only ever read [error.message]. *)

Inductive JsError : Type :=
| Error (message : string).

Definition message (e : JsError) : string :=
  match e with Error m => m end.

(** The outcome of a call that may throw (or of a promise that may
    reject, once awaited). *)
Inductive Outcome (A : Type) : Type :=
| Ok (a : A)
| Throw (e : JsError).

Arguments Ok {A} a.
Arguments Throw {A} e.

Definition is_throw {A} (o : Outcome A) : bool :=
  match o with Ok _ => false | Throw _ => true end.

(** ** Buffers

    A [Buffer] is a list of bytes; a byte is an [ascii] (eight bits,
    least significant first).  A JavaScript string is represented by its
    UTF-8 encoding, so that [Buffer.from(s, 'utf8')] and
    [buf.toString('utf8')] only change the container. *)

Definition byte := ascii.
Definition Buffer := list byte.

Definition Buffer_from_utf8 (s : string) : Buffer := list_ascii_of_string s.
Definition Buffer_toString_utf8 (b : Buffer) : string := string_of_list_ascii b.

Definition xor_byte (a b : byte) : byte :=
  match a, b with
  | Ascii a0 a1 a2 a3 a4 a5 a6 a7, Ascii b0 b1 b2 b3 b4 b5 b6 b7 =>
      Ascii (xorb a0 b0) (xorb a1 b1) (xorb a2 b2) (xorb a3 b3)
            (xorb a4 b4) (xorb a5 b5) (xorb a6 b6) (xorb a7 b7)
  end.

Fixpoint xor_buffer (a b : Buffer) : Buffer :=
  match a, b with
  | x :: a', y :: b' => xor_byte x y :: xor_buffer a' b'
  | _, _ => []
  end.

(** ** base64

    Encoding is RFC 4648 with [=] padding.  A sextet is kept in the low
    six bits of a byte. *)

Definition base64_table : list ascii :=
  list_ascii_of_string
    "ABCDEFGHIJKLMNOPQRSTUVWXYZabcdefghijklmnopqrstuvwxyz0123456789+/".

Definition base64_char (sextet : byte) : ascii :=
  nth (nat_of_ascii sextet) base64_table "="%char.

(** [a >> 2] *)
Definition sextet1 (a : byte) : byte :=
  match a with
  | Ascii _ _ a2 a3 a4 a5 a6 a7 => Ascii a2 a3 a4 a5 a6 a7 false false
  end.

(** [(a & 0x03) << 4 | b >> 4] *)
Definition sextet2 (a b : byte) : byte :=
  match a, b with
  | Ascii a0 a1 _ _ _ _ _ _, Ascii _ _ _ _ b4 b5 b6 b7 =>
      Ascii b4 b5 b6 b7 a0 a1 false false
  end.

(** [(b & 0x0f) << 2 | c >> 6] *)
Definition sextet3 (b c : byte) : byte :=
  match b, c with
  | Ascii b0 b1 b2 b3 _ _ _ _, Ascii _ _ _ _ _ _ c6 c7 =>
      Ascii c6 c7 b0 b1 b2 b3 false false
  end.

(** [c & 0x3f] *)
Definition sextet4 (c : byte) : byte :=
  match c with
  | Ascii c0 c1 c2 c3 c4 c5 _ _ => Ascii c0 c1 c2 c3 c4 c5 false false
  end.

Definition zero_byte : byte := "000"%char.

Fixpoint base64_encode (b : Buffer) : string :=
  match b with
  | [] => ""
  | [x] =>
      String (base64_char (sextet1 x))
        (String (base64_char (sextet2 x zero_byte)) "==")
  | [x; y] =>
      String (base64_char (sextet1 x))
        (String (base64_char (sextet2 x y))
           (String (base64_char (sextet3 y zero_byte)) "="))
  | x :: y :: z :: rest =>
      String (base64_char (sextet1 x))
        (String (base64_char (sextet2 x y))
           (String (base64_char (sextet3 y z))
              (String (base64_char (sextet4 z)) (base64_encode rest))))
  end.

Definition Buffer_toString_base64 (b : Buffer) : string := base64_encode b.

(** Decoding is Node's forgiving decoder: a character outside the
    alphabet (white space included) is skipped, the URL-safe [-] and [_]
    are accepted for [+] and [/], and decoding stops at the first [=].
    It never throws. *)

Definition unbase64 (c : ascii) : option byte :=
  let n := nat_of_ascii c in
  (if (65 <=? n) && (n <=? 90) then Some (ascii_of_nat (n - 65))
   else if (97 <=? n) && (n <=? 122) then Some (ascii_of_nat (n - 71))
   else if (48 <=? n) && (n <=? 57) then Some (ascii_of_nat (n + 4))
   else if (n =? 43) || (n =? 45) then Some (ascii_of_nat 62)
   else if (n =? 47) || (n =? 95) then Some (ascii_of_nat 63)
   else None)%nat.

Fixpoint base64_sextets (s : string) : list byte :=
  match s with
  | EmptyString => []
  | String c s' =>
      if Ascii.eqb c "="%char then []
      else match unbase64 c with
           | Some v => v :: base64_sextets s'
           | None => base64_sextets s'
           end
  end.

(** [(hi & 0x3f) << 2 | (lo & 0x30) >> 4] *)
Definition unsextet1 (hi lo : byte) : byte :=
  match hi, lo with
  | Ascii h0 h1 h2 h3 h4 h5 _ _, Ascii _ _ _ _ l4 l5 _ _ =>
      Ascii l4 l5 h0 h1 h2 h3 h4 h5
  end.

(** [(hi & 0x0f) << 4 | (lo & 0x3c) >> 2] *)
Definition unsextet2 (hi lo : byte) : byte :=
  match hi, lo with
  | Ascii h0 h1 h2 h3 _ _ _ _, Ascii _ _ l2 l3 l4 l5 _ _ =>
      Ascii l2 l3 l4 l5 h0 h1 h2 h3
  end.

(** [(hi & 0x03) << 6 | (lo & 0x3f)] *)
Definition unsextet3 (hi lo : byte) : byte :=
  match hi, lo with
  | Ascii h0 h1 _ _ _ _ _ _, Ascii l0 l1 l2 l3 l4 l5 _ _ =>
      Ascii l0 l1 l2 l3 l4 l5 h0 h1
  end.

Fixpoint base64_bytes (sextets : list byte) : Buffer :=
  match sextets with
  | s1 :: s2 :: s3 :: s4 :: rest =>
      unsextet1 s1 s2 :: unsextet2 s2 s3 :: unsextet3 s3 s4
        :: base64_bytes rest
  | [s1; s2; s3] => [unsextet1 s1 s2; unsextet2 s2 s3]
  | [s1; s2] => [unsextet1 s1 s2]
  | _ => []
  end.

Definition Buffer_from_base64 (s : string) : Buffer :=
  base64_bytes (base64_sextets s).

(** [Buffer.from(s, 'hex')]: pairs of hexadecimal digits, up to the
    first pair that is not one. *)
Definition unhex (c : ascii) : option nat :=
  let n := nat_of_ascii c in
  (if (48 <=? n) && (n <=? 57) then Some (n - 48)
   else if (65 <=? n) && (n <=? 70) then Some (n - 55)
   else if (97 <=? n) && (n <=? 102) then Some (n - 87)
   else None)%nat.

Fixpoint Buffer_from_hex (s : string) : Buffer :=
  match s with
  | String a (String b s') =>
      match unhex a, unhex b with
      | Some x, Some y => ascii_of_nat (16 * x + y) :: Buffer_from_hex s'
      | _, _ => []
      end
  | _ => []
  end.

(** A sextet has its two high bits clear. *)
Definition is_sextet (s : byte) : Prop :=
  match s with
  | Ascii _ _ _ _ _ _ false false => True
  | _ => False
  end.

(** ** [String.prototype.split] with a one-character separator *)

Fixpoint split (sep : ascii) (s : string) : list string :=
  match s with
  | EmptyString => [""]
  | String c s' =>
      if Ascii.eqb c sep then "" :: split sep s'
      else match split sep s' with
           | p :: ps => String c p :: ps
           | [] => [String c ""]
           end
  end.


(** [occurs c s]: the character [c] occurs in [s]. *)
Fixpoint occurs (c : ascii) (s : string) : bool :=
  match s with
  | EmptyString => false
  | String c' s' => Ascii.eqb c' c || occurs c s'
  end.

(* ================================================================== *)
(** * Part 2: the credential vault *)
(* ================================================================== *)

Declare Scope outcome_scope.
Delimit Scope outcome_scope with outcome.

Notation "x <- e ;; k" :=
  (match e with Ok x => k | Throw err => Throw err end)
  (at level 61, e at next level, right associativity, only parsing)
  : outcome_scope.

Local Open Scope outcome_scope.

(** ** AES-256-CBC as [crypto.createCipheriv('aes-256-cbc', key, iv)]
    gives it

    The chaining mode, the PKCS#7 padding and the streaming interface
    ([update], [final]) are written out over a block cipher (one
    16-byte block under a 32-byte key); AES-256 follows below. *)

Record BlockCipher : Type := {
  encrypt_block : Buffer -> Buffer -> Buffer;
  decrypt_block : Buffer -> Buffer -> Buffer
}.

(** What the vault relies on: blocks stay blocks, and decryption under
    the key inverts encryption. *)
Record BlockCipherLaws (c : BlockCipher) : Prop := {
  encrypt_block_length :
    forall k b, length k = 32 -> length b = 16 ->
      length (encrypt_block c k b) = 16;
  decrypt_encrypt_block :
    forall k b, length k = 32 -> length b = 16 ->
      decrypt_block c k (encrypt_block c k b) = b
}.

Fixpoint chunks (fuel : nat) (data : Buffer) : list Buffer :=
  match fuel with
  | O => []
  | S fuel' =>
      match data with
      | [] => []
      | _ => firstn 16 data :: chunks fuel' (skipn 16 data)
      end
  end.

(** The 16-byte blocks of [data] (the last one shorter when the length
    is not a multiple of 16). *)
Definition blocks (data : Buffer) : list Buffer := chunks (length data) data.

Definition pkcs7_pad (data : Buffer) : Buffer :=
  let n := 16 - length data mod 16 in
  (data ++ repeat (ascii_of_nat n) n)%list.

(** The padding check of the final block: the last byte [n] is in
    [1..16] and the last [n] bytes all equal [n]. *)
Definition pkcs7_unpad (block : Buffer) : option Buffer :=
  let n := nat_of_ascii (last block zero_byte) in
  if ((n =? 0) || (16 <? n))%nat then None
  else if forallb (Ascii.eqb (ascii_of_nat n)) (skipn (16 - n) block)
       then Some (firstn (16 - n) block)
       else None.

Section Cbc.

Variable aes256 : BlockCipher.

(** Returns the output blocks and the chaining value left behind. *)
Fixpoint cbc_encrypt (key chain : Buffer) (bs : list Buffer)
  : list Buffer * Buffer :=
  match bs with
  | [] => ([], chain)
  | b :: bs' =>
      let c := encrypt_block aes256 key (xor_buffer b chain) in
      let (cs, chain') := cbc_encrypt key c bs' in
      (c :: cs, chain')
  end.

Fixpoint cbc_decrypt (key chain : Buffer) (cs : list Buffer)
  : list Buffer * Buffer :=
  match cs with
  | [] => ([], chain)
  | c :: cs' =>
      let p := xor_buffer (decrypt_block aes256 key c) chain in
      let (ps, chain') := cbc_decrypt key c cs' in
      (p :: ps, chain')
  end.

(** *** The cipher object, with output encoding ['base64']

    [update] encrypts the complete blocks and keeps the rest; its
    output goes through a string decoder that only emits whole groups
    of three bytes, so that the pieces concatenate to one base64
    string. *)

Record Cipheriv : Type := {
  cipher_key : Buffer;
  cipher_chain : Buffer;
  cipher_pending : Buffer;
  cipher_decoder : Buffer
}.

Definition invalid_key_length : string := "Invalid key length".
Definition invalid_iv : string := "Invalid initialization vector".
Definition wrong_final_block_length : string :=
  "error:1C80006B:Provider routines::wrong final block length".
Definition bad_decrypt : string :=
  "error:1C800064:Provider routines::bad decrypt".

Definition createCipheriv (key iv : Buffer) : Outcome Cipheriv :=
  if negb (length key =? 32)%nat then Throw (Error invalid_key_length)
  else if negb (length iv =? 16)%nat then Throw (Error invalid_iv)
  else Ok {| cipher_key := key; cipher_chain := iv;
             cipher_pending := []; cipher_decoder := [] |}.

Definition StringDecoder_write (pending chunk : Buffer) : string * Buffer :=
  let input := (pending ++ chunk)%list in
  let n := 3 * (length input / 3) in
  (base64_encode (firstn n input), skipn n input).

Definition StringDecoder_end (pending chunk : Buffer) : string :=
  let (text, rest) := StringDecoder_write pending chunk in
  text ++ base64_encode rest.

(** [cipher.update(data, 'utf8', 'base64')] *)
Definition Cipher_update (c : Cipheriv) (data : string) : string * Cipheriv :=
  let input := (cipher_pending c ++ Buffer_from_utf8 data)%list in
  let n := 16 * (length input / 16) in
  let (out, chain) :=
    cbc_encrypt (cipher_key c) (cipher_chain c) (blocks (firstn n input)) in
  let (text, decoder) := StringDecoder_write (cipher_decoder c) (concat out) in
  (text, {| cipher_key := cipher_key c; cipher_chain := chain;
            cipher_pending := skipn n input; cipher_decoder := decoder |}).

(** [cipher.final('base64')] *)
Definition Cipher_final (c : Cipheriv) : string :=
  let (out, _) :=
    cbc_encrypt (cipher_key c) (cipher_chain c)
      (blocks (pkcs7_pad (cipher_pending c))) in
  StringDecoder_end (cipher_decoder c) (concat out).

(** *** The decipher object, with input encoding ['base64'] and output
    encoding ['utf8']

    [update] decrypts the complete blocks but holds a whole last block
    back for [final], which checks and strips the padding. *)

Record Decipheriv : Type := {
  decipher_key : Buffer;
  decipher_chain : Buffer;
  decipher_pending : Buffer
}.

Definition createDecipheriv (key iv : Buffer) : Outcome Decipheriv :=
  if negb (length key =? 32)%nat then Throw (Error invalid_key_length)
  else if negb (length iv =? 16)%nat then Throw (Error invalid_iv)
  else Ok {| decipher_key := key; decipher_chain := iv;
             decipher_pending := [] |}.

(** [decipher.update(data, 'base64', 'utf8')] *)
Definition Decipher_update (d : Decipheriv) (data : string)
  : string * Decipheriv :=
  let input := (decipher_pending d ++ Buffer_from_base64 data)%list in
  let n := if (length input mod 16 =? 0)%nat then length input - 16
           else 16 * (length input / 16) in
  let (out, chain) :=
    cbc_decrypt (decipher_key d) (decipher_chain d)
      (blocks (firstn n input)) in
  (Buffer_toString_utf8 (concat out),
   {| decipher_key := decipher_key d; decipher_chain := chain;
      decipher_pending := skipn n input |}).

(** [decipher.final('utf8')] *)
Definition Decipher_final (d : Decipheriv) : Outcome string :=
  if negb (length (decipher_pending d) =? 16)%nat
  then Throw (Error wrong_final_block_length)
  else
    let (out, _) :=
      cbc_decrypt (decipher_key d) (decipher_chain d)
        [decipher_pending d] in
    match pkcs7_unpad (concat out) with
    | Some p => Ok (Buffer_toString_utf8 p)
    | None => Throw (Error bad_decrypt)
    end.

(** ** The vault *)

(** [ENCRYPTION_KEY] hex-decoded; the process exits at start-up unless
    it is 32 bytes long. *)
Variable encryptionKeyBuffer : Buffer.

(** [iv] is the value of [crypto.randomBytes(16)]. *)
Definition encryptSecret (iv : Buffer) (plainText : string) : Outcome string :=
  cipher <- createCipheriv encryptionKeyBuffer iv ;;
  let (encrypted, cipher) := Cipher_update cipher plainText in
  let encrypted := encrypted ++ Cipher_final cipher in
  Ok (Buffer_toString_base64 iv ++ ":" ++ encrypted).

Definition decryptSecret (encryptedText : string) : Outcome string :=
  let parts := split ":" encryptedText in
  if negb (length parts =? 2)%nat
  then Throw (Error "Invalid encrypted text format")
  else
    let iv := Buffer_from_base64 (nth 0 parts "") in
    let encrypted := nth 1 parts "" in
    decipher <- createDecipheriv encryptionKeyBuffer iv ;;
    let (decrypted, decipher) := Decipher_update decipher encrypted in
    final <- Decipher_final decipher ;;
    Ok (decrypted ++ final).

End Cbc.

(** What the two objects compute, as functions of whole buffers: the
    ciphertext of [data], and the plaintext blocks of [ct]. *)
Definition cbc_encrypt_buffer (aes256 : BlockCipher) (key iv data : Buffer)
  : Buffer :=
  concat (fst (cbc_encrypt aes256 key iv (blocks (pkcs7_pad data)))).

Definition cbc_plain_blocks (aes256 : BlockCipher) (key iv ct : Buffer)
  : list Buffer :=
  fst (cbc_decrypt aes256 key iv (blocks ct)).

(** ** AES-256 (FIPS 197)

    The block cipher behind ['aes-256-cbc'], written out so that the
    vault can be run and so that [BlockCipherLaws] is known to hold of
    it.  The state is the block itself, column after column. *)

Module AES.

Definition sbox : Buffer := Eval vm_compute in
  Buffer_from_hex
    ("637c777bf26b6fc53001672bfed7ab76ca82c97dfa5947f0add4a2af9ca472c0" ++
     "b7fd9326363ff7cc34a5e5f171d8311504c723c31896059a071280e2eb27b275" ++
     "09832c1a1b6e5aa0523bd6b329e32f8453d100ed20fcb15b6acbbe394a4c58cf" ++
     "d0efaafb434d338545f9027f503c9fa851a3408f929d38f5bcb6da2110fff3d2" ++
     "cd0c13ec5f974417c4a77e3d645d197360814fdc222a908846eeb814de5e0bdb" ++
     "e0323a0a4906245cc2d3ac629195e479e7c8376d8dd54ea96c56f4ea657aae08" ++
     "ba78252e1ca6b4c6e8dd741f4bbd8b8a703eb5664803f60e613557b986c11d9e" ++
     "e1f8981169d98e949b1e87e9ce5528df8ca1890dbfe6426841992d0fb054bb16").

Definition inv_sbox : Buffer := Eval vm_compute in
  Buffer_from_hex
    ("52096ad53036a538bf40a39e81f3d7fb7ce339829b2fff87348e4344c4dee9cb" ++
     "547b9432a6c2233dee4c950b42fac34e082ea16628d924b2765ba2496d8bd125" ++
     "72f8f66486689816d4a45ccc5d65b6926c704850fdedb9da5e154657a78d9d84" ++
     "90d8ab008cbcd30af7e45805b8b34506d02c1e8fca3f0f02c1afbd0301138a6b" ++
     "3a9111414f67dcea97f2cfcef0b4e67396ac7422e7ad3585e2f937e81c75df6e" ++
     "47f11a711d29c5896fb7620eaa18be1bfc563e4bc6d279209adbc0fe78cd5af4" ++
     "1fdda8338807c731b11210592780ec5f60517fa919b54a0d2de57a9f93c99cef" ++
     "a0e03b4dae2af5b0c8ebbb3c83539961172b047eba77d626e169146355210c7d").

Definition SubByte (b : byte) : byte := nth (nat_of_ascii b) sbox zero_byte.

Definition InvSubByte (b : byte) : byte :=
  nth (nat_of_ascii b) inv_sbox zero_byte.

Definition SubBytes (s : Buffer) : Buffer := map SubByte s.

Definition InvSubBytes (s : Buffer) : Buffer := map InvSubByte s.

(** Row [r] of the state moves [r] columns to the left. *)
Definition ShiftRows (s : Buffer) : Buffer :=
  match s with
  | [s0; s1; s2; s3; s4; s5; s6; s7; s8; s9; s10; s11; s12; s13; s14; s15] =>
      [s0; s5; s10; s15; s4; s9; s14; s3; s8; s13; s2; s7; s12; s1; s6; s11]
  | _ => s
  end.

Definition InvShiftRows (s : Buffer) : Buffer :=
  match s with
  | [s0; s1; s2; s3; s4; s5; s6; s7; s8; s9; s10; s11; s12; s13; s14; s15] =>
      [s0; s13; s10; s7; s4; s1; s14; s11; s8; s5; s2; s15; s12; s9; s6; s3]
  | _ => s
  end.

(** Multiplication by [x] in GF(2^8), modulo [x^8 + x^4 + x^3 + x + 1]. *)
Definition xtime (a : byte) : byte :=
  match a with
  | Ascii b0 b1 b2 b3 b4 b5 b6 b7 =>
      Ascii b7 (xorb b0 b7) b1 (xorb b2 b7) (xorb b3 b7) b4 b5 b6
  end.

Definition mul2 (a : byte) : byte := xtime a.
Definition mul3 (a : byte) : byte := xor_byte (xtime a) a.
Definition mul4 (a : byte) : byte := xtime (xtime a).
Definition mul8 (a : byte) : byte := xtime (xtime (xtime a)).
Definition mul9 (a : byte) : byte := xor_byte (mul8 a) a.
Definition mul11 (a : byte) : byte := xor_byte (xor_byte (mul8 a) (mul2 a)) a.
Definition mul13 (a : byte) : byte := xor_byte (xor_byte (mul8 a) (mul4 a)) a.
Definition mul14 (a : byte) : byte :=
  xor_byte (xor_byte (mul8 a) (mul4 a)) (mul2 a).

Definition xor4 (a b c d : byte) : byte :=
  xor_byte (xor_byte a b) (xor_byte c d).

Fixpoint MixColumns (s : Buffer) : Buffer :=
  match s with
  | a0 :: a1 :: a2 :: a3 :: rest =>
      xor4 (mul2 a0) (mul3 a1) a2 a3
        :: xor4 a0 (mul2 a1) (mul3 a2) a3
        :: xor4 a0 a1 (mul2 a2) (mul3 a3)
        :: xor4 (mul3 a0) a1 a2 (mul2 a3)
        :: MixColumns rest
  | _ => s
  end.

Fixpoint InvMixColumns (s : Buffer) : Buffer :=
  match s with
  | a0 :: a1 :: a2 :: a3 :: rest =>
      xor4 (mul14 a0) (mul11 a1) (mul13 a2) (mul9 a3)
        :: xor4 (mul9 a0) (mul14 a1) (mul11 a2) (mul13 a3)
        :: xor4 (mul13 a0) (mul9 a1) (mul14 a2) (mul11 a3)
        :: xor4 (mul11 a0) (mul13 a1) (mul9 a2) (mul14 a3)
        :: InvMixColumns rest
  | _ => s
  end.

Definition AddRoundKey (s roundKey : Buffer) : Buffer := xor_buffer s roundKey.

(** *** Key expansion, eight words at a time *)

Definition SubWord (w : Buffer) : Buffer := map SubByte w.

Definition RotWord (w : Buffer) : Buffer :=
  match w with
  | [a; b; c; d] => [b; c; d; a]
  | _ => w
  end.

(** The eight words after the eight words [w0 .. w7]. *)
Definition next_words (rcon : byte) (ws : list Buffer) : list Buffer :=
  match ws with
  | [w0; w1; w2; w3; w4; w5; w6; w7] =>
      let t := xor_buffer (SubWord (RotWord w7))
                 [rcon; zero_byte; zero_byte; zero_byte] in
      let n0 := xor_buffer w0 t in
      let n1 := xor_buffer w1 n0 in
      let n2 := xor_buffer w2 n1 in
      let n3 := xor_buffer w3 n2 in
      let n4 := xor_buffer w4 (SubWord n3) in
      let n5 := xor_buffer w5 n4 in
      let n6 := xor_buffer w6 n5 in
      let n7 := xor_buffer w7 n6 in
      [n0; n1; n2; n3; n4; n5; n6; n7]
  | _ => ws
  end.

Fixpoint words (data : Buffer) : list Buffer :=
  match data with
  | a :: b :: c :: d :: rest => [a; b; c; d] :: words rest
  | _ => []
  end.

Fixpoint expand (rcons : list byte) (ws : list Buffer) : list Buffer :=
  match rcons with
  | [] => ws
  | rcon :: rcons' => (ws ++ expand rcons' (next_words rcon ws))%list
  end.

Definition Rcon : list byte :=
  Eval vm_compute in Buffer_from_hex "01020408102040".

(** A 32-byte key is eight words of four bytes. *)
Definition eight_words (ws : list Buffer) : Prop :=
  length ws = 8 /\ Forall (fun w => length w = 4) ws.

(** The fifteen round keys of a 32-byte key. *)
Definition KeyExpansion (key : Buffer) : list Buffer :=
  firstn 15 (blocks (concat (expand Rcon (words key)))).

Definition round (s roundKey : Buffer) : Buffer :=
  AddRoundKey (MixColumns (ShiftRows (SubBytes s))) roundKey.

Definition inv_round (s roundKey : Buffer) : Buffer :=
  InvSubBytes (InvShiftRows (InvMixColumns (AddRoundKey s roundKey))).

Definition final_round (s roundKey : Buffer) : Buffer :=
  AddRoundKey (ShiftRows (SubBytes s)) roundKey.

Definition inv_final_round (s roundKey : Buffer) : Buffer :=
  InvSubBytes (InvShiftRows (AddRoundKey s roundKey)).

(** [Cipher]: the first round key is added, thirteen rounds follow, and
    a last round without [MixColumns]. *)
Definition Cipher (roundKeys : list Buffer) (block : Buffer) : Buffer :=
  match roundKeys with
  | first :: rest =>
      final_round
        (fold_left round (removelast rest) (AddRoundKey block first))
        (last rest [])
  | [] => block
  end.

(** [InvCipher]: the same steps undone, last to first. *)
Definition InvCipher (roundKeys : list Buffer) (block : Buffer) : Buffer :=
  match roundKeys with
  | first :: rest =>
      AddRoundKey
        (fold_right (fun roundKey s => inv_round s roundKey)
           (inv_final_round block (last rest [])) (removelast rest))
        first
  | [] => block
  end.

End AES.

Definition AES256 : BlockCipher := {|
  encrypt_block := fun key block => AES.Cipher (AES.KeyExpansion key) block;
  decrypt_block := fun key block => AES.InvCipher (AES.KeyExpansion key) block
|}.

(* ================================================================== *)
(** * Part 3: JavaScript values and the outside world *)
(* ================================================================== *)

(** ** JSON values as JavaScript sees them

    Numbers are IEEE 754 binary64 ([float]). *)

#[warnings="-register-all"]
Inductive JsValue : Type :=
| JUndefined
| JNull
| JBool (b : bool)
| JNum (x : float)
| JStr (s : string)
| JArr (items : list JsValue)
| JObj (props : list (string * JsValue)).

Definition JsObject := list (string * JsValue).

(** [o[name]] on the own properties of an object; [undefined] when
    there is none. *)
Fixpoint get_property (o : JsObject) (name : string) : JsValue :=
  match o with
  | [] => JUndefined
  | (k, v) :: o' => if String.eqb k name then v else get_property o' name
  end.

Definition is_nan (x : float) : bool := negb (x =? x)%float.

(** Truthiness: [undefined], [null], [false], [0], [-0], [NaN] and [""]
    are falsy. *)
Definition ToBoolean (v : JsValue) : bool :=
  match v with
  | JUndefined | JNull => false
  | JBool b => b
  | JNum x => negb ((x =? 0)%float || is_nan x)
  | JStr s => negb (String.eqb s "")
  | JArr _ | JObj _ => true
  end.

Definition cannot_read (base name : string) : JsError :=
  Error ("Cannot read properties of " ++ base ++ " (reading '" ++ name ++ "')").

(** [v.name] for a name that is no built-in property of arrays, strings,
    numbers or booleans. *)
Definition member (v : JsValue) (name : string) : Outcome JsValue :=
  match v with
  | JUndefined => Throw (cannot_read "undefined" name)
  | JNull => Throw (cannot_read "null" name)
  | JObj props => Ok (get_property props name)
  | _ => Ok JUndefined
  end.

(** [v === 0] *)
Definition strict_eq_0 (v : JsValue) : bool :=
  match v with
  | JNum x => (x =? 0)%float
  | _ => false
  end.

(** [v.length === 0] for a truthy [v]. *)
Definition length_is_0 (v : JsValue) : bool :=
  match v with
  | JArr items => (length items =? 0)%nat
  | JObj props => strict_eq_0 (get_property props "length")
  | _ => false
  end.

(** The parts of the language that are not written out. *)
Record Runtime : Type := {
  (** the numeric value of a string *)
  StringToNumber : string -> float;
  (** the decimal form of a number *)
  NumberToString : float -> string;
  (** [toString()] of an array or an object; may throw *)
  ObjectToString : JsValue -> Outcome string;
  (** the first character of a non-empty string *)
  String_at_0 : string -> string;
  JSON_stringify : JsValue -> string;
  (** [Buffer.from(v, 'base64')] for a [v] that is no string; may throw *)
  Buffer_from_object : JsValue -> Outcome Buffer
}.

Section Conversions.

Variable rt : Runtime.

(** String interpolation in a template literal. *)
Definition ToString (v : JsValue) : Outcome string :=
  match v with
  | JUndefined => Ok "undefined"
  | JNull => Ok "null"
  | JBool true => Ok "true"
  | JBool false => Ok "false"
  | JNum x => Ok (NumberToString rt x)
  | JStr s => Ok s
  | JArr _ | JObj _ => ObjectToString rt v
  end.

(** The operand conversion of [*]. *)
Definition ToNumber (v : JsValue) : Outcome float :=
  match v with
  | JUndefined => Ok nan
  | JNull => Ok 0%float
  | JBool true => Ok 1%float
  | JBool false => Ok 0%float
  | JNum x => Ok x
  | JStr s => Ok (StringToNumber rt s)
  | JArr _ | JObj _ =>
      s <- ObjectToString rt v ;; Ok (StringToNumber rt s)
  end.

(** [v[0]] *)
Definition item_0 (v : JsValue) : JsValue :=
  match v with
  | JArr (x :: _) => x
  | JStr s => JStr (String_at_0 rt s)
  | JObj props => get_property props "0"
  | _ => JUndefined
  end.

(** [Buffer.from(v, 'base64')] *)
Definition Buffer_from (v : JsValue) : Outcome Buffer :=
  match v with
  | JStr s => Ok (Buffer_from_base64 s)
  | _ => Buffer_from_object rt v
  end.

End Conversions.

(** ** Numbers *)

(** A finite float is [(-1)^s * m * 2^e]; [signed s m] is its signed
    significand. *)
Definition signed (s : bool) (m : positive) : Z :=
  if s then Z.neg m else Z.pos m.

(** The integer a float stands for, when it is one. *)
Definition float_to_Z (x : float) : option Z :=
  match Prim2SF x with
  | S754_zero _ => Some 0%Z
  | S754_finite s m e =>
      let z := signed s m in
      if (0 <=? e)%Z then Some (z * 2 ^ e)%Z
      else if (z mod 2 ^ (- e) =? 0)%Z then Some (z / 2 ^ (- e))%Z
      else None
  | _ => None
  end.

(** The float of an integer below [2^53] in absolute value. *)
Definition Z_to_float (z : Z) : float :=
  let a := of_uint63 (Uint63.of_Z (Z.abs z)) in
  if (z <? 0)%Z then (- a)%float else a.

(** [Math.floor].  A float at or above [2^52] in absolute value, a zero,
    an infinity and [NaN] are their own floor; below, the significand is
    divided by [2^(-e)], rounding down ([Z.div]). *)
Definition Math_floor (x : float) : float :=
  match Prim2SF x with
  | S754_finite s m e =>
      if (0 <=? e)%Z then x
      else Z_to_float (signed s m / 2 ^ (- e))
  | _ => x
  end.

(** Truncation toward zero ([Math.trunc]), for comparison: the same
    division, rounding toward zero ([Z.quot]); a negative number above
    -1 gives [-0]. *)
Definition Math_trunc (x : float) : float :=
  match Prim2SF x with
  | S754_finite s m e =>
      if (0 <=? e)%Z then x
      else
        let q := Z.quot (signed s m) (2 ^ (- e)) in
        if (q =? 0)%Z && s then (-0)%float else Z_to_float q
  | _ => x
  end.

Definition LAMPORTS_PER_SOL : float := 1000000000%float.

(** [arr[i]] for a number [i]: an element when [i] is an integer within
    bounds, [undefined] otherwise. *)
Definition Array_get {A : Type} (arr : list A) (i : float) : option A :=
  match float_to_Z i with
  | Some z => if (z <? 0)%Z then None else nth_error arr (Z.to_nat z)
  | None => None
  end.

(** ** The user store (models/User.js) *)

Record Wallet : Type := {
  label : string;
  publicKey : string;
  (** the secret key, encrypted *)
  secretKey : string
}.

Record TradeSettings : Type := {
  slippage : float;
  tradeAmount : float
}.

Record Settings : Type := {
  buy : TradeSettings;
  sell : TradeSettings
}.

(** The schema defaults: slippage 0.5, trade amount 0.1, both ways. *)
Definition default_settings : Settings :=
  {| buy := {| slippage := 0.5; tradeAmount := 0.1 |};
     sell := {| slippage := 0.5; tradeAmount := 0.1 |} |}.

Record User : Type := {
  telegramId : string;
  wallets : list Wallet;
  activeWalletIndex : float;
  (** never read by the trade endpoints *)
  settings : Settings
}.

(** ** HTTP *)

Record FetchInit : Type := {
  init_method : string;
  init_headers : list (string * string);
  init_body : string
}.

Record FetchRequest : Type := {
  url : string;
  init : option FetchInit
}.

Record FetchResponse : Type := {
  ok : bool;
  statusText : string;
  (** the result of [response.json()] *)
  json : Outcome JsValue
}.

Inductive ResponseBody : Type :=
| Json (v : JsValue)
| Html (page : string).

Record Response : Type := {
  status : nat;
  body : ResponseBody
}.

(** [res.status(code).json(v)] *)
Definition res_status_json (code : nat) (v : JsValue) : Response :=
  {| status := code; body := Json v |}.

(** [res.json(v)] *)
Definition res_json (v : JsValue) : Response := res_status_json 200 v.

(** What [bodyParser.json()] (body-parser 1.x, strict) makes of the
    payload of a request: it leaves an object in [req.body] ([{}] when
    there is no JSON payload) and passes on, or it ends the request with
    an error (400 for malformed JSON, 413 for a payload too large, ...)
    that the default error handler answers with that status.  [body] is
    the list of the own properties of [req.body]. *)
Inductive BodyParserResult : Type :=
| BodyParsed (body : JsObject)
| BodyRejected (status : nat) (page : string).

Inductive Route : Type :=
| PostApiBuy
| PostApiSell
(** no route matches: the default handler answers 404 *)
| NoRoute (page : string).

Record Request : Type := {
  (** header names in lower case *)
  headers : list (string * string);
  route : Route;
  payload : BodyParserResult
}.

Fixpoint header (hs : list (string * string)) (name : string) : option string :=
  match hs with
  | [] => None
  | (k, v) :: hs' => if String.eqb k name then Some v else header hs' name
  end.

(** ** The chain library (@solana/web3.js, bs58) *)

Record Web3 : Type := {
  PublicKey : Type;
  Keypair : Type;
  Transaction : Type;
  (** [new PublicKey(value)] *)
  new_PublicKey : string -> Outcome PublicKey;
  PublicKey_toString : PublicKey -> string;
  bs58_decode : string -> Outcome Buffer;
  Keypair_fromSecretKey : Buffer -> Outcome Keypair;
  Keypair_publicKey : Keypair -> PublicKey;
  Transaction_from : Buffer -> Outcome Transaction;
  partialSign : Transaction -> Keypair -> Outcome Transaction;
  serialize : Transaction -> Outcome Buffer
}.

(** ** What a handler does to the outside: the trace *)

Inductive Event : Type :=
| EvFindOne (telegramId : JsValue)
| EvFetch (request : FetchRequest)
| EvPartialSign
| EvSendRawTransaction (raw : Buffer)
| EvConfirmTransaction (signature : string)
| EvConsoleError (text : string) (error : JsError).

Definition is_store_call (e : Event) : bool :=
  match e with EvFindOne _ => true | _ => false end.

Definition is_aggregator_call (e : Event) : bool :=
  match e with EvFetch _ => true | _ => false end.

Definition is_sign (e : Event) : bool :=
  match e with EvPartialSign => true | _ => false end.

Definition is_network_call (e : Event) : bool :=
  match e with
  | EvSendRawTransaction _ | EvConfirmTransaction _ => true
  | _ => false
  end.

Definition is_log (e : Event) : bool :=
  match e with EvConsoleError _ _ => true | _ => false end.

(** The calls of a trace: everything but the log lines. *)
Definition calls (t : list Event) : list Event :=
  filter (fun e => negb (is_log e)) t.

Section Server.

(** The state of the outside world (database, aggregator, chain). *)
Variable W : Type.

(** The services: each call answers (or fails) and may change the
    world. *)
Record Services : Type := {
  User_findOne : JsValue -> W -> Outcome (option User) * W;
  fetch : FetchRequest -> W -> Outcome FetchResponse * W;
  sendRawTransaction : Buffer -> W -> Outcome string * W;
  confirmTransaction : string -> W -> Outcome unit * W
}.

Record State : Type := {
  world : W;
  (** most recent event last *)
  trace : list Event
}.

(** ** The handler monad: state, trace and exceptions.  What was done
    before a throw stays done. *)
Definition M (A : Type) : Type := State -> Outcome A * State.

Definition ret {A} (a : A) : M A := fun st => (Ok a, st).

Definition throw {A} (e : JsError) : M A := fun st => (Throw e, st).

Definition bind {A B} (m : M A) (k : A -> M B) : M B :=
  fun st =>
    match m st with
    | (Ok a, st') => k a st'
    | (Throw e, st') => (Throw e, st')
    end.

Definition lift {A} (o : Outcome A) : M A := fun st => (o, st).

Definition emit (e : Event) : M unit :=
  fun st => (Ok tt, {| world := world st; trace := trace st ++ [e] |}).

(** [await service(...)], recorded in the trace. *)
Definition call {A} (e : Event) (service : W -> Outcome A * W) : M A :=
  fun st =>
    let (r, w) := service (world st) in
    (r, {| world := w; trace := trace st ++ [e] |}).

(** [try { m } catch (error) { handler }] *)
Definition try_catch {A} (m : M A) (handler : JsError -> M A) : M A :=
  fun st =>
    match m st with
    | (Ok a, st') => (Ok a, st')
    | (Throw e, st') => handler e st'
    end.

End Server.

Arguments User_findOne {W} s telegramId w.
Arguments fetch {W} s request w.
Arguments sendRawTransaction {W} s raw w.
Arguments confirmTransaction {W} s signature w.
Arguments Build_State {W} world trace.
Arguments world {W} s.
Arguments trace {W} s.
Arguments ret {W A} a.
Arguments throw {W A} e.
Arguments bind {W A B} m k.
Arguments lift {W A} o.
Arguments emit {W} e.
Arguments call {W A} e service.
Arguments try_catch {W A} m handler.

Declare Scope handler_scope.
Delimit Scope handler_scope with handler.

Notation "x <- e ;; k" := (bind e (fun x => k))
  (at level 61, e at next level, right associativity) : handler_scope.
Notation "e ;; k" := (bind e (fun _ => k))
  (at level 61, right associativity) : handler_scope.

(* ================================================================== *)
(** * Part 4: trade-api.js *)
(* ================================================================== *)

(** The configuration read from the environment.  The process exits at
    start-up when [API_KEY] is missing or when [ENCRYPTION_KEY] does not
    decode to 32 bytes. *)
Record Config : Type := {
  API_KEY : string;
  encryptionKeyBuffer : Buffer
}.

(** Start-up: [None] when the process exits with status 1. *)
Definition startup (env : string -> option string) : option Config :=
  match env "API_KEY", env "ENCRYPTION_KEY" with
  | Some api_key, Some encryption_key =>
      if String.eqb api_key "" then None
      else if String.eqb encryption_key "" then None
      else
        let buffer := Buffer_from_hex encryption_key in
        if negb (length buffer =? 32)%nat then None
        else Some {| API_KEY := api_key; encryptionKeyBuffer := buffer |}
  | _, _ => None
  end.

Definition json_error (text : string) : JsValue :=
  JObj [("error", JStr text)].

Section TradeApi.

Variable W : Type.
Variable aes256 : BlockCipher.
Variable rt : Runtime.
Variable web3 : Web3.
Variable svc : Services W.
Variable cfg : Config.

Local Open Scope handler_scope.

(** ** Middleware: check for a valid API key

    [Some res]: the middleware answered [res]; [None]: it called
    [next()]. *)
Definition checkApiKey (req : Request) : option Response :=
  let providedKey := header (headers req) "x-api-key" in
  let falsy := match providedKey with
               | None => true
               | Some k => String.eqb k ""
               end in
  let differs := match providedKey with
                 | None => true
                 | Some k => negb (String.eqb k (API_KEY cfg))
                 end in
  if falsy || differs
  then Some (res_status_json 401 (json_error "Unauthorized: Invalid API key"))
  else None.

(** ** Helper to decode a secret key from a base58 string *)
Definition decodeKeypairSecret (base58Str : string) : Outcome Buffer :=
  bs58_decode web3 base58Str.

(** ** Jupiter integration: get a swap transaction *)
Definition getJupiterSwapTransaction (userPublicKey : PublicKey web3)
    (inputMint outputMint : JsValue) (amount : float) (slippage : JsValue)
  : M W JsValue :=
  inputMint' <- lift (ToString rt inputMint) ;;
  outputMint' <- lift (ToString rt outputMint) ;;
  slippage' <- lift (ToString rt slippage) ;;
  let quoteUrl :=
    ("https://quote-api.jup.ag/v1/quote?inputMint=" ++ inputMint'
     ++ "&outputMint=" ++ outputMint'
     ++ "&amount=" ++ NumberToString rt amount
     ++ "&slippage=" ++ slippage'
     ++ "&onlyDirectRoutes=false")%string in
  let quoteRequest := {| url := quoteUrl; init := None |} in
  quoteResponse <- call (EvFetch quoteRequest) (fetch svc quoteRequest) ;;
  if negb (ok quoteResponse)
  then throw (Error ("Jupiter quote API error: " ++ statusText quoteResponse))
  else
    quoteData <- lift (json quoteResponse) ;;
    routes <- lift (member quoteData "routes") ;;
    if negb (ToBoolean routes) || length_is_0 routes
    then throw (Error "No swap routes found from Jupiter.")
    else
      let route := item_0 rt routes in
      let swapUrl := "https://quote-api.jup.ag/v1/swap"%string in
      let swapRequest :=
        {| url := swapUrl;
           init := Some
             {| init_method := "POST";
                init_headers := [("Content-Type", "application/json")]%string;
                init_body :=
                  JSON_stringify rt
                    (JObj [("route", route);
                           ("userPublicKey",
                            JStr (PublicKey_toString web3 userPublicKey))]%string)
             |} |} in
      swapResponse <- call (EvFetch swapRequest) (fetch svc swapRequest) ;;
      if negb (ok swapResponse)
      then throw (Error ("Jupiter swap API error: " ++ statusText swapResponse))
      else
        swapData <- lift (json swapResponse) ;;
        swapTransaction <- lift (member swapData "swapTransaction") ;;
        if negb (ToBoolean swapTransaction)
        then throw (Error "Failed to obtain swap transaction from Jupiter.")
        else ret swapTransaction.

(** ** POST /api/buy: the body of the [try] block *)
Definition api_buy_try (body : JsObject) : M W Response :=
  let telegramId := get_property body "telegramId" in
  let tradeAmount := get_property body "tradeAmount" in
  let slippage := get_property body "slippage" in
  let inputMint := get_property body "inputMint" in
  let outputMint := get_property body "outputMint" in
  if negb (ToBoolean telegramId) || negb (ToBoolean tradeAmount)
     || negb (ToBoolean slippage) || negb (ToBoolean inputMint)
     || negb (ToBoolean outputMint)
  then ret (res_status_json 400 (json_error "Missing required fields."))
  else
    user <- call (EvFindOne telegramId) (User_findOne svc telegramId) ;;
    match user with
    | None =>
        ret (res_status_json 400
               (json_error "User not found or no wallets available."))
    | Some user =>
        if (length (wallets user) =? 0)%nat
        then ret (res_status_json 400
                    (json_error "User not found or no wallets available."))
        else
          match Array_get (wallets user) (activeWalletIndex user) with
          | None => throw (cannot_read "undefined" "publicKey")
          | Some activeWallet =>
              publicKey <- lift (new_PublicKey web3 (publicKey activeWallet)) ;;
              decryptedSecret <-
                lift (decryptSecret aes256 (encryptionKeyBuffer cfg)
                        (secretKey activeWallet)) ;;
              secret <- lift (decodeKeypairSecret decryptedSecret) ;;
              userKeypair <- lift (Keypair_fromSecretKey web3 secret) ;;
              if negb (String.eqb
                         (PublicKey_toString web3
                            (Keypair_publicKey web3 userKeypair))
                         (PublicKey_toString web3 publicKey))
              then ret (res_status_json 500
                          (json_error
                             "Wallet decryption error: public key mismatch."))
              else
                tradeAmount' <- lift (ToNumber rt tradeAmount) ;;
                let amount := Math_floor (tradeAmount' * LAMPORTS_PER_SOL) in
                swapTxBase64 <-
                  getJupiterSwapTransaction
                    (Keypair_publicKey web3 userKeypair)
                    inputMint outputMint amount slippage ;;
                swapTxBuffer <- lift (Buffer_from rt swapTxBase64) ;;
                swapTransaction <- lift (Transaction_from web3 swapTxBuffer) ;;
                emit EvPartialSign ;;
                swapTransaction <-
                  lift (partialSign web3 swapTransaction userKeypair) ;;
                raw <- lift (serialize web3 swapTransaction) ;;
                signature <-
                  call (EvSendRawTransaction raw) (sendRawTransaction svc raw) ;;
                call (EvConfirmTransaction signature)
                  (confirmTransaction svc signature) ;;
                ret (res_json (JObj [("success", JBool true);
                                     ("signature", JStr signature)]%string))
          end
    end.

(** ** POST /api/buy *)
Definition api_buy (body : JsObject) : M W Response :=
  try_catch (api_buy_try body)
    (fun error =>
       emit (EvConsoleError "Error in /api/buy:" error) ;;
       ret (res_status_json 500 (json_error (message error)))).

(** ** POST /api/sell: the body of the [try] block *)
Definition api_sell_try (body : JsObject) : M W Response :=
  let telegramId := get_property body "telegramId" in
  let tradeAmount := get_property body "tradeAmount" in
  let slippage := get_property body "slippage" in
  let inputMint := get_property body "inputMint" in
  let outputMint := get_property body "outputMint" in
  if negb (ToBoolean telegramId) || negb (ToBoolean tradeAmount)
     || negb (ToBoolean slippage) || negb (ToBoolean inputMint)
     || negb (ToBoolean outputMint)
  then ret (res_status_json 400 (json_error "Missing required fields."))
  else
    user <- call (EvFindOne telegramId) (User_findOne svc telegramId) ;;
    match user with
    | None =>
        ret (res_status_json 400
               (json_error "User not found or no wallets available."))
    | Some user =>
        if (length (wallets user) =? 0)%nat
        then ret (res_status_json 400
                    (json_error "User not found or no wallets available."))
        else
          match Array_get (wallets user) (activeWalletIndex user) with
          | None => throw (cannot_read "undefined" "publicKey")
          | Some activeWallet =>
              publicKey <- lift (new_PublicKey web3 (publicKey activeWallet)) ;;
              decryptedSecret <-
                lift (decryptSecret aes256 (encryptionKeyBuffer cfg)
                        (secretKey activeWallet)) ;;
              secret <- lift (decodeKeypairSecret decryptedSecret) ;;
              userKeypair <- lift (Keypair_fromSecretKey web3 secret) ;;
              if negb (String.eqb
                         (PublicKey_toString web3
                            (Keypair_publicKey web3 userKeypair))
                         (PublicKey_toString web3 publicKey))
              then ret (res_status_json 500
                          (json_error
                             "Wallet decryption error: public key mismatch."))
              else
                tradeAmount' <- lift (ToNumber rt tradeAmount) ;;
                let amount := Math_floor (tradeAmount' * LAMPORTS_PER_SOL) in
                swapTxBase64 <-
                  getJupiterSwapTransaction
                    (Keypair_publicKey web3 userKeypair)
                    inputMint outputMint amount slippage ;;
                swapTxBuffer <- lift (Buffer_from rt swapTxBase64) ;;
                swapTransaction <- lift (Transaction_from web3 swapTxBuffer) ;;
                emit EvPartialSign ;;
                swapTransaction <-
                  lift (partialSign web3 swapTransaction userKeypair) ;;
                raw <- lift (serialize web3 swapTransaction) ;;
                signature <-
                  call (EvSendRawTransaction raw) (sendRawTransaction svc raw) ;;
                call (EvConfirmTransaction signature)
                  (confirmTransaction svc signature) ;;
                ret (res_json (JObj [("success", JBool true);
                                     ("signature", JStr signature)]%string))
          end
    end.

(** ** POST /api/sell *)
Definition api_sell (body : JsObject) : M W Response :=
  try_catch (api_sell_try body)
    (fun error =>
       emit (EvConsoleError "Error in /api/sell:" error) ;;
       ret (res_status_json 500 (json_error (message error)))).

(** ** The application: the middleware in the order of the [app.use]
    calls, then the routes *)
Definition app (req : Request) : M W Response :=
  match payload req with
  | BodyRejected code page => ret {| status := code; body := Html page |}
  | BodyParsed body =>
      match checkApiKey req with
      | Some res => ret res
      | None =>
          match route req with
          | PostApiBuy => api_buy body
          | PostApiSell => api_sell body
          | NoRoute page => ret {| status := 404; body := Html page |}
          end
      end
  end.

End TradeApi.

Arguments getJupiterSwapTransaction {W} rt web3 svc userPublicKey
  inputMint outputMint amount slippage.
Arguments api_buy_try {W} aes256 rt web3 svc cfg body.
Arguments api_buy {W} aes256 rt web3 svc cfg body.
Arguments api_sell_try {W} aes256 rt web3 svc cfg body.
Arguments api_sell {W} aes256 rt web3 svc cfg body.
Arguments app {W} aes256 rt web3 svc cfg req.

(** The two requests to the aggregator, as [getJupiterSwapTransaction]
    builds them. *)
Definition quote_request (inputMint outputMint amount slippage : string)
  : FetchRequest :=
  {| url := "https://quote-api.jup.ag/v1/quote?inputMint=" ++ inputMint
            ++ "&outputMint=" ++ outputMint
            ++ "&amount=" ++ amount
            ++ "&slippage=" ++ slippage
            ++ "&onlyDirectRoutes=false";
     init := None |}.

Definition swap_request (rt : Runtime) (route : JsValue) (userPublicKey : string)
  : FetchRequest :=
  {| url := "https://quote-api.jup.ag/v1/swap";
     init := Some
       {| init_method := "POST";
          init_headers := [("Content-Type", "application/json")];
          init_body :=
            JSON_stringify rt
              (JObj [("route", route); ("userPublicKey", JStr userPublicKey)])
       |} |}.

(** The answers of the handlers. *)
Definition unauthorized : Response :=
  res_status_json 401 (json_error "Unauthorized: Invalid API key").

Definition missing_fields : Response :=
  res_status_json 400 (json_error "Missing required fields.").

Definition not_found : Response :=
  res_status_json 400 (json_error "User not found or no wallets available.").

Definition key_mismatch : Response :=
  res_status_json 500
    (json_error "Wallet decryption error: public key mismatch.").

(** A handler starts in a world [w] with nothing done yet. *)
Definition start {W : Type} (w : W) : State W := {| world := w; trace := [] |}.

(** The five fields every trade request must carry. *)
Definition required_fields : list string :=
  ["telegramId"; "tradeAmount"; "slippage"; "inputMint"; "outputMint"].

Definition fields_present (body : JsObject) : bool :=
  forallb (fun f => ToBoolean (get_property body f)) required_fields.

(** The outcome of a handler: it answered with status [code]. *)
Definition responded {W : Type} (out : Outcome Response * State W)
    (code : nat) : Prop :=
  exists res, fst out = Ok res /\ status res = code.

(** The outcome of a handler: no event of the kind [p] in its trace. *)
Definition never {W : Type} (p : Event -> bool)
    (out : Outcome Response * State W) : Prop :=
  existsb p (trace (snd out)) = false.

Definition with_route (r : Route) (req : Request) : Request :=
  {| headers := headers req; route := r; payload := payload req |}.

Definition is_trade_route (r : Route) : bool :=
  match r with PostApiBuy | PostApiSell => true | NoRoute _ => false end.

(* ================================================================== *)
(** * Part 4, continued: a stubbed world

    The end-to-end scenario of the specification: user ["12345"] has one
    wallet whose encrypted secret matches its public key; the aggregator
    returns routes and an unsigned transaction; the network accepts the
    broadcast.  Three more users exercise the failure paths. *)
(* ================================================================== *)

Module Stub.

(** [s] between double quotes. *)
Definition quoted (s : string) : string :=
  String (ascii_of_nat 34) (s ++ String (ascii_of_nat 34) "").

(** Integers, and numbers with one decimal. *)
Definition number_to_string (x : float) : string :=
  match float_to_Z x, float_to_Z (x * 10) with
  | Some z, _ => NilZero.string_of_int (Z.to_int z)
  | None, Some z =>
      (if (z <? 0)%Z then "-" else "")
      ++ NilZero.string_of_int (Z.to_int (Z.abs z / 10))
      ++ "." ++ NilZero.string_of_int (Z.to_int (Z.abs z mod 10))
  | None, None => "NaN"
  end.

Definition runtime : Runtime := {|
  StringToNumber := fun _ => nan;
  NumberToString := number_to_string;
  ObjectToString := fun _ => Ok "[object Object]";
  String_at_0 := fun s => match s with
                          | String c _ => String c ""
                          | EmptyString => ""
                          end;
  JSON_stringify := fun v =>
    match v with
    | JObj [(_, JStr route); (_, JStr key)] =>
        "{" ++ quoted "route" ++ ":" ++ quoted route ++ ","
        ++ quoted "userPublicKey" ++ ":" ++ quoted key ++ "}"
    | _ => "{}"
    end;
  Buffer_from_object := fun _ =>
    Throw (Error "The first argument must be of type string")
|}.

(** A chain library in which the public key of a secret [s] is
    ["pub-" ++ s] and a transaction is its message with its signers. *)
Definition web3 : Web3 := {|
  PublicKey := string;
  Keypair := string;
  Transaction := Buffer * list string;
  new_PublicKey := fun s =>
    if String.eqb s "" then Throw (Error "Invalid public key input")
    else Ok s;
  PublicKey_toString := fun pk => pk;
  bs58_decode := fun s => Ok (list_ascii_of_string s);
  Keypair_fromSecretKey := fun b => Ok (string_of_list_ascii b);
  Keypair_publicKey := fun kp => "pub-" ++ kp;
  Transaction_from := fun b => Ok (b, []);
  partialSign := fun tx kp => Ok (fst tx, snd tx ++ [kp])%list;
  serialize := fun tx =>
    match snd tx with
    | [] => Throw (Error "Signature verification failed")
    | _ => Ok (fst tx)
    end
|}.

(** The environment of the process. *)
Definition env (name : string) : option string :=
  if String.eqb name "API_KEY" then Some "test-api-key"
  else if String.eqb name "ENCRYPTION_KEY"
  then Some "000102030405060708090a0b0c0d0e0f101112131415161718191a1b1c1d1e1f"
  else None.

Definition key : Buffer :=
  Buffer_from_hex
    "000102030405060708090a0b0c0d0e0f101112131415161718191a1b1c1d1e1f".

Definition config : Config := {|
  API_KEY := "test-api-key";
  encryptionKeyBuffer := key
|}.

Definition iv : Buffer := Buffer_from_hex "000102030405060708090a0b0c0d0e0f".

(** ["secret"], encrypted under [key] with [iv]. *)
Definition encrypted_secret : string :=
  "AAECAwQFBgcICQoLDA0ODw==:6H5G+J59TZQMdlkJH18ekw==".

Definition wallet : Wallet := {|
  label := "Unnamed Wallet";
  publicKey := "pub-secret";
  secretKey := encrypted_secret
|}.

Definition user : User := {|
  telegramId := "12345";
  wallets := [wallet];
  activeWalletIndex := 0;
  settings := default_settings
|}.

(** The stored public key is not the one of the stored secret. *)
Definition user_mismatch : User := {|
  telegramId := "mismatch";
  wallets := [{| label := "Unnamed Wallet"; publicKey := "pub-other";
                 secretKey := encrypted_secret |}];
  activeWalletIndex := 0;
  settings := default_settings
|}.

Definition user_no_wallet : User := {|
  telegramId := "nowallet";
  wallets := [];
  activeWalletIndex := 0;
  settings := default_settings
|}.

Definition user_bad_index : User := {|
  telegramId := "badindex";
  wallets := [wallet];
  activeWalletIndex := 1;
  settings := default_settings
|}.

Definition users : list User :=
  [user; user_mismatch; user_no_wallet; user_bad_index].

(** The world counts the transactions broadcast. *)
Definition World : Type := nat.

Definition findOne (q : JsValue) (w : World) : Outcome (option User) * World :=
  match q with
  | JStr id => (Ok (find (fun u => String.eqb (telegramId u) id) users), w)
  | _ => (Ok None, w)
  end.

Definition routes : JsValue := JArr [JStr "route-1"; JStr "route-2"].

Definition aggregator (r : FetchRequest) (w : World)
  : Outcome FetchResponse * World :=
  match init r with
  | None =>
      (Ok {| ok := true; statusText := "OK";
             json := Ok (JObj [("routes", routes)]) |}, w)
  | Some _ =>
      (Ok {| ok := true; statusText := "OK";
             json := Ok (JObj [("swapTransaction", JStr "dHg=")]) |}, w)
  end.

Definition services : Services World := {|
  User_findOne := findOne;
  fetch := aggregator;
  sendRawTransaction := fun _ w => (Ok "stub-signature", S w);
  confirmTransaction := fun _ w => (Ok tt, w)
|}.

Definition trade (id : string) (tradeAmount : float) : JsObject :=
  [("telegramId", JStr id);
   ("tradeAmount", JNum tradeAmount);
   ("slippage", JNum 0.5);
   ("inputMint", JStr "So11111111111111111111111111111111111111112");
   ("outputMint", JStr "EPjFWdd5AufqSSqeM2qN1xzybapC8G4wEGGkZwyTDt1v")].

Definition request (r : Route) (id : string) (tradeAmount : float)
  : Request := {|
  headers := [("content-type", "application/json");
              ("x-api-key", "test-api-key")];
  route := r;
  payload := BodyParsed (trade id tradeAmount)
|}.

(** Seventeen bytes, the sixteenth being 1. *)
Definition padded_looking : string :=
  "ABCDEFGHIJKLMNO" ++ String (ascii_of_nat 1) "Z".

Definition server : Request -> M World Response :=
  app AES256 runtime web3 services config.

End Stub.

(* ================================================================== *)
(** * Part 4, continued: notions used to state further properties *)
(* ================================================================== *)

(** ** Hexadecimal digits, as [Buffer.from(s, 'hex')] reads them *)



(** ** The calls of a trade, in the order of the source *)




(** ** What the handlers read of a stored user: the index and, of each
    wallet, the two keys *)

Definition wallet_keys (w : Wallet) : string * string :=
  (publicKey w, secretKey w).

Definition same_wallets (u u' : User) : Prop :=
  activeWalletIndex u = activeWalletIndex u' /\
  map wallet_keys (wallets u) = map wallet_keys (wallets u').

(** The services with every stored user seen through [f]. *)
Definition map_users {W : Type} (f : User -> User) (svc : Services W)
  : Services W := {|
  User_findOne := fun q w =>
    let (found, w') := User_findOne svc q w in
    (match found with
     | Ok (Some user) => Ok (Some (f user))
     | other => other
     end, w');
  fetch := fetch svc;
  sendRawTransaction := sendRawTransaction svc;
  confirmTransaction := confirmTransaction svc
|}.

(** ** A stubbed world with faults *)

Module Faults.

(** The store is down. *)
Definition store_down : Services Stub.World := {|
  User_findOne := fun _ w => (Throw (Error "connect ECONNREFUSED 127.0.0.1:27017"), w);
  fetch := Stub.aggregator;
  sendRawTransaction := fun _ w => (Ok "stub-signature", S w);
  confirmTransaction := fun _ w => (Ok tt, w)
|}.

(** The network accepts the broadcast and then fails to confirm it. *)
Definition unconfirmed : Services Stub.World := {|
  User_findOne := Stub.findOne;
  fetch := Stub.aggregator;
  sendRawTransaction := fun _ w => (Ok "stub-signature", S w);
  confirmTransaction := fun _ w =>
    (Throw (Error "Transaction was not confirmed in 30.00 seconds"), w)
|}.

(** A user whose stored secret has lost its IV part. *)
Definition user_corrupted : User := {|
  telegramId := "corrupted";
  wallets := [{| label := "Unnamed Wallet"; publicKey := "pub-secret";
                 secretKey := "6H5G+J59TZQMdlkJH18ekw==" |}];
  activeWalletIndex := 0;
  settings := default_settings
|}.

Definition corrupted_store : Services Stub.World := {|
  User_findOne := fun _ w => (Ok (Some user_corrupted), w);
  fetch := Stub.aggregator;
  sendRawTransaction := fun _ w => (Ok "stub-signature", S w);
  confirmTransaction := fun _ w => (Ok tt, w)
|}.

(** Other settings and another label for every user. *)
Definition relabel (u : User) : User := {|
  telegramId := telegramId u;
  wallets := map (fun w => {| label := "Main"; publicKey := publicKey w;
                              secretKey := secretKey w |}) (wallets u);
  activeWalletIndex := activeWalletIndex u;
  settings := {| buy := {| slippage := 3; tradeAmount := 25 |};
                 sell := {| slippage := 3; tradeAmount := 25 |} |}
|}.

End Faults.

(* ================================================================== *)
(** * Part 5: theorems *)
(* ================================================================== *)

(** ** Bytes and base64 *)

Lemma xor_byte_involutive (a b : byte) : xor_byte (xor_byte a b) b = a.
Proof.
  destruct a, b; unfold xor_byte.
  now rewrite !xorb_assoc, !xorb_nilpotent, !xorb_false_r.
Qed.

Lemma xor_buffer_involutive (a b : Buffer) :
  length a <= length b -> xor_buffer (xor_buffer a b) b = a.
Proof.
  revert b; induction a as [|x a IH]; intros [|y b] H; simpl in *;
    try lia; auto.
  now rewrite xor_byte_involutive, IH by lia.
Qed.

Lemma xor_buffer_length (a b : Buffer) :
  length a <= length b -> length (xor_buffer a b) = length a.
Proof.
  revert b; induction a as [|x a IH]; intros [|y b] H; simpl in *;
    try lia; auto.
  now rewrite IH by lia.
Qed.

Lemma base64_char_sextet (s : byte) :
  is_sextet s ->
  unbase64 (base64_char s) = Some s /\
  Ascii.eqb (base64_char s) "="%char = false /\
  Ascii.eqb (base64_char s) ":"%char = false.
Proof.
  destruct s as [b0 b1 b2 b3 b4 b5 [|] [|]]; simpl; try contradiction.
  intros _.
  destruct b0, b1, b2, b3, b4, b5; repeat split; reflexivity.
Qed.

Lemma sextet1_is_sextet a : is_sextet (sextet1 a).
Proof. now destruct a. Qed.

Lemma sextet2_is_sextet a b : is_sextet (sextet2 a b).
Proof. now destruct a, b. Qed.

Lemma sextet3_is_sextet a b : is_sextet (sextet3 a b).
Proof. now destruct a, b. Qed.

Lemma sextet4_is_sextet a : is_sextet (sextet4 a).
Proof. now destruct a. Qed.

Create HintDb sextets.

#[local] Hint Resolve sextet1_is_sextet sextet2_is_sextet sextet3_is_sextet
  sextet4_is_sextet : sextets.

Lemma base64_sextets_char (s : byte) (rest : string) :
  is_sextet s ->
  base64_sextets (String (base64_char s) rest) = s :: base64_sextets rest.
Proof.
  intros H. destruct (base64_char_sextet s H) as (Hu & Hp & _).
  simpl. now rewrite Hp, Hu.
Qed.

Lemma unsextet1_sextet x y : unsextet1 (sextet1 x) (sextet2 x y) = x.
Proof. now destruct x, y. Qed.

Lemma unsextet2_sextet x y z : unsextet2 (sextet2 x y) (sextet3 y z) = y.
Proof. now destruct x, y, z. Qed.

Lemma unsextet3_sextet y z : unsextet3 (sextet3 y z) (sextet4 z) = z.
Proof. now destruct y, z. Qed.

(** Induction on buffers three bytes at a time. *)
Lemma Buffer_ind3 (P : Buffer -> Prop) :
  P [] -> (forall x, P [x]) -> (forall x y, P [x; y]) ->
  (forall x y z rest, P rest -> P (x :: y :: z :: rest)) ->
  forall b, P b.
Proof.
  intros H0 H1 H2 H3.
  assert (H : forall n b, length b <= n -> P b).
  { induction n as [|n IH]; intros b Hb.
    - destruct b; [exact H0 | simpl in Hb; lia].
    - destruct b as [|x [|y [|z rest]]]; auto.
      apply H3, IH. simpl in Hb. lia. }
  intros b. now apply (H (length b)).
Qed.

Lemma Buffer_from_base64_encode (b : Buffer) :
  Buffer_from_base64 (base64_encode b) = b.
Proof.
  unfold Buffer_from_base64.
  induction b as [|x|x y|x y z rest IH] using Buffer_ind3.
  - reflexivity.
  - cbn [base64_encode].
    rewrite !base64_sextets_char by auto with sextets.
    cbn. now rewrite unsextet1_sextet.
  - cbn [base64_encode].
    rewrite !base64_sextets_char by auto with sextets.
    cbn. now rewrite unsextet1_sextet, unsextet2_sextet.
  - cbn [base64_encode].
    rewrite !base64_sextets_char by auto with sextets.
    cbn [base64_bytes].
    now rewrite unsextet1_sextet, unsextet2_sextet, unsextet3_sextet, IH.
Qed.

Lemma base64_encode_app (k : nat) (xs ys : Buffer) :
  length xs = 3 * k ->
  base64_encode (xs ++ ys)%list = base64_encode xs ++ base64_encode ys.
Proof.
  revert xs; induction k as [|k IH]; intros xs H.
  - destruct xs; [reflexivity | simpl in H; lia].
  - destruct xs as [|x [|y [|z rest]]]; simpl in H; try lia.
    cbn [base64_encode Datatypes.app]. rewrite IH by lia. reflexivity.
Qed.

(** No character of an encoded buffer is a colon. *)
Lemma base64_encode_no_colon (b : Buffer) :
  occurs ":" (base64_encode b) = false.
Proof.
  induction b as [|x|x y|x y z rest IH] using Buffer_ind3;
    cbn [base64_encode occurs];
    repeat match goal with
      | |- context [Ascii.eqb (base64_char ?s) ":"%char] =>
          let H := fresh in
          assert (H : is_sextet s) by auto with sextets;
          rewrite (proj2 (proj2 (base64_char_sextet s H))); clear H
      end; auto.
Qed.

Lemma split_no_sep (sep : ascii) (s : string) :
  occurs sep s = false -> split sep s = [s].
Proof.
  induction s as [|c s IH]; simpl; auto.
  intros H. apply orb_false_elim in H as [Hc Hs].
  now rewrite Hc, IH.
Qed.

Lemma split_app_sep (sep : ascii) (s1 s2 : string) :
  occurs sep s1 = false -> occurs sep s2 = false ->
  split sep (s1 ++ String sep s2) = [s1; s2].
Proof.
  intros H1 H2. induction s1 as [|c s1 IH]; simpl in *.
  - now rewrite Ascii.eqb_refl, split_no_sep.
  - apply orb_false_elim in H1 as [Hc Hs].
    now rewrite Hc, IH.
Qed.

(** ** Blocks, padding and chaining *)

Lemma chunks_fuel (f1 f2 : nat) (d : Buffer) :
  length d <= f1 -> length d <= f2 -> chunks f1 d = chunks f2 d.
Proof.
  revert f2 d; induction f1 as [|f1 IH]; intros f2 d H1 H2.
  - destruct d; [|simpl in H1; lia]. now destruct f2.
  - destruct f2 as [|f2].
    + destruct d; [reflexivity | simpl in H2; lia].
    + destruct d as [|x d]; [reflexivity|].
      cbn [chunks]. f_equal.
      apply IH; rewrite length_skipn; simpl in *; lia.
Qed.

Lemma blocks_nil : blocks [] = [].
Proof. reflexivity. Qed.

Lemma blocks_cons (b rest : Buffer) :
  length b = 16 -> blocks (b ++ rest)%list = b :: blocks rest.
Proof.
  intros Hb. unfold blocks.
  destruct b as [|x b]; [discriminate|].
  cbn [Datatypes.app length chunks].
  change (x :: (b ++ rest)%list) with ((x :: b) ++ rest)%list.
  rewrite firstn_app, skipn_app, Hb, Nat.sub_diag.
  rewrite firstn_all2, skipn_all2 by lia.
  cbn [firstn skipn Datatypes.app]. rewrite app_nil_r. f_equal.
  apply chunks_fuel; rewrite ?length_app; simpl in *; lia.
Qed.

Lemma blocks_short (d : Buffer) :
  d <> [] -> length d <= 16 -> blocks d = [d].
Proof.
  intros Hd Hl. unfold blocks. destruct d as [|x d]; [congruence|].
  cbn [length chunks]. rewrite firstn_all2, skipn_all2 by (simpl in *; lia).
  now destruct (length d).
Qed.

Lemma blocks_app (k : nat) (xs ys : Buffer) :
  length xs = 16 * k -> blocks (xs ++ ys)%list = (blocks xs ++ blocks ys)%list.
Proof.
  revert xs; induction k as [|k IH]; intros xs H.
  - destruct xs; [reflexivity | simpl in H; lia].
  - assert (Hf : length (firstn 16 xs) = 16) by (rewrite length_firstn; lia).
    assert (Hs : length (skipn 16 xs) = 16 * k) by (rewrite length_skipn; lia).
    rewrite <- (firstn_skipn 16 xs), <- app_assoc.
    rewrite (blocks_cons _ (skipn 16 xs ++ ys)%list Hf).
    rewrite (blocks_cons _ (skipn 16 xs) Hf).
    now rewrite IH.
Qed.

Lemma blocks_whole (k : nat) (d : Buffer) :
  length d = 16 * k ->
  Forall (fun b => length b = 16) (blocks d) /\ concat (blocks d) = d /\
  length (blocks d) = k.
Proof.
  revert d; induction k as [|k IH]; intros d H.
  - destruct d; [now repeat constructor | simpl in H; lia].
  - rewrite <- (firstn_skipn 16 d).
    assert (Hf : length (firstn 16 d) = 16) by (rewrite length_firstn; lia).
    rewrite blocks_cons by assumption.
    destruct (IH (skipn 16 d)) as (IH1 & IH2 & IH3);
      [rewrite length_skipn; lia|].
    repeat split.
    + now constructor.
    + cbn [concat]. now rewrite IH2.
    + cbn [length]. now rewrite IH3.
Qed.

(** Cutting a buffer at the last block boundary. *)
Lemma whole_blocks_cut (d : Buffer) :
  let n := 16 * (length d / 16) in
  length (firstn n d) = n /\ length (skipn n d) = length d mod 16.
Proof.
  intros n. subst n.
  pose proof (Nat.div_mod_eq (length d) 16).
  rewrite length_firstn, length_skipn. lia.
Qed.

Lemma nat_of_ascii_of_small (n : nat) :
  n <= 16 -> nat_of_ascii (ascii_of_nat n) = n.
Proof. intros H. apply nat_ascii_embedding. lia. Qed.

Lemma forallb_repeat_eqb (c : ascii) (n : nat) :
  forallb (Ascii.eqb c) (repeat c n) = true.
Proof.
  induction n; simpl; auto. now rewrite Ascii.eqb_refl.
Qed.

Lemma last_app_repeat (d : Buffer) (c : ascii) (n : nat) :
  0 < n -> last (d ++ repeat c n)%list zero_byte = c.
Proof.
  intros Hn. destruct n as [|n]; [lia|].
  replace (repeat c (S n)) with (repeat c n ++ [c])%list
    by (now rewrite <- repeat_cons).
  now rewrite app_assoc, last_last.
Qed.

(** The last block of a padded buffer unpads to what was left over. *)
Lemma pkcs7_unpad_pad (d : Buffer) :
  length d < 16 -> pkcs7_unpad (pkcs7_pad d) = Some d.
Proof.
  intros Hd. unfold pkcs7_pad, pkcs7_unpad.
  rewrite Nat.mod_small by assumption.
  set (n := 16 - length d).
  assert (Hn : 0 < n <= 16) by (subst n; lia).
  rewrite last_app_repeat by lia.
  rewrite nat_of_ascii_of_small by lia.
  replace (16 - n) with (length d) by (subst n; lia).
  destruct (Nat.eqb_spec n 0); [lia|].
  destruct (Nat.ltb_spec 16 n); [lia|]. cbn [orb].
  rewrite skipn_app, firstn_app, Nat.sub_diag.
  rewrite skipn_all, firstn_all. cbn [skipn firstn Datatypes.app].
  now rewrite forallb_repeat_eqb, app_nil_r.
Qed.

Lemma pkcs7_pad_length (d : Buffer) :
  length d < 16 -> length (pkcs7_pad d) = 16.
Proof.
  intros Hd. unfold pkcs7_pad.
  rewrite length_app, repeat_length, Nat.mod_small by assumption. lia.
Qed.

Lemma pkcs7_pad_cut (d : Buffer) :
  let n := 16 * (length d / 16) in
  pkcs7_pad d = (firstn n d ++ pkcs7_pad (skipn n d))%list.
Proof.
  intros n. destruct (whole_blocks_cut d) as [_ Hs]. fold n in Hs.
  unfold pkcs7_pad. rewrite Hs, Nat.Div0.mod_mod.
  now rewrite app_assoc, firstn_skipn.
Qed.

Section CbcFacts.

Variable aes256 : BlockCipher.

Lemma cbc_encrypt_app (key chain : Buffer) (xs ys : list Buffer) :
  cbc_encrypt aes256 key chain (xs ++ ys)%list =
  let (cs, chain') := cbc_encrypt aes256 key chain xs in
  let (cs', chain'') := cbc_encrypt aes256 key chain' ys in
  ((cs ++ cs')%list, chain'').
Proof.
  revert chain; induction xs as [|x xs IH]; intros chain; cbn [Datatypes.app cbc_encrypt].
  - now destruct (cbc_encrypt aes256 key chain ys).
  - rewrite IH.
    destruct (cbc_encrypt aes256 key _ xs) as [cs chain'].
    now destruct (cbc_encrypt aes256 key chain' ys).
Qed.

Lemma cbc_decrypt_app (key chain : Buffer) (xs ys : list Buffer) :
  cbc_decrypt aes256 key chain (xs ++ ys)%list =
  let (ps, chain') := cbc_decrypt aes256 key chain xs in
  let (ps', chain'') := cbc_decrypt aes256 key chain' ys in
  ((ps ++ ps')%list, chain'').
Proof.
  revert chain; induction xs as [|x xs IH]; intros chain; cbn [Datatypes.app cbc_decrypt].
  - now destruct (cbc_decrypt aes256 key chain ys).
  - rewrite IH.
    destruct (cbc_decrypt aes256 key x xs) as [ps chain'].
    now destruct (cbc_decrypt aes256 key chain' ys).
Qed.

Hypothesis aes256_laws : BlockCipherLaws aes256.

Lemma cbc_encrypt_blocks (key chain : Buffer) (bs : list Buffer) :
  length key = 32 ->
  Forall (fun b => length b = 16) bs -> length chain = 16 ->
  Forall (fun b => length b = 16) (fst (cbc_encrypt aes256 key chain bs)) /\
  length (fst (cbc_encrypt aes256 key chain bs)) = length bs.
Proof.
  intros Hk Hbs; revert chain; induction Hbs as [|b bs Hb Hbs IH];
    intros chain Hc; cbn [cbc_encrypt].
  - now split.
  - set (c := encrypt_block aes256 key (xor_buffer b chain)).
    assert (Hl : length c = 16).
    { apply (encrypt_block_length aes256 aes256_laws); [assumption|].
      rewrite xor_buffer_length; lia. }
    destruct (IH c Hl) as [IH1 IH2].
    destruct (cbc_encrypt aes256 key c bs) as [cs chain'].
    cbn [fst length] in *. split; [now constructor | now rewrite IH2].
Qed.

Lemma cbc_decrypt_encrypt (key chain : Buffer) (bs : list Buffer) :
  length key = 32 ->
  Forall (fun b => length b = 16) bs -> length chain = 16 ->
  fst (cbc_decrypt aes256 key chain (fst (cbc_encrypt aes256 key chain bs)))
  = bs.
Proof.
  intros Hk Hbs; revert chain; induction Hbs as [|b bs Hb Hbs IH];
    intros chain Hc; cbn [cbc_encrypt]; [reflexivity|].
  set (c := encrypt_block aes256 key (xor_buffer b chain)).
  assert (Hx : length (xor_buffer b chain) = 16)
    by (rewrite xor_buffer_length; lia).
  assert (Hl : length c = 16)
    by (now apply (encrypt_block_length aes256 aes256_laws)).
  specialize (IH c Hl).
  destruct (cbc_encrypt aes256 key c bs) as [cs chain'].
  cbn [fst cbc_decrypt] in *.
  destruct (cbc_decrypt aes256 key c cs) as [ps chain''].
  cbn [fst] in *. subst c.
  rewrite (decrypt_encrypt_block aes256 aes256_laws) by assumption.
  rewrite xor_buffer_involutive by lia. now subst ps.
Qed.

End CbcFacts.

(** ** AES-256 is a block cipher *)

Module AESFacts.
Import AES.

Lemma InvSubByte_SubByte (b : byte) : InvSubByte (SubByte b) = b.
Proof.
  destruct b as [[|] [|] [|] [|] [|] [|] [|] [|]]; reflexivity.
Qed.

Lemma InvSubBytes_SubBytes (s : Buffer) : InvSubBytes (SubBytes s) = s.
Proof.
  unfold InvSubBytes, SubBytes. rewrite map_map.
  rewrite <- (map_id s) at 2. apply map_ext. exact InvSubByte_SubByte.
Qed.

Ltac sixteen s :=
  do 16 (destruct s as [|? s]; [discriminate|]);
  destruct s; [|discriminate].

Lemma InvShiftRows_ShiftRows (s : Buffer) :
  length s = 16 -> InvShiftRows (ShiftRows s) = s.
Proof. intros H. sixteen s. reflexivity. Qed.

Lemma ShiftRows_length (s : Buffer) : length (ShiftRows s) = length s.
Proof.
  unfold ShiftRows.
  do 17 (destruct s as [|? s]; [reflexivity|]). reflexivity.
Qed.

Lemma InvMixColumns_MixColumns_column (a0 a1 a2 a3 : byte) :
  let b0 := xor4 (mul2 a0) (mul3 a1) a2 a3 in
  let b1 := xor4 a0 (mul2 a1) (mul3 a2) a3 in
  let b2 := xor4 a0 a1 (mul2 a2) (mul3 a3) in
  let b3 := xor4 (mul3 a0) a1 a2 (mul2 a3) in
  xor4 (mul14 b0) (mul11 b1) (mul13 b2) (mul9 b3) = a0 /\
  xor4 (mul9 b0) (mul14 b1) (mul11 b2) (mul13 b3) = a1 /\
  xor4 (mul13 b0) (mul9 b1) (mul14 b2) (mul11 b3) = a2 /\
  xor4 (mul11 b0) (mul13 b1) (mul9 b2) (mul14 b3) = a3.
Proof.
  destruct a0, a1, a2, a3.
  cbv [xor4 mul2 mul3 mul4 mul8 mul9 mul11 mul13 mul14 xtime xor_byte].
  repeat split; f_equal; btauto.
Qed.

Lemma InvMixColumns_MixColumns (s : Buffer) :
  InvMixColumns (MixColumns s) = s.
Proof.
  assert (H : forall n s, length s <= n -> InvMixColumns (MixColumns s) = s).
  { induction n as [|n IH]; intros s' Hn.
    - destruct s'; [reflexivity | simpl in Hn; lia].
    - destruct s' as [|a0 [|a1 [|a2 [|a3 rest]]]]; try reflexivity.
      cbn [MixColumns InvMixColumns].
      destruct (InvMixColumns_MixColumns_column a0 a1 a2 a3)
        as (-> & -> & -> & ->).
      rewrite IH; [reflexivity | simpl in Hn; lia]. }
  now apply (H (length s)).
Qed.

Lemma MixColumns_length (s : Buffer) : length (MixColumns s) = length s.
Proof.
  assert (H : forall n s, length s <= n -> length (MixColumns s) = length s).
  { induction n as [|n IH]; intros s' Hn.
    - destruct s'; [reflexivity | simpl in Hn; lia].
    - destruct s' as [|a0 [|a1 [|a2 [|a3 rest]]]]; try reflexivity.
      cbn [MixColumns length]. rewrite IH; [reflexivity | simpl in Hn; lia]. }
  now apply (H (length s)).
Qed.

Lemma round_length (s k : Buffer) :
  length s = 16 -> length k = 16 -> length (round s k) = 16.
Proof.
  intros Hs Hk. unfold round, AddRoundKey, SubBytes.
  rewrite xor_buffer_length;
    rewrite MixColumns_length, ShiftRows_length, length_map; lia.
Qed.

Lemma inv_round_round (s k : Buffer) :
  length s = 16 -> length k = 16 -> inv_round (round s k) k = s.
Proof.
  intros Hs Hk. unfold inv_round, round, AddRoundKey.
  rewrite xor_buffer_involutive
    by (unfold SubBytes;
        rewrite MixColumns_length, ShiftRows_length, length_map; lia).
  rewrite InvMixColumns_MixColumns, InvShiftRows_ShiftRows
    by (unfold SubBytes; now rewrite length_map).
  apply InvSubBytes_SubBytes.
Qed.

Lemma final_round_length (s k : Buffer) :
  length s = 16 -> length k = 16 -> length (final_round s k) = 16.
Proof.
  intros Hs Hk. unfold final_round, AddRoundKey, SubBytes.
  rewrite xor_buffer_length; rewrite ShiftRows_length, length_map; lia.
Qed.

Lemma inv_final_round_final_round (s k : Buffer) :
  length s = 16 -> length k = 16 -> inv_final_round (final_round s k) k = s.
Proof.
  intros Hs Hk. unfold inv_final_round, final_round, AddRoundKey.
  rewrite xor_buffer_involutive
    by (unfold SubBytes; rewrite ShiftRows_length, length_map; lia).
  rewrite InvShiftRows_ShiftRows by (unfold SubBytes; now rewrite length_map).
  apply InvSubBytes_SubBytes.
Qed.

Lemma rounds_length (ks : list Buffer) (s : Buffer) :
  Forall (fun k => length k = 16) ks -> length s = 16 ->
  length (fold_left round ks s) = 16.
Proof.
  intros Hks; revert s; induction Hks as [|k ks Hk Hks IH]; intros s Hs;
    cbn [fold_left]; [assumption|].
  apply IH. now apply round_length.
Qed.

Lemma inv_rounds_rounds (ks : list Buffer) (s : Buffer) :
  Forall (fun k => length k = 16) ks -> length s = 16 ->
  fold_right (fun k s' => inv_round s' k) (fold_left round ks s) ks = s.
Proof.
  intros Hks; revert s; induction Hks as [|k ks Hk Hks IH]; intros s Hs;
    cbn [fold_left fold_right]; [reflexivity|].
  rewrite IH by (now apply round_length). now apply inv_round_round.
Qed.

Lemma Forall_removelast {A} (P : A -> Prop) (l : list A) :
  Forall P l -> Forall P (removelast l).
Proof.
  induction 1 as [|x l Hx Hl IH]; cbn [removelast]; [constructor|].
  destruct l; [constructor|]. now constructor.
Qed.

Lemma Forall_take {A} (P : A -> Prop) (n : nat) (l : list A) :
  Forall P l -> Forall P (firstn n l).
Proof.
  intros H; revert n; induction H as [|x l Hx Hl IH]; intros [|n];
    cbn [firstn]; constructor; auto.
Qed.

Lemma Forall_last {A} (P : A -> Prop) (l : list A) (d : A) :
  l <> [] -> Forall P l -> P (last l d).
Proof.
  intros Hne H. induction H as [|x l Hx Hl IH]; [congruence|].
  destruct l; [exact Hx|]. apply IH. discriminate.
Qed.

(** With at least two round keys, all of 16 bytes, [InvCipher] undoes
    [Cipher] on a block. *)
Lemma Cipher_length (ks : list Buffer) (block : Buffer) :
  2 <= length ks -> Forall (fun k => length k = 16) ks ->
  length block = 16 ->
  length (Cipher ks block) = 16.
Proof.
  intros Hn Hks Hb. destruct ks as [|first rest]; [simpl in Hn; lia|].
  inversion Hks as [|? ? Hfirst Hrest]; subst.
  assert (rest <> []) by (destruct rest; [simpl in Hn; lia | discriminate]).
  unfold Cipher. apply final_round_length.
  - apply rounds_length; [now apply Forall_removelast|].
    unfold AddRoundKey. rewrite xor_buffer_length; lia.
  - now apply Forall_last.
Qed.

Lemma InvCipher_Cipher (ks : list Buffer) (block : Buffer) :
  2 <= length ks -> Forall (fun k => length k = 16) ks ->
  length block = 16 ->
  InvCipher ks (Cipher ks block) = block.
Proof.
  intros Hn Hks Hb. destruct ks as [|first rest]; [simpl in Hn; lia|].
  inversion Hks as [|? ? Hfirst Hrest]; subst.
  assert (rest <> []) by (destruct rest; [simpl in Hn; lia | discriminate]).
  assert (Hx : length (AddRoundKey block first) = 16)
    by (unfold AddRoundKey; rewrite xor_buffer_length; lia).
  unfold Cipher, InvCipher.
  rewrite inv_final_round_final_round;
    [| apply rounds_length; [now apply Forall_removelast | assumption]
     | now apply Forall_last].
  rewrite inv_rounds_rounds by (try apply Forall_removelast; assumption).
  unfold AddRoundKey. apply xor_buffer_involutive. lia.
Qed.

(** *** The round keys *)

Lemma next_words_eight (rcon : byte) (ws : list Buffer) :
  eight_words ws -> eight_words (next_words rcon ws).
Proof.
  intros [Hn Hw].
  do 8 (destruct ws as [|? ws]; [discriminate|]).
  destruct ws; [|discriminate].
  repeat match goal with
         | H : Forall _ (_ :: _) |- _ =>
             let Hx := fresh "Hx" in
             inversion H as [|? ? Hx ?]; subst; clear H
         end.
  repeat match goal with
         | H : length ?w = 4 |- _ =>
             do 4 (destruct w as [|? w]; [discriminate|]);
             destruct w; [clear H | discriminate]
         end.
  split; [reflexivity|]. cbn. repeat constructor.
Qed.

Lemma expand_length (rcons : list byte) (ws : list Buffer) :
  eight_words ws ->
  length (concat (expand rcons ws)) = 32 * S (length rcons).
Proof.
  revert ws; induction rcons as [|rcon rcons IH]; intros ws Hws;
    cbn [expand length].
  - destruct Hws as [Hn Hw].
    assert (H : forall l : list Buffer,
               Forall (fun w => length w = 4) l ->
               length (concat l) = 4 * length l).
    { induction 1 as [|w l Hl _ IHl]; [reflexivity|].
      cbn [concat length]. rewrite length_app. lia. }
    rewrite (H ws Hw). lia.
  - rewrite concat_app, length_app, (IH _ (next_words_eight rcon ws Hws)).
    destruct Hws as [Hn Hw].
    assert (H : forall l : list Buffer,
               Forall (fun w => length w = 4) l ->
               length (concat l) = 4 * length l).
    { induction 1 as [|w l Hl _ IHl]; [reflexivity|].
      cbn [concat length]. rewrite length_app. lia. }
    rewrite (H ws Hw). lia.
Qed.

Lemma words_eight (key : Buffer) : length key = 32 -> eight_words (words key).
Proof.
  intros H.
  do 32 (destruct key as [|? key]; [discriminate|]).
  destruct key; [|discriminate].
  split; [reflexivity|]. cbn. repeat constructor.
Qed.

Lemma KeyExpansion_keys (key : Buffer) :
  length key = 32 ->
  length (KeyExpansion key) = 15 /\
  Forall (fun k => length k = 16) (KeyExpansion key).
Proof.
  intros H. unfold KeyExpansion.
  pose proof (expand_length Rcon _ (words_eight key H)) as Hl.
  change (32 * S (length Rcon)) with (16 * 16) in Hl.
  destruct (blocks_whole 16 _ Hl) as (Hall & _ & Hn).
  split.
  - rewrite length_firstn, Hn. reflexivity.
  - now apply Forall_take.
Qed.

End AESFacts.

Lemma AES256_laws : BlockCipherLaws AES256.
Proof.
  split; intros k b Hk Hb; cbn [AES256 encrypt_block decrypt_block];
    destruct (AESFacts.KeyExpansion_keys k Hk) as [Hn Hall].
  - apply AESFacts.Cipher_length; [lia | assumption | assumption].
  - apply AESFacts.InvCipher_Cipher; [lia | assumption | assumption].
Qed.

(** ** The cipher objects *)

Lemma blocks_concat (cs : list Buffer) :
  Forall (fun b => length b = 16) cs ->
  blocks (concat cs) = cs /\ length (concat cs) = 16 * length cs.
Proof.
  induction 1 as [|c cs Hc Hcs [IH1 IH2]]; cbn [concat length].
  - now split.
  - rewrite blocks_cons, IH1, length_app by assumption. split; [reflexivity | lia].
Qed.

Lemma StringDecoder_end_eq (pending chunk : Buffer) :
  StringDecoder_end pending chunk = base64_encode (pending ++ chunk)%list.
Proof.
  unfold StringDecoder_end, StringDecoder_write.
  set (input := (pending ++ chunk)%list).
  rewrite <- (base64_encode_app (length input / 3)).
  - now rewrite firstn_skipn.
  - rewrite length_firstn.
    pose proof (Nat.div_mod_eq (length input) 3). lia.
Qed.

Lemma StringDecoder_write_end (pending chunk chunk' : Buffer) :
  fst (StringDecoder_write pending chunk) ++
  StringDecoder_end (snd (StringDecoder_write pending chunk)) chunk'
  = base64_encode (pending ++ chunk ++ chunk')%list.
Proof.
  rewrite StringDecoder_end_eq. unfold StringDecoder_write. cbn [fst snd].
  set (input := (pending ++ chunk)%list).
  rewrite <- (base64_encode_app (length input / 3)).
  - rewrite app_assoc, firstn_skipn. unfold input. now rewrite <- app_assoc.
  - rewrite length_firstn.
    pose proof (Nat.div_mod_eq (length input) 3). lia.
Qed.

Lemma string_of_list_ascii_app (a b : list ascii) :
  string_of_list_ascii (a ++ b)%list =
  string_of_list_ascii a ++ string_of_list_ascii b.
Proof. induction a; simpl; congruence. Qed.

Section VaultFacts.

Variable aes256 : BlockCipher.
Variable key : Buffer.
Hypothesis key_length : length key = 32.

(** [encryptSecret] returns the IV and the CBC ciphertext of the
    padded plaintext, both in base64, joined by a colon. *)
Lemma encryptSecret_eq (iv : Buffer) (plainText : string) :
  length iv = 16 ->
  encryptSecret aes256 key iv plainText =
  Ok (base64_encode iv ++ ":" ++
      base64_encode
        (cbc_encrypt_buffer aes256 key iv (Buffer_from_utf8 plainText))).
Proof.
  intros Hiv. unfold encryptSecret, createCipheriv, cbc_encrypt_buffer.
  rewrite key_length, Hiv. cbn [Nat.eqb negb].
  unfold Cipher_update, Cipher_final.
  cbn [cipher_key cipher_chain cipher_pending cipher_decoder Datatypes.app].
  set (data := Buffer_from_utf8 plainText).
  set (n := 16 * (length data / 16)).
  destruct (whole_blocks_cut data) as [Hf _]. fold n in Hf.
  rewrite (pkcs7_pad_cut data). fold n.
  rewrite (blocks_app (length data / 16) _ _ Hf), cbc_encrypt_app.
  destruct (cbc_encrypt aes256 key iv (blocks (firstn n data)))
    as [out chain].
  pose proof (StringDecoder_write_end [] (concat out)) as Hdec.
  destruct (StringDecoder_write [] (concat out)) as [text decoder].
  cbn [cipher_key cipher_chain cipher_pending cipher_decoder].
  destruct (cbc_encrypt aes256 key chain (blocks (pkcs7_pad (skipn n data))))
    as [out' chain'].
  cbn [fst snd] in *. rewrite Hdec. cbn [Datatypes.app].
  now rewrite concat_app.
Qed.

(** [decryptSecret] on a two-part text, as a function of the decoded
    IV and ciphertext. *)
Lemma decryptSecret_two_parts (s p0 p1 : string) :
  split ":" s = [p0; p1] ->
  let iv := Buffer_from_base64 p0 in
  let ct := Buffer_from_base64 p1 in
  decryptSecret aes256 key s =
  if negb (length iv =? 16)%nat then Throw (Error invalid_iv)
  else if ((length ct =? 0) || negb (length ct mod 16 =? 0))%nat
  then Throw (Error wrong_final_block_length)
  else
    let ps := cbc_plain_blocks aes256 key iv ct in
    match pkcs7_unpad (last ps []) with
    | Some p => Ok (Buffer_toString_utf8 (concat (removelast ps) ++ p)%list)
    | None => Throw (Error bad_decrypt)
    end.
Proof.
  intros Hs iv ct. unfold decryptSecret. rewrite Hs.
  cbn [length Nat.eqb negb nth]. fold iv.
  unfold createDecipheriv. rewrite key_length. cbn [Nat.eqb negb].
  destruct (Nat.eqb_spec (length iv) 16) as [Hiv|Hiv]; cbn [negb];
    [|reflexivity].
  unfold Decipher_update, Decipher_final, cbc_plain_blocks.
  cbn [decipher_key decipher_chain decipher_pending Datatypes.app]. fold ct.
  destruct (Nat.eqb_spec (length ct mod 16) 0) as [Hm|Hm]; cbn [negb].
  - destruct (Nat.eqb_spec (length ct) 0) as [H0|H0]; cbn [orb].
    + destruct ct; [|discriminate]. reflexivity.
    + set (n := length ct - 16).
      pose proof (Nat.div_mod_eq (length ct) 16) as Hd.
      assert (Hf : length (firstn n ct) = 16 * (length ct / 16 - 1))
        by (rewrite length_firstn; lia).
      assert (Hl : length (skipn n ct) = 16)
        by (rewrite length_skipn; lia).
      assert (Hb : blocks ct = (blocks (firstn n ct) ++ [skipn n ct])%list).
      { rewrite <- (firstn_skipn n ct) at 1.
        rewrite (blocks_app _ _ _ Hf). f_equal.
        apply blocks_short; [|lia].
        intros E; rewrite E in Hl; discriminate. }
      rewrite Hb, cbc_decrypt_app.
      destruct (cbc_decrypt aes256 key iv (blocks (firstn n ct)))
        as [ps chain].
      cbn [decipher_key decipher_chain decipher_pending cbc_decrypt].
      rewrite Hl. cbn [Nat.eqb negb concat fst].
      rewrite app_nil_r, last_last, removelast_last.
      destruct (pkcs7_unpad _); [|reflexivity].
      unfold Buffer_toString_utf8. now rewrite string_of_list_ascii_app.
  - rewrite orb_true_r.
    set (n := 16 * (length ct / 16)).
    destruct (whole_blocks_cut ct) as [_ Hl]. fold n in Hl.
    destruct (cbc_decrypt aes256 key iv (blocks (firstn n ct)))
      as [ps chain].
    cbn [decipher_key decipher_chain decipher_pending].
    assert (length ct mod 16 < 16) by (apply Nat.mod_upper_bound; lia).
    destruct (Nat.eqb_spec (length (skipn n ct)) 16); [lia|].
    reflexivity.
Qed.

Lemma decryptSecret_bad_format (s : string) :
  length (split ":" s) <> 2 ->
  decryptSecret aes256 key s = Throw (Error "Invalid encrypted text format").
Proof.
  intros H. unfold decryptSecret.
  now destruct (Nat.eqb_spec (length (split ":" s)) 2).
Qed.

Hypothesis aes256_laws : BlockCipherLaws aes256.

(** Decrypting IV and ciphertext as [encryptSecret] joins them. *)
Lemma decryptSecret_encrypted (iv : Buffer) (plainText : string) :
  length iv = 16 ->
  decryptSecret aes256 key
    (base64_encode iv ++ ":" ++
     base64_encode
       (cbc_encrypt_buffer aes256 key iv (Buffer_from_utf8 plainText)))
  = Ok plainText.
Proof.
  intros Hiv.
  set (ct := cbc_encrypt_buffer aes256 key iv (Buffer_from_utf8 plainText)).
  pose proof (split_app_sep ":" _ _ (base64_encode_no_colon iv)
                (base64_encode_no_colon ct)) as Hs.
  change (base64_encode iv ++ ":" ++ base64_encode ct)
    with (base64_encode iv ++ String ":" (base64_encode ct)).
  rewrite (decryptSecret_two_parts _ _ _ Hs). subst ct.
  rewrite !Buffer_from_base64_encode, Hiv. cbn [Nat.eqb negb].
  unfold cbc_encrypt_buffer, cbc_plain_blocks.
  set (data := Buffer_from_utf8 plainText).
  set (n := 16 * (length data / 16)).
  destruct (whole_blocks_cut data) as [Hf Hr]. fold n in Hf, Hr.
  assert (Hlt : length data mod 16 < 16) by (apply Nat.mod_upper_bound; lia).
  assert (Hp : blocks (pkcs7_pad data) =
               (blocks (firstn n data) ++ [pkcs7_pad (skipn n data)])%list).
  { rewrite (pkcs7_pad_cut data). fold n.
    rewrite (blocks_app _ _ _ Hf). f_equal.
    apply blocks_short.
    - unfold pkcs7_pad. rewrite Hr, Nat.Div0.mod_mod.
      destruct (16 - length data mod 16) eqn:E; [lia|].
      cbn [repeat]. intros C. now apply app_eq_nil in C as [_ C].
    - rewrite pkcs7_pad_length; lia. }
  assert (Hall : Forall (fun b => length b = 16) (blocks (pkcs7_pad data))).
  { rewrite Hp. apply Forall_app. split.
    - apply (blocks_whole _ _ Hf).
    - constructor; [|constructor]. apply pkcs7_pad_length. lia. }
  destruct (cbc_encrypt_blocks aes256 aes256_laws key iv _ key_length
              Hall Hiv) as [Hc Hn].
  pose proof (cbc_decrypt_encrypt aes256 aes256_laws key iv _ key_length
                Hall Hiv) as Hrt.
  destruct (blocks_concat _ Hc) as [Hb Hlen].
  set (cs := fst (cbc_encrypt aes256 key iv (blocks (pkcs7_pad data)))) in *.
  rewrite Hb, Hrt, Hlen, Hn, Hp, length_app. cbn [length].
  replace (16 * (length (blocks (firstn n data)) + 1) mod 16) with 0
    by (rewrite Nat.mul_comm, Nat.Div0.mod_mul; reflexivity).
  destruct (Nat.eqb_spec (16 * (length (blocks (firstn n data)) + 1)) 0);
    [lia|]. cbn [orb negb Nat.eqb].
  rewrite last_last, removelast_last, pkcs7_unpad_pad by lia.
  rewrite (proj1 (proj2 (blocks_whole _ _ Hf))), firstn_skipn.
  f_equal. apply string_of_list_ascii_of_string.
Qed.

End VaultFacts.

(** ** Array access *)

Lemma Array_get_out_of_bounds {A : Type} (arr : list A) (i : float) :
  (forall z, float_to_Z i = Some z -> (z < 0 \/ Z.of_nat (length arr) <= z)%Z) ->
  Array_get arr i = None.
Proof.
  intros H. unfold Array_get.
  destruct (float_to_Z i) as [z|]; [|reflexivity].
  destruct (H z eq_refl) as [Hz|Hz].
  - now apply Z.ltb_lt in Hz as ->.
  - destruct (Z.ltb_spec z 0); [reflexivity|].
    apply nth_error_None. lia.
Qed.

(** ** The handlers *)

Section TradeApiFacts.

Variable W : Type.
Variable aes256 : BlockCipher.
Variable rt : Runtime.
Variable web3 : Web3.
Variable svc : Services W.
Variable cfg : Config.

#[local] Abbreviation buy_try := (api_buy_try aes256 rt web3 svc cfg).
#[local] Abbreviation sell_try := (api_sell_try aes256 rt web3 svc cfg).
#[local] Abbreviation server := (app aes256 rt web3 svc cfg).

(** The two [try] blocks are the same code. *)
Lemma api_sell_try_eq (body : JsObject) : sell_try body = buy_try body.
Proof. reflexivity. Qed.

Lemma checkApiKey_with_route (r : Route) (req : Request) :
  checkApiKey cfg (with_route r req) = checkApiKey cfg req.
Proof. reflexivity. Qed.

(** A trade route runs the [try] block and passes its answer on. *)
Lemma app_trade_ok (req : Request) (body : JsObject) (st st' : State W)
    (res : Response) :
  is_trade_route (route req) = true ->
  payload req = BodyParsed body ->
  checkApiKey cfg req = None ->
  buy_try body st = (Ok res, st') ->
  server req st = (Ok res, st').
Proof.
  intros Hr Hp Hk Ht. unfold app. rewrite Hp, Hk.
  destruct (route req); try discriminate;
    unfold api_buy, api_sell, try_catch;
    change (sell_try body) with (buy_try body);
    rewrite Ht; reflexivity.
Qed.

(** What the [try] block throws is logged and answered with 500. *)
Lemma app_trade_throw (req : Request) (body : JsObject) (st st' : State W)
    (e : JsError) :
  is_trade_route (route req) = true ->
  payload req = BodyParsed body ->
  checkApiKey cfg req = None ->
  buy_try body st = (Throw e, st') ->
  exists text,
    server req st =
    (Ok (res_status_json 500 (json_error (message e))),
     {| world := world st';
        trace := (trace st' ++ [EvConsoleError text e])%list |}).
Proof.
  intros Hr Hp Hk Ht. unfold app. rewrite Hp, Hk.
  destruct (route req); try discriminate;
    unfold api_buy, api_sell, try_catch;
    change (sell_try body) with (buy_try body);
    rewrite Ht; eexists; reflexivity.
Qed.

Lemma missing_fields_condition (body : JsObject) :
  negb (ToBoolean (get_property body "telegramId"))
  || negb (ToBoolean (get_property body "tradeAmount"))
  || negb (ToBoolean (get_property body "slippage"))
  || negb (ToBoolean (get_property body "inputMint"))
  || negb (ToBoolean (get_property body "outputMint"))
  = negb (fields_present body).
Proof.
  unfold fields_present, required_fields. cbn [forallb].
  destruct (ToBoolean (get_property body "telegramId")),
    (ToBoolean (get_property body "tradeAmount")),
    (ToBoolean (get_property body "slippage")),
    (ToBoolean (get_property body "inputMint")),
    (ToBoolean (get_property body "outputMint")); reflexivity.
Qed.

Lemma fields_present_false (body : JsObject) :
  (exists f, In f required_fields /\ ToBoolean (get_property body f) = false) ->
  fields_present body = false.
Proof.
  intros (f & Hin & Hf). unfold fields_present.
  destruct (forallb _ required_fields) eqn:E; [|reflexivity].
  rewrite forallb_forall in E. specialize (E f Hin). congruence.
Qed.

Lemma buy_try_missing_fields (body : JsObject) (st : State W) :
  fields_present body = false ->
  buy_try body st =
  (Ok (res_status_json 400 (json_error "Missing required fields.")), st).
Proof.
  intros H. unfold api_buy_try.
  now rewrite missing_fields_condition, H.
Qed.

Lemma buy_try_no_user (body : JsObject) (w w' : W) (found : option User) :
  fields_present body = true ->
  User_findOne svc (get_property body "telegramId") w = (Ok found, w') ->
  match found with Some user => wallets user = [] | None => True end ->
  buy_try body (start w) =
  (Ok not_found,
   {| world := w'; trace := [EvFindOne (get_property body "telegramId")] |}).
Proof.
  intros Hf Hu Hw. unfold api_buy_try.
  rewrite missing_fields_condition, Hf. cbn [negb].
  unfold bind at 1. unfold call, start. cbn [world trace]. rewrite Hu.
  cbn [Datatypes.app]. destruct found as [user|]; [|reflexivity].
  rewrite Hw. reflexivity.
Qed.

Lemma buy_try_bad_index (body : JsObject) (w w' : W) (user : User) :
  fields_present body = true ->
  User_findOne svc (get_property body "telegramId") w = (Ok (Some user), w') ->
  wallets user <> [] ->
  Array_get (wallets user) (activeWalletIndex user) = None ->
  buy_try body (start w) =
  (Throw (cannot_read "undefined" "publicKey"),
   {| world := w'; trace := [EvFindOne (get_property body "telegramId")] |}).
Proof.
  intros Hf Hu Hw Hi. unfold api_buy_try.
  rewrite missing_fields_condition, Hf. cbn [negb].
  unfold bind at 1. unfold call, start. cbn [world trace]. rewrite Hu.
  cbn [Datatypes.app]. destruct (wallets user) as [|wallet ws] eqn:E; [congruence|].
  cbn [length Nat.eqb]. rewrite Hi. reflexivity.
Qed.

Lemma buy_try_key_mismatch (body : JsObject) (w w' : W) (user : User)
    (activeWallet : Wallet) (stored : PublicKey web3)
    (decryptedSecret : string) (secret : Buffer) (userKeypair : Keypair web3) :
  fields_present body = true ->
  User_findOne svc (get_property body "telegramId") w = (Ok (Some user), w') ->
  wallets user <> [] ->
  Array_get (wallets user) (activeWalletIndex user) = Some activeWallet ->
  new_PublicKey web3 (publicKey activeWallet) = Ok stored ->
  decryptSecret aes256 (encryptionKeyBuffer cfg) (secretKey activeWallet)
    = Ok decryptedSecret ->
  decodeKeypairSecret web3 decryptedSecret = Ok secret ->
  Keypair_fromSecretKey web3 secret = Ok userKeypair ->
  PublicKey_toString web3 (Keypair_publicKey web3 userKeypair)
    <> PublicKey_toString web3 stored ->
  buy_try body (start w) =
  (Ok key_mismatch,
   {| world := w'; trace := [EvFindOne (get_property body "telegramId")] |}).
Proof.
  intros Hf Hu Hw Hi Hpk Hd Hs Hk Hne. unfold api_buy_try.
  rewrite missing_fields_condition, Hf. cbn [negb].
  unfold bind at 1. unfold call, start. cbn [world trace]. rewrite Hu.
  cbn [Datatypes.app]. destruct (wallets user) as [|wallet ws] eqn:E; [congruence|].
  cbn [length Nat.eqb]. rewrite Hi.
  unfold bind, lift. rewrite Hpk, Hd, Hs, Hk.
  apply String.eqb_neq in Hne. rewrite Hne. reflexivity.
Qed.

End TradeApiFacts.

(** ** The integrity check is never skipped *)

Section IntegrityCheck.

Variable W : Type.
Variable aes256 : BlockCipher.
Variable rt : Runtime.
Variable web3 : Web3.
Variable svc : Services W.
Variable cfg : Config.

(** The [try] block signs or reaches the network only after it has
    rebuilt a keypair whose public key is, as a string, the stored
    one. *)
Lemma signing_requires_matching_key (body : JsObject) (w : W) :
  existsb (fun e => is_sign e || is_network_call e)
    (trace (snd (api_buy_try aes256 rt web3 svc cfg body (start w)))) = true ->
  exists w' user activeWallet stored decryptedSecret secret userKeypair,
    User_findOne svc (get_property body "telegramId") w = (Ok (Some user), w') /\
    Array_get (wallets user) (activeWalletIndex user) = Some activeWallet /\
    new_PublicKey web3 (publicKey activeWallet) = Ok stored /\
    decryptSecret aes256 (encryptionKeyBuffer cfg) (secretKey activeWallet)
      = Ok decryptedSecret /\
    decodeKeypairSecret web3 decryptedSecret = Ok secret /\
    Keypair_fromSecretKey web3 secret = Ok userKeypair /\
    PublicKey_toString web3 (Keypair_publicKey web3 userKeypair)
      = PublicKey_toString web3 stored.
Proof.
  unfold api_buy_try. rewrite missing_fields_condition.
  destruct (fields_present body); cbn [negb]; [|discriminate].
  unfold bind at 1. unfold call, start. cbn [world trace Datatypes.app].
  destruct (User_findOne svc _ w) as [[[user|]|e] w'] eqn:Hu;
    try discriminate.
  destruct (length (wallets user) =? 0)%nat; [discriminate|].
  destruct (Array_get _ _) as [activeWallet|] eqn:Hi; [|discriminate].
  unfold bind at 1. unfold lift at 1.
  destruct (new_PublicKey web3 _) as [stored|e] eqn:Hpk; [|discriminate].
  unfold bind at 1. unfold lift at 1.
  destruct (decryptSecret aes256 _ _) as [decryptedSecret|e] eqn:Hd;
    [|discriminate].
  unfold bind at 1. unfold lift at 1.
  destruct (decodeKeypairSecret web3 _) as [secret|e] eqn:Hs; [|discriminate].
  unfold bind at 1. unfold lift at 1.
  destruct (Keypair_fromSecretKey web3 _) as [userKeypair|e] eqn:Hk;
    [|discriminate].
  destruct (String.eqb_spec
              (PublicKey_toString web3 (Keypair_publicKey web3 userKeypair))
              (PublicKey_toString web3 stored)) as [Heq|Hne];
    cbn [negb]; [|discriminate].
  intros _. exists w', user, activeWallet, stored, decryptedSecret, secret,
    userKeypair. repeat split; assumption.
Qed.

(** So does the application, whatever the request. *)
Lemma app_signing_requires_matching_key (req : Request) (w : W) :
  existsb (fun e => is_sign e || is_network_call e)
    (trace (snd (app aes256 rt web3 svc cfg req (start w)))) = true ->
  exists body w' user activeWallet stored decryptedSecret secret userKeypair,
    payload req = BodyParsed body /\
    checkApiKey cfg req = None /\
    User_findOne svc (get_property body "telegramId") w = (Ok (Some user), w') /\
    Array_get (wallets user) (activeWalletIndex user) = Some activeWallet /\
    new_PublicKey web3 (publicKey activeWallet) = Ok stored /\
    decryptSecret aes256 (encryptionKeyBuffer cfg) (secretKey activeWallet)
      = Ok decryptedSecret /\
    decodeKeypairSecret web3 decryptedSecret = Ok secret /\
    Keypair_fromSecretKey web3 secret = Ok userKeypair /\
    PublicKey_toString web3 (Keypair_publicKey web3 userKeypair)
      = PublicKey_toString web3 stored.
Proof.
  unfold app.
  destruct (payload req) as [body|code page]; [|discriminate].
  destruct (checkApiKey cfg req); [discriminate|].
  intros H.
  assert (Htry : existsb (fun e => is_sign e || is_network_call e)
                   (trace (snd (api_buy_try aes256 rt web3 svc cfg body
                                  (start w)))) = true).
  { destruct (route req); try discriminate;
      unfold api_buy, api_sell, try_catch in H;
      change (api_sell_try aes256 rt web3 svc cfg body)
        with (api_buy_try aes256 rt web3 svc cfg body) in H;
      destruct (api_buy_try aes256 rt web3 svc cfg body (start w))
        as [[res|e] st']; cbn [snd] in *; try assumption;
      unfold bind, emit, ret in H; cbn [snd trace] in H;
      rewrite existsb_app in H; cbn in H;
      now rewrite orb_false_r in H. }
  destruct (signing_requires_matching_key body w Htry)
    as (w' & user & activeWallet & stored & decryptedSecret & secret
        & userKeypair & H1 & H2 & H3 & H4 & H5 & H6 & H7).
  exists body, w', user, activeWallet, stored, decryptedSecret, secret,
    userKeypair. repeat split; assumption.
Qed.

End IntegrityCheck.

(** ** The claims about the handlers *)

Section TradeApiClaims.

Variable W : Type.
Variable aes256 : BlockCipher.
Variable rt : Runtime.
Variable web3 : Web3.
Variable svc : Services W.
Variable cfg : Config.

#[local] Abbreviation server := (app aes256 rt web3 svc cfg).

(** C2.  A request to /api/buy or /api/sell that gets as far as a
    reconstructed keypair whose public key, as a string, differs from
    the stored wallet's public key is answered with status 500, and
    the handler neither signs a transaction nor sends anything to the
    chain network. *)
Theorem key_mismatch_is_500_without_signing
    (req : Request) (body : JsObject) (w w' : W) (user : User)
    (activeWallet : Wallet) (stored : PublicKey web3)
    (decryptedSecret : string) (secret : Buffer)
    (userKeypair : Keypair web3) :
  is_trade_route (route req) = true ->
  payload req = BodyParsed body ->
  checkApiKey cfg req = None ->
  fields_present body = true ->
  User_findOne svc (get_property body "telegramId") w = (Ok (Some user), w') ->
  wallets user <> [] ->
  Array_get (wallets user) (activeWalletIndex user) = Some activeWallet ->
  new_PublicKey web3 (publicKey activeWallet) = Ok stored ->
  decryptSecret aes256 (encryptionKeyBuffer cfg) (secretKey activeWallet)
    = Ok decryptedSecret ->
  decodeKeypairSecret web3 decryptedSecret = Ok secret ->
  Keypair_fromSecretKey web3 secret = Ok userKeypair ->
  PublicKey_toString web3 (Keypair_publicKey web3 userKeypair)
    <> PublicKey_toString web3 stored ->
  responded (server req (start w)) 500 /\
  never is_sign (server req (start w)) /\
  never is_network_call (server req (start w)).
Proof.
  intros Hr Hp Hk Hf Hu Hw Hi Hpk Hd Hs Hkp Hne.
  rewrite (app_trade_ok W aes256 rt web3 svc cfg req body _ _ _ Hr Hp Hk
             (buy_try_key_mismatch W aes256 rt web3 svc cfg body w w' user
                activeWallet stored decryptedSecret secret userKeypair
                Hf Hu Hw Hi Hpk Hd Hs Hkp Hne)).
  repeat split. exists key_mismatch. now split.
Qed.

(** C3, as the code has it.  A request whose payload the JSON body
    parser let through and whose x-api-key header is absent or differs
    from the configured key is answered 401 with the body
    [{"error": "Unauthorized: Invalid API key"}], nothing is called,
    and any two such requests get the same answer whatever their
    bodies and routes. *)
Theorem unauthorized_whatever_the_body
    (req req' : Request) (body body' : JsObject) (st : State W) :
  payload req = BodyParsed body ->
  payload req' = BodyParsed body' ->
  header (headers req) "x-api-key" <> Some (API_KEY cfg) ->
  header (headers req') "x-api-key" <> Some (API_KEY cfg) ->
  server req st = (Ok unauthorized, st) /\
  server req' st = server req st.
Proof.
  assert (H : forall r b, payload r = BodyParsed b ->
              header (headers r) "x-api-key" <> Some (API_KEY cfg) ->
              server r st = (Ok unauthorized, st)).
  { intros r b Hp Hh. unfold app, checkApiKey. rewrite Hp.
    destruct (header (headers r) "x-api-key") as [k|]; [|reflexivity].
    destruct (String.eqb_spec k (API_KEY cfg)); [congruence|].
    now rewrite orb_true_r. }
  intros Hp Hp' Hh Hh'.
  rewrite (H req body Hp Hh), (H req' body' Hp' Hh'). now split.
Qed.

(** C4.  An authenticated request to /api/buy or /api/sell in which
    one of the five fields is missing or falsy is answered with status
    400, and the handler ends in the state it started in: no store
    lookup, no aggregator call, no chain-network call. *)
Theorem missing_field_is_400_without_calls
    (req : Request) (body : JsObject) (w : W) :
  is_trade_route (route req) = true ->
  payload req = BodyParsed body ->
  checkApiKey cfg req = None ->
  (exists f, In f required_fields /\
             ToBoolean (get_property body f) = false) ->
  responded (server req (start w)) 400 /\
  snd (server req (start w)) = start w /\
  never is_store_call (server req (start w)) /\
  never is_aggregator_call (server req (start w)) /\
  never is_network_call (server req (start w)).
Proof.
  intros Hr Hp Hk Hf.
  rewrite (app_trade_ok W aes256 rt web3 svc cfg req body _ _ _ Hr Hp Hk
             (buy_try_missing_fields W aes256 rt web3 svc cfg body (start w)
                (fields_present_false body Hf))).
  split; [|now repeat split]. exists missing_fields. now split.
Qed.

(** C5.  An authenticated, field-complete request to /api/buy or
    /api/sell whose telegramId matches no stored user, or a user with
    an empty wallet list, is answered with status 400; the store
    lookup is the only call made, so there is no aggregator call and
    no broadcast. *)
Theorem unknown_user_is_400_without_calls
    (req : Request) (body : JsObject) (w w' : W) (found : option User) :
  is_trade_route (route req) = true ->
  payload req = BodyParsed body ->
  checkApiKey cfg req = None ->
  fields_present body = true ->
  User_findOne svc (get_property body "telegramId") w = (Ok found, w') ->
  (found = None \/ exists user, found = Some user /\ wallets user = []) ->
  responded (server req (start w)) 400 /\
  trace (snd (server req (start w)))
    = [EvFindOne (get_property body "telegramId")] /\
  never is_aggregator_call (server req (start w)) /\
  never is_network_call (server req (start w)).
Proof.
  intros Hr Hp Hk Hf Hu Hw.
  assert (Hw' : match found with
                | Some user => wallets user = []
                | None => True
                end).
  { destruct Hw as [->|(user & -> & Hw)]; auto. }
  rewrite (app_trade_ok W aes256 rt web3 svc cfg req body _ _ _ Hr Hp Hk
             (buy_try_no_user W aes256 rt web3 svc cfg body w w' found
                Hf Hu Hw')).
  repeat split. exists not_found. now split.
Qed.

(** C9.  /api/buy and /api/sell run the same logic: on the same
    request, in the same world, they give the same answer, leave the
    same world behind and make the same calls in the same order.
    (The line logged when an error is caught names the route.) *)
Theorem buy_and_sell_agree (req : Request) (st : State W) :
  let buy := server (with_route PostApiBuy req) st in
  let sell := server (with_route PostApiSell req) st in
  fst buy = fst sell /\
  world (snd buy) = world (snd sell) /\
  calls (trace (snd buy)) = calls (trace (snd sell)).
Proof.
  unfold app. rewrite !checkApiKey_with_route. cbn [payload route with_route].
  destruct (payload req) as [body|code page]; [|now repeat split].
  destruct (checkApiKey cfg req); [now repeat split|].
  unfold api_buy, api_sell, try_catch.
  change (api_sell_try aes256 rt web3 svc cfg body)
    with (api_buy_try aes256 rt web3 svc cfg body).
  destruct (api_buy_try aes256 rt web3 svc cfg body st) as [[res|e] st'];
    [now repeat split|].
  unfold bind, emit, ret. cbn [fst snd world trace].
  repeat split. unfold calls. rewrite !filter_app. reflexivity.
Qed.

(** C10.  An authenticated, field-complete request whose user exists
    and has wallets, but whose activeWalletIndex selects none of them
    (it is negative, or at least the number of wallets, or no integer
    at all), fails with status 500 through the catch-all handler, and
    makes no aggregator and no broadcast call. *)
Theorem bad_wallet_index_is_500
    (req : Request) (body : JsObject) (w w' : W) (user : User) :
  is_trade_route (route req) = true ->
  payload req = BodyParsed body ->
  checkApiKey cfg req = None ->
  fields_present body = true ->
  User_findOne svc (get_property body "telegramId") w = (Ok (Some user), w') ->
  wallets user <> [] ->
  (forall z, float_to_Z (activeWalletIndex user) = Some z ->
             (z < 0 \/ Z.of_nat (length (wallets user)) <= z)%Z) ->
  Array_get (wallets user) (activeWalletIndex user) = None /\
  responded (server req (start w)) 500 /\
  fst (server req (start w))
    = Ok (res_status_json 500
            (json_error (message (cannot_read "undefined" "publicKey")))) /\
  never is_aggregator_call (server req (start w)) /\
  never is_network_call (server req (start w)).
Proof.
  intros Hr Hp Hk Hf Hu Hw Hz.
  pose proof (Array_get_out_of_bounds _ _ Hz) as Hi.
  destruct (app_trade_throw W aes256 rt web3 svc cfg req body _ _ _ Hr Hp Hk
              (buy_try_bad_index W aes256 rt web3 svc cfg body w w' user
                 Hf Hu Hw Hi)) as [text ->].
  repeat split; auto. eexists. split; reflexivity.
Qed.

End TradeApiClaims.

(** ** The aggregator client *)

Section SwapClient.

Variable W : Type.
Variable rt : Runtime.
Variable web3 : Web3.
Variable svc : Services W.

Variables (userPublicKey : PublicKey web3) (inputMint outputMint : JsValue)
          (amount : float) (slippage : JsValue).
Variables (inputMint' outputMint' slippage' : string).
Hypothesis inputMint_string : ToString rt inputMint = Ok inputMint'.
Hypothesis outputMint_string : ToString rt outputMint = Ok outputMint'.
Hypothesis slippage_string : ToString rt slippage = Ok slippage'.

#[local] Abbreviation quote :=
  (quote_request inputMint' outputMint' (NumberToString rt amount) slippage').

#[local] Abbreviation client :=
  (getJupiterSwapTransaction rt web3 svc userPublicKey inputMint outputMint
     amount slippage).

(** The client up to the answer to the quote request. *)
Lemma client_quote (w : W) :
  client (start w) =
  let (answer, w1) := fetch svc quote w in
  let st1 := {| world := w1; trace := [EvFetch quote] |} in
  match answer with
  | Throw e => (Throw e, st1)
  | Ok quoteResponse =>
      if negb (ok quoteResponse)
      then (Throw (Error ("Jupiter quote API error: "
                          ++ statusText quoteResponse)), st1)
      else
        match json quoteResponse with
        | Throw e => (Throw e, st1)
        | Ok quoteData =>
            match member quoteData "routes" with
            | Throw e => (Throw e, st1)
            | Ok routes =>
                if negb (ToBoolean routes) || length_is_0 routes
                then (Throw (Error "No swap routes found from Jupiter."), st1)
                else
                  let swap :=
                    swap_request rt (item_0 rt routes)
                      (PublicKey_toString web3 userPublicKey) in
                  let (answer', w2) := fetch svc swap w1 in
                  let st2 :=
                    {| world := w2; trace := [EvFetch quote; EvFetch swap] |} in
                  match answer' with
                  | Throw e => (Throw e, st2)
                  | Ok swapResponse =>
                      if negb (ok swapResponse)
                      then (Throw (Error ("Jupiter swap API error: "
                                          ++ statusText swapResponse)), st2)
                      else
                        match json swapResponse with
                        | Throw e => (Throw e, st2)
                        | Ok swapData =>
                            match member swapData "swapTransaction" with
                            | Throw e => (Throw e, st2)
                            | Ok tx =>
                                if negb (ToBoolean tx)
                                then (Throw (Error "Failed to obtain swap transaction from Jupiter."), st2)
                                else (Ok tx, st2)
                            end
                        end
                  end
            end
        end
  end.
Proof.
  unfold getJupiterSwapTransaction, bind, lift, call, throw, ret, start.
  rewrite inputMint_string, outputMint_string, slippage_string.
  cbn [world trace Datatypes.app]. unfold quote_request, swap_request.
  destruct (fetch svc _ w) as [[quoteResponse|e] w1]; [|reflexivity].
  destruct (ok quoteResponse); cbn [negb]; [|reflexivity].
  destruct (json quoteResponse) as [quoteData|e]; [|reflexivity].
  destruct (member quoteData "routes") as [routes|e]; [|reflexivity].
  destruct (negb (ToBoolean routes) || length_is_0 routes); [reflexivity|].
  cbn [world trace Datatypes.app].
  destruct (fetch svc _ w1) as [[swapResponse|e] w2]; [|reflexivity].
  destruct (ok swapResponse); cbn [negb]; [|reflexivity].
  destruct (json swapResponse) as [swapData|e]; [|reflexivity].
  destruct (member swapData "swapTransaction") as [tx|e]; [|reflexivity].
  now destruct (ToBoolean tx).
Qed.

End SwapClient.

(** C7.  [getJupiterSwapTransaction] fails at the quote when the quote
    call is rejected or not OK (["Jupiter quote API error: ..."]) or
    returns no routes (["No swap routes found from Jupiter."]), having
    made the quote request only.  Otherwise it posts exactly the first
    route of the answer, with the payer's public key, and fails when
    that call is rejected or not OK (["Jupiter swap API error: ..."]) or
    its answer has no transaction (["Failed to obtain swap transaction
    from Jupiter."]); on success it returns that transaction. *)
Theorem swap_client_protocol
    (W : Type) (rt : Runtime) (web3 : Web3) (svc : Services W)
    (userPublicKey : PublicKey web3) (inputMint outputMint : JsValue)
    (amount : float) (slippage : JsValue)
    (inputMint' outputMint' slippage' : string) (w : W) :
  ToString rt inputMint = Ok inputMint' ->
  ToString rt outputMint = Ok outputMint' ->
  ToString rt slippage = Ok slippage' ->
  let quote :=
    quote_request inputMint' outputMint' (NumberToString rt amount) slippage' in
  let result :=
    getJupiterSwapTransaction rt web3 svc userPublicKey inputMint outputMint
      amount slippage (start w) in
  forall (answer : Outcome FetchResponse) (w1 : W),
    fetch svc quote w = (answer, w1) ->
    let st1 := {| world := w1; trace := [EvFetch quote] |} in
    (forall e, answer = Throw e -> result = (Throw e, st1)) /\
    (forall quoteResponse,
        answer = Ok quoteResponse -> ok quoteResponse = false ->
        result =
        (Throw (Error ("Jupiter quote API error: " ++ statusText quoteResponse)),
         st1)) /\
    (forall quoteResponse quoteData routes,
        answer = Ok quoteResponse -> ok quoteResponse = true ->
        json quoteResponse = Ok quoteData ->
        member quoteData "routes" = Ok routes ->
        (ToBoolean routes = false \/ routes = JArr [] ->
         result = (Throw (Error "No swap routes found from Jupiter."), st1)) /\
        (forall route rest,
            routes = JArr (route :: rest) ->
            let swap :=
              swap_request rt route (PublicKey_toString web3 userPublicKey) in
            forall (answer' : Outcome FetchResponse) (w2 : W),
              fetch svc swap w1 = (answer', w2) ->
              let st2 :=
                {| world := w2; trace := [EvFetch quote; EvFetch swap] |} in
              (forall e, answer' = Throw e -> result = (Throw e, st2)) /\
              (forall swapResponse,
                  answer' = Ok swapResponse -> ok swapResponse = false ->
                  result =
                  (Throw (Error ("Jupiter swap API error: "
                                 ++ statusText swapResponse)), st2)) /\
              (forall swapResponse swapData tx,
                  answer' = Ok swapResponse -> ok swapResponse = true ->
                  json swapResponse = Ok swapData ->
                  member swapData "swapTransaction" = Ok tx ->
                  result =
                  (if ToBoolean tx then Ok tx
                   else Throw (Error "Failed to obtain swap transaction from Jupiter."),
                   st2)))).
Proof.
  intros Hi Ho Hs quote result answer w1 Hq st1. subst result.
  rewrite (client_quote W rt web3 svc userPublicKey inputMint outputMint
             amount slippage _ _ _ Hi Ho Hs w).
  fold quote. rewrite Hq. fold st1. cbv zeta.
  split; [now intros e ->|].
  split; [intros quoteResponse -> Hok; now rewrite Hok|].
  intros quoteResponse quoteData routes -> Hok Hj Hm.
  rewrite Hok, Hj, Hm. cbn [negb]. clear Hok Hj Hm.
  split.
  - intros [->| ->]; reflexivity.
  - intros route rest -> answer' w2 Hp.
    cbn [ToBoolean negb length_is_0 length Nat.eqb orb item_0].
    rewrite Hp.
    split; [now intros e ->|].
    split; [intros swapResponse -> Hok; now rewrite Hok|].
    intros swapResponse swapData tx -> Hok Hj Hm.
    rewrite Hok, Hj, Hm. cbn [negb].
    now destruct (ToBoolean tx).
Qed.

(** ** The claims about the credential vault *)

(** The round trip over any block cipher that decrypts what it
    encrypts. *)
Lemma round_trip_over_block_cipher
    (aes256 : BlockCipher) (key iv : Buffer) (plainText : string) :
  BlockCipherLaws aes256 ->
  length key = 32 ->
  length iv = 16 ->
  exists encrypted,
    encryptSecret aes256 key iv plainText = Ok encrypted /\
    decryptSecret aes256 key encrypted = Ok plainText.
Proof.
  intros Hlaws Hkey Hiv. eexists. split.
  - now apply encryptSecret_eq.
  - now apply decryptSecret_encrypted.
Qed.


(** C8, as the code has it.  A text that is not exactly two
    colon-separated parts is refused with ["Invalid encrypted text
    format"].  A two-part text fails exactly when its first part does
    not decode to 16 bytes, or its second part decodes to no bytes or to
    a number of bytes that is no multiple of 16, or the last decrypted
    block does not end in valid padding; in every other case the
    unpadded CBC plaintext is returned, whatever the text was. *)
Theorem decryptSecret_failures
    (aes256 : BlockCipher) (key : Buffer) (s : string) :
  length key = 32 ->
  (length (split ":" s) <> 2 ->
   decryptSecret aes256 key s = Throw (Error "Invalid encrypted text format"))
  /\
  (forall p0 p1,
      split ":" s = [p0; p1] ->
      let iv := Buffer_from_base64 p0 in
      let ct := Buffer_from_base64 p1 in
      let ps := cbc_plain_blocks aes256 key iv ct in
      (is_throw (decryptSecret aes256 key s) = true <->
       length iv <> 16 \/ length ct = 0 \/ length ct mod 16 <> 0 \/
       pkcs7_unpad (last ps []) = None)
      /\
      (forall p,
          length iv = 16 -> length ct <> 0 -> length ct mod 16 = 0 ->
          pkcs7_unpad (last ps []) = Some p ->
          decryptSecret aes256 key s =
          Ok (Buffer_toString_utf8 (concat (removelast ps) ++ p)%list))).
Proof.
  intros Hkey. split; [now apply decryptSecret_bad_format|].
  intros p0 p1 Hs iv ct ps.
  rewrite (decryptSecret_two_parts aes256 key Hkey s p0 p1 Hs).
  fold iv ct ps.
  destruct (Nat.eqb_spec (length iv) 16) as [Hiv|Hiv]; cbn [negb].
  - destruct (Nat.eqb_spec (length ct) 0) as [H0|H0]; cbn [orb].
    + split; [split; auto|]. intros; contradiction.
    + destruct (Nat.eqb_spec (length ct mod 16) 0) as [Hm|Hm]; cbn [negb].
      * destruct (pkcs7_unpad (last ps [])) as [p|]; cbn [is_throw].
        -- split.
           ++ split; [discriminate|].
              intros [H|[H|[H|H]]]; try contradiction; discriminate.
           ++ now intros p' _ _ _ [= ->].
        -- split; [split; auto|]. intros; discriminate.
      * split; [split; auto|]. intros; contradiction.
  - split; [split; auto|]. intros; contradiction.
Qed.

(** A leading space, which is no base64 character, changes nothing. *)
Lemma split_nonempty (sep : ascii) (s : string) : split sep s <> [].
Proof.
  destruct s as [|c s]; cbn [split]; [discriminate|].
  destruct (Ascii.eqb c sep); [discriminate|].
  destruct (split sep s); discriminate.
Qed.

Lemma decryptSecret_skips_space
    (aes256 : BlockCipher) (key : Buffer) (s : string) :
  decryptSecret aes256 key (String " " s) = decryptSecret aes256 key s.
Proof.
  unfold decryptSecret. cbn [split].
  change (Ascii.eqb " " ":") with false. cbv iota.
  destruct (split ":" s) as [|p0 ps] eqn:E; [now apply split_nonempty in E|].
  reflexivity.
Qed.

(** ** The claim about the amount *)

Lemma nonnegative_sign (x : float) (s : bool) (m : positive) (e : Z) :
  (0 <=? x)%float = true -> Prim2SF x = S754_finite s m e -> s = false.
Proof.
  intros H E. rewrite leb_spec, E in H.
  destruct s; [discriminate | reflexivity].
Qed.

(** C6, as the code has it.  The amount is [Math.floor] of the product
    of the trade amount and [LAMPORTS_PER_SOL] (10^9) in binary64: the
    product rounded down.  Whenever the product is not negative this is
    truncation toward zero.  A trade amount of 0.1 gives exactly
    100000000; 0.1234567891 gives 123456789 and 0.9999999999 gives
    999999999, truncated and not rounded. *)
Theorem amount_is_floor_of_product (tradeAmount : float) :
  let product := (tradeAmount * LAMPORTS_PER_SOL)%float in
  ((0 <=? product)%float = true -> Math_floor product = Math_trunc product) /\
  Math_floor (0.1 * LAMPORTS_PER_SOL) = 100000000%float /\
  Math_floor (0.1234567891 * LAMPORTS_PER_SOL) = 123456789%float /\
  Math_floor (0.9999999999 * LAMPORTS_PER_SOL) = 999999999%float.
Proof.
  intros product. split; [|repeat split; reflexivity].
  intros H. unfold Math_floor, Math_trunc.
  destruct (Prim2SF product) as [| | |s m e] eqn:E; try reflexivity.
  rewrite (nonnegative_sign product s m e H E).
  destruct (Z.leb_spec 0 e) as [He|He]; [reflexivity|].
  cbn [signed andb]. rewrite andb_false_r.
  rewrite Z.quot_div_nonneg; [reflexivity | lia |].
  apply Z.pow_pos_nonneg; lia.
Qed.

(** ** Start-up *)

(** A process that serves has a non-empty API key and a 32-byte
    encryption key. *)
Lemma startup_config (env : string -> option string) (cfg : Config) :
  startup env = Some cfg ->
  API_KEY cfg <> "" /\ length (encryptionKeyBuffer cfg) = 32.
Proof.
  unfold startup.
  destruct (env "API_KEY") as [api_key|]; [|discriminate].
  destruct (env "ENCRYPTION_KEY") as [encryption_key|]; [|discriminate].
  destruct (String.eqb_spec api_key ""); [discriminate|].
  destruct (String.eqb encryption_key ""); [discriminate|].
  destruct (Nat.eqb_spec (length (Buffer_from_hex encryption_key)) 32);
    [|discriminate].
  now intros [= <-].
Qed.

Example Buffer_from_hex_stops :
  Buffer_from_hex "4a6Bzz10" = Buffer_from_utf8 "Jk".
Proof. reflexivity. Qed.

(** The vault of a process that serves: what it encrypts it decrypts. *)
Lemma served_vault_round_trip
    (env : string -> option string) (cfg : Config)
    (iv : Buffer) (plainText : string) :
  startup env = Some cfg ->
  length iv = 16 ->
  exists encrypted,
    encryptSecret AES256 (encryptionKeyBuffer cfg) iv plainText = Ok encrypted /\
    decryptSecret AES256 (encryptionKeyBuffer cfg) encrypted = Ok plainText.
Proof.
  intros Hstart Hiv.
  destruct (startup_config env cfg Hstart) as [_ Hkey].
  exact (round_trip_over_block_cipher AES256 _ iv plainText AES256_laws
           Hkey Hiv).
Qed.

(** ** Undetected corruption, for every block cipher *)

(** A ciphertext cut after a block whose plaintext ends in the byte 1
    decrypts to the fifteen bytes before it. *)
Lemma cut_ciphertext_decrypts
    (aes256 : BlockCipher) (key iv b15 rest : Buffer) :
  BlockCipherLaws aes256 ->
  length key = 32 -> length iv = 16 -> length b15 = 15 ->
  let data := (b15 ++ ascii_of_nat 1 :: rest)%list in
  let ct := cbc_encrypt_buffer aes256 key iv data in
  decryptSecret aes256 key
    (base64_encode iv ++ ":" ++ base64_encode (firstn 16 ct))
  = Ok (Buffer_toString_utf8 b15).
Proof.
  intros Hlaws Hkey Hiv H15 data ct.
  set (b := (b15 ++ [ascii_of_nat 1])%list).
  assert (Hb : length b = 16) by (unfold b; rewrite length_app; simpl; lia).
  assert (Hx : length (xor_buffer b iv) = 16)
    by (rewrite xor_buffer_length; lia).
  set (c := encrypt_block aes256 key (xor_buffer b iv)).
  assert (Hc : length c = 16)
    by (now apply (encrypt_block_length aes256 Hlaws)).
  assert (Hct : firstn 16 ct = c).
  { unfold ct, cbc_encrypt_buffer, pkcs7_pad, data.
    replace (b15 ++ ascii_of_nat 1 :: rest)%list with (b ++ rest)%list
      by (unfold b; now rewrite <- app_assoc).
    rewrite <- app_assoc, (blocks_cons b _ Hb). cbn [cbc_encrypt]. fold c.
    destruct (cbc_encrypt aes256 key c _) as [cs chain].
    cbn [fst concat]. rewrite firstn_app, Hc, Nat.sub_diag.
    rewrite firstn_all2 by lia. cbn [firstn]. apply app_nil_r. }
  rewrite Hct.
  pose proof (split_app_sep ":" _ _ (base64_encode_no_colon iv)
                (base64_encode_no_colon c)) as Hs.
  change (base64_encode iv ++ ":" ++ base64_encode c)
    with (base64_encode iv ++ String ":" (base64_encode c)).
  rewrite (decryptSecret_two_parts aes256 key Hkey _ _ _ Hs).
  rewrite !Buffer_from_base64_encode, Hiv, Hc. cbn [Nat.eqb negb orb].
  unfold cbc_plain_blocks.
  rewrite (blocks_short c) by (try (intros E; rewrite E in Hc; discriminate); lia).
  cbn [cbc_decrypt fst last removelast concat Datatypes.app]. unfold c.
  rewrite (decrypt_encrypt_block aes256 Hlaws) by assumption.
  rewrite xor_buffer_involutive by lia.
  unfold pkcs7_unpad, b. rewrite last_last.
  change (nat_of_ascii (ascii_of_nat 1)) with 1.
  cbn [Nat.eqb Nat.ltb Nat.leb orb Nat.sub].
  rewrite skipn_app, firstn_app, H15, Nat.sub_diag.
  rewrite skipn_all2, firstn_all2 by lia.
  cbn [skipn firstn Datatypes.app forallb]. rewrite app_nil_r.
  reflexivity.
Qed.

(* ================================================================== *)
(** * Part 6: the theorems at work on the stubbed world *)
(* ================================================================== *)

Example split_two : split ":" "aXY=:Y3Q=" = ["aXY="; "Y3Q="].
Proof. reflexivity. Qed.

Example split_three : split ":" "a:b:" = ["a"; "b"; ""].
Proof. reflexivity. Qed.

Example split_none : split ":" "" = [""].
Proof. reflexivity. Qed.

Example base64_encode_hello :
  base64_encode (Buffer_from_utf8 "hello") = "aGVsbG8=".
Proof. reflexivity. Qed.

Example base64_decode_forgiving :
  Buffer_from_base64 "aGVs bG8=trailing" = Buffer_from_utf8 "hello".
Proof. reflexivity. Qed.

(** FIPS 197, appendix C.3. *)
Example AES256_fips197 :
  encrypt_block AES256 Stub.key
    (Buffer_from_hex "00112233445566778899aabbccddeeff")
  = Buffer_from_hex "8ea2b7ca516745bfeafc49904b496089".
Proof. vm_compute. reflexivity. Qed.

Example startup_stub : startup Stub.env = Some Stub.config.
Proof. vm_compute. reflexivity. Qed.

Example encryptSecret_secret :
  encryptSecret AES256 Stub.key Stub.iv "secret" = Ok Stub.encrypted_secret.
Proof. vm_compute. reflexivity. Qed.

Example decryptSecret_secret :
  decryptSecret AES256 Stub.key Stub.encrypted_secret = Ok "secret".
Proof. vm_compute. reflexivity. Qed.

(** The end-to-end scenario of the specification. *)
Example end_to_end :
  Stub.server (Stub.request PostApiBuy "12345" 0.1) (start 0) =
  (Ok (res_json (JObj [("success", JBool true);
                       ("signature", JStr "stub-signature")])),
   {| world := 1;
      trace :=
        [EvFindOne (JStr "12345");
         EvFetch (quote_request
                    "So11111111111111111111111111111111111111112"
                    "EPjFWdd5AufqSSqeM2qN1xzybapC8G4wEGGkZwyTDt1v"
                    "100000000" "0.5");
         EvFetch (swap_request Stub.runtime (JStr "route-1") "pub-secret");
         EvPartialSign;
         EvSendRawTransaction (Buffer_from_utf8 "tx");
         EvConfirmTransaction "stub-signature"] |}).
Proof. vm_compute. reflexivity. Qed.

(** ** C1 *)


(** ** C2 *)

Lemma key_mismatch_witness :
  let out := Stub.server (Stub.request PostApiSell "mismatch" 0.1) (start 0) in
  responded out 500 /\ never is_sign out /\ never is_network_call out.
Proof.
  apply (key_mismatch_is_500_without_signing
           Stub.World AES256 Stub.runtime Stub.web3 Stub.services
           Stub.config (Stub.request PostApiSell "mismatch" 0.1)
           (Stub.trade "mismatch" 0.1) 0 0 Stub.user_mismatch
           {| label := "Unnamed Wallet"; publicKey := "pub-other";
              secretKey := Stub.encrypted_secret |}
           "pub-other" "secret" (Buffer_from_utf8 "secret") "secret");
    try reflexivity; discriminate.
Defined.

(** ** C3 *)

(** The body parser runs before the key check: a request with a payload
    it rejects is answered by the default error handler, key or no
    key. *)
Lemma rejected_payload_is_not_401 :
  let req := {| headers := [("content-type", "application/json")];
                route := PostApiBuy;
                payload := BodyRejected 400 "Bad Request" |} in
  header (headers req) "x-api-key" = None /\
  Stub.server req (start 0)
    = (Ok {| status := 400; body := Html "Bad Request" |}, start 0) /\
  ~ responded (Stub.server req (start 0)) 401.
Proof.
  repeat split. intros (res & Hres & Hstatus).
  cbn in Hres. injection Hres as <-. discriminate.
Qed.

Lemma unauthorized_whatever_the_body_witness :
  let wrong := {| headers := [("x-api-key", "guess")]; route := PostApiBuy;
                  payload := BodyParsed (Stub.trade "12345" 0.1) |} in
  let absent := {| headers := []; route := NoRoute "Cannot GET /";
                   payload := BodyParsed [] |} in
  Stub.server wrong (start 0) = (Ok unauthorized, start 0) /\
  Stub.server absent (start 0) = Stub.server wrong (start 0).
Proof.
  apply (unauthorized_whatever_the_body
           Stub.World AES256 Stub.runtime Stub.web3 Stub.services
           Stub.config
           {| headers := [("x-api-key", "guess")]; route := PostApiBuy;
              payload := BodyParsed (Stub.trade "12345" 0.1) |}
           {| headers := []; route := NoRoute "Cannot GET /";
              payload := BodyParsed [] |}
           (Stub.trade "12345" 0.1) [] (start 0));
    try reflexivity; discriminate.
Defined.

(** ** C4 *)

Lemma missing_field_witness :
  let req := {| headers := [("x-api-key", "test-api-key")];
                route := PostApiBuy;
                payload := BodyParsed [("telegramId", JStr "12345");
                                       ("tradeAmount", JNum 0.1);
                                       ("slippage", JNum 0);
                                       ("inputMint", JStr "in")] |} in
  responded (Stub.server req (start 0)) 400 /\
  snd (Stub.server req (start 0)) = start 0 /\
  never is_store_call (Stub.server req (start 0)) /\
  never is_aggregator_call (Stub.server req (start 0)) /\
  never is_network_call (Stub.server req (start 0)).
Proof.
  apply (missing_field_is_400_without_calls
           Stub.World AES256 Stub.runtime Stub.web3 Stub.services
           Stub.config _
           [("telegramId", JStr "12345"); ("tradeAmount", JNum 0.1);
            ("slippage", JNum 0); ("inputMint", JStr "in")] 0);
    try reflexivity.
  exists "slippage". split; [simpl; tauto | reflexivity].
Defined.

(** ** C5 *)

Lemma unknown_user_witness :
  let out := Stub.server (Stub.request PostApiBuy "nobody" 0.1) (start 0) in
  responded out 400 /\
  trace (snd out) = [EvFindOne (JStr "nobody")] /\
  never is_aggregator_call out /\ never is_network_call out.
Proof.
  apply (unknown_user_is_400_without_calls
           Stub.World AES256 Stub.runtime Stub.web3 Stub.services
           Stub.config (Stub.request PostApiBuy "nobody" 0.1)
           (Stub.trade "nobody" 0.1) 0 0 None);
    try reflexivity.
  now left.
Defined.

(** ** C6 *)

(** -0.0000000015 is truthy and passes the validation; its product with
    10^9 is -1.5, which [Math.floor] takes to -2 and truncation toward
    zero to -1; the quote is requested for -2. *)
Lemma floor_is_not_truncation_below_zero :
  ToBoolean (JNum (-0.0000000015)) = true /\
  Math_floor (-0.0000000015 * LAMPORTS_PER_SOL) = (-2)%float /\
  Math_trunc (-0.0000000015 * LAMPORTS_PER_SOL) = (-1)%float /\
  nth_error
    (trace (snd (Stub.server
                   (Stub.request PostApiBuy "12345" (-0.0000000015))
                   (start 0)))) 1
  = Some (EvFetch (quote_request
                     "So11111111111111111111111111111111111111112"
                     "EPjFWdd5AufqSSqeM2qN1xzybapC8G4wEGGkZwyTDt1v"
                     "-2" "0.5")).
Proof. repeat split; vm_compute; reflexivity. Qed.

Lemma amount_is_floor_of_product_witness :
  Math_floor (0.25 * LAMPORTS_PER_SOL) = Math_trunc (0.25 * LAMPORTS_PER_SOL) /\
  Math_floor (0.1 * LAMPORTS_PER_SOL) = 100000000%float.
Proof.
  destruct (amount_is_floor_of_product 0.25) as (Htrunc & Hexact & _).
  split; [apply Htrunc; reflexivity | exact Hexact].
Defined.

(** ** C7 *)

Lemma swap_client_protocol_witness :
  getJupiterSwapTransaction Stub.runtime Stub.web3 Stub.services
    "pub-secret" (JStr "in") (JStr "out") 100000000 (JNum 0.5) (start 0)
  = (Ok (JStr "dHg="),
     {| world := 0;
        trace :=
          [EvFetch (quote_request "in" "out" "100000000" "0.5");
           EvFetch (swap_request Stub.runtime (JStr "route-1") "pub-secret")]
     |}).
Proof.
  destruct (swap_client_protocol
              Stub.World Stub.runtime Stub.web3 Stub.services
              "pub-secret" (JStr "in") (JStr "out") 100000000 (JNum 0.5)
              "in" "out" "0.5" 0 eq_refl eq_refl eq_refl
              (Ok {| ok := true; statusText := "OK";
                     json := Ok (JObj [("routes", Stub.routes)]) |})
              0 eq_refl) as (_ & _ & Hquote).
  destruct (Hquote _ (JObj [("routes", Stub.routes)]) Stub.routes
              eq_refl eq_refl eq_refl eq_refl) as [_ Hroute].
  destruct (Hroute (JStr "route-1") [JStr "route-2"] eq_refl
              (Ok {| ok := true; statusText := "OK";
                     json := Ok (JObj [("swapTransaction", JStr "dHg=")]) |})
              0 eq_refl) as (_ & _ & Hswap).
  exact (Hswap _ (JObj [("swapTransaction", JStr "dHg=")]) (JStr "dHg=")
           eq_refl eq_refl eq_refl eq_refl).
Defined.

(** ** C8 *)

(** Two malformed texts that decrypt without error: the first has a
    space in its IV part; the second is the encryption of a 17-byte
    plaintext whose sixteenth byte is 1, cut after the first block of
    its ciphertext. *)
Lemma malformed_texts_decrypt :
  let spaced := "AAEC AwQFBgcICQoLDA0ODw==:6H5G+J59TZQMdlkJH18ekw==" in
  let whole :=
    "AAECAwQFBgcICQoLDA0ODw==:W1mbn8UcrRiIbvn7fM7SZst+gFxdM/U4EU9wo0ueYUI=" in
  let cut := "AAECAwQFBgcICQoLDA0ODw==:W1mbn8UcrRiIbvn7fM7SZs" in
  occurs " " (nth 0 (split ":" spaced) "") = true /\
  decryptSecret AES256 Stub.key spaced = Ok "secret" /\
  encryptSecret AES256 Stub.key Stub.iv Stub.padded_looking = Ok whole /\
  decryptSecret AES256 Stub.key cut = Ok "ABCDEFGHIJKLMNO".
Proof. repeat split; vm_compute; reflexivity. Qed.

Lemma decryptSecret_failures_witness :
  decryptSecret AES256 Stub.key "AAECAwQFBgcICQoLDA0ODw=="
    = Throw (Error "Invalid encrypted text format") /\
  is_throw (decryptSecret AES256 Stub.key "AAECAwQFBgcICQoLDA0ODw==:6H5G")
    = true /\
  decryptSecret AES256 Stub.key Stub.encrypted_secret = Ok "secret".
Proof.
  split; [|split].
  - destruct (decryptSecret_failures AES256 Stub.key
                "AAECAwQFBgcICQoLDA0ODw==" eq_refl) as [H _].
    apply H. vm_compute. discriminate.
  - destruct (decryptSecret_failures AES256 Stub.key
                "AAECAwQFBgcICQoLDA0ODw==:6H5G" eq_refl) as [_ H].
    destruct (H "AAECAwQFBgcICQoLDA0ODw==" "6H5G" eq_refl) as [[_ Hthrow] _].
    apply Hthrow. right. right. left. vm_compute. discriminate.
  - destruct (decryptSecret_failures AES256 Stub.key Stub.encrypted_secret
                eq_refl) as [_ H].
    destruct (H "AAECAwQFBgcICQoLDA0ODw==" "6H5G+J59TZQMdlkJH18ekw==" eq_refl)
      as [_ Hok].
    apply (Hok (Buffer_from_utf8 "secret")); vm_compute;
      try reflexivity; discriminate.
Defined.

(** ** C10 *)

Lemma bad_wallet_index_witness :
  let out := Stub.server (Stub.request PostApiBuy "badindex" 0.1) (start 0) in
  Array_get (wallets Stub.user_bad_index)
    (activeWalletIndex Stub.user_bad_index) = None /\
  responded out 500 /\
  fst out = Ok (res_status_json 500
                  (json_error
                     "Cannot read properties of undefined (reading 'publicKey')")) /\
  never is_aggregator_call out /\ never is_network_call out.
Proof.
  apply (bad_wallet_index_is_500
           Stub.World AES256 Stub.runtime Stub.web3 Stub.services
           Stub.config (Stub.request PostApiBuy "badindex" 0.1)
           (Stub.trade "badindex" 0.1) 0 0 Stub.user_bad_index);
    try reflexivity; try discriminate.
  intros z H. vm_compute in H. injection H as <-. right. simpl. lia.
Defined.

(* ================================================================== *)
(** * Part 7: further properties of the code *)
(* ================================================================== *)

(** ** Start-up *)




(** ** The credential vault *)

Lemma length_Buffer_from_utf8 (s : string) :
  length (Buffer_from_utf8 s) = String.length s.
Proof. unfold Buffer_from_utf8. induction s; simpl; congruence. Qed.


(** The blocks of a padded buffer: the whole blocks of the data, then
    the padded rest. *)
Lemma blocks_pkcs7_pad (data : Buffer) :
  let n := 16 * (length data / 16) in
  blocks (pkcs7_pad data) =
    (blocks (firstn n data) ++ [pkcs7_pad (skipn n data)])%list /\
  Forall (fun b => length b = 16) (blocks (pkcs7_pad data)) /\
  length (blocks (pkcs7_pad data)) = length data / 16 + 1.
Proof.
  intros n.
  destruct (whole_blocks_cut data) as [Hf Hr]. fold n in Hf, Hr.
  assert (Hlt : length data mod 16 < 16) by (apply Nat.mod_upper_bound; lia).
  assert (Hp : blocks (pkcs7_pad data) =
               (blocks (firstn n data) ++ [pkcs7_pad (skipn n data)])%list).
  { rewrite (pkcs7_pad_cut data). fold n.
    rewrite (blocks_app _ _ _ Hf). f_equal.
    apply blocks_short.
    - unfold pkcs7_pad. rewrite Hr, Nat.Div0.mod_mod.
      destruct (16 - length data mod 16) eqn:E; [lia|].
      cbn [repeat]. intros C. now apply app_eq_nil in C as [_ C].
    - rewrite pkcs7_pad_length; lia. }
  split; [exact Hp|]. rewrite Hp. split.
  - apply Forall_app. split.
    + apply (blocks_whole _ _ Hf).
    + constructor; [|constructor]. apply pkcs7_pad_length. lia.
  - rewrite length_app. cbn [length].
    now rewrite (proj2 (proj2 (blocks_whole _ _ Hf))).
Qed.

(** X2.  Under a 32-byte key and a 16-byte IV, [encryptSecret] returns
    exactly two colon-separated base64 parts: the first decodes to the
    IV, the second to a ciphertext of 16 bytes more than the whole
    16-byte blocks of the plaintext. *)
Theorem encryptSecret_format (key iv : Buffer) (plainText : string) :
  length key = 32 ->
  length iv = 16 ->
  exists p0 p1,
    encryptSecret AES256 key iv plainText = Ok (p0 ++ ":" ++ p1) /\
    split ":" (p0 ++ ":" ++ p1) = [p0; p1] /\
    Buffer_from_base64 p0 = iv /\
    length (Buffer_from_base64 p1) = 16 * (String.length plainText / 16 + 1).
Proof.
  intros Hkey Hiv.
  set (ct := cbc_encrypt_buffer AES256 key iv (Buffer_from_utf8 plainText)).
  exists (base64_encode iv), (base64_encode ct).
  split; [now apply encryptSecret_eq|].
  split.
  { apply (split_app_sep ":"); apply base64_encode_no_colon. }
  rewrite !Buffer_from_base64_encode. split; [reflexivity|].
  unfold ct, cbc_encrypt_buffer.
  destruct (blocks_pkcs7_pad (Buffer_from_utf8 plainText)) as (_ & Hall & Hn).
  destruct (cbc_encrypt_blocks AES256 AES256_laws key iv _ Hkey Hall Hiv)
    as [Hc Hl].
  rewrite (proj2 (blocks_concat _ Hc)), Hl, Hn, length_Buffer_from_utf8.
  reflexivity.
Qed.

(** Inserting a character that is no base64 character yields parts with
    the same sextets. *)
Lemma base64_sextets_skip (c : ascii) (s : string) :
  unbase64 c = None -> c <> "="%char ->
  base64_sextets (String c s) = base64_sextets s.
Proof.
  intros Hc He. cbn [base64_sextets]. rewrite Hc.
  now destruct (Ascii.eqb_spec c "=").
Qed.

Lemma split_insert (c : ascii) (s1 s2 : string) :
  unbase64 c = None -> c <> "="%char -> c <> ":"%char ->
  Forall2 (fun p q => base64_sextets p = base64_sextets q)
    (split ":" (s1 ++ String c s2)) (split ":" (s1 ++ s2)).
Proof.
  intros Hc He Hs.
  assert (Hrefl : forall l : list string,
             Forall2 (fun p q => base64_sextets p = base64_sextets q) l l).
  { induction l; constructor; auto. }
  induction s1 as [|a s1 IH]; cbn [String.append split].
  - destruct (Ascii.eqb_spec c ":"); [contradiction|].
    destruct (split ":" s2) as [|p ps] eqn:E; [now apply split_nonempty in E|].
    constructor; [now apply base64_sextets_skip | apply Hrefl].
  - destruct (Ascii.eqb a ":"); [constructor; [reflexivity | exact IH]|].
    destruct (split ":" (s1 ++ String c s2)) as [|p ps] eqn:E;
      [now apply split_nonempty in E|].
    destruct (split ":" (s1 ++ s2)) as [|q qs] eqn:E';
      [now apply split_nonempty in E'|].
    inversion IH as [|? ? ? ? Hpq Hrest]; subst.
    constructor; [|assumption].
    cbn [base64_sextets]. now rewrite Hpq.
Qed.

(** X3.  [decryptSecret] does not see a character that is neither a
    base64 character nor [=] nor [:]: inserted anywhere in the text, it
    leaves the result (plaintext or error) as it was. *)
Theorem decryptSecret_ignores_foreign_characters
    (aes256 : BlockCipher) (key : Buffer) (c : ascii) (s1 s2 : string) :
  unbase64 c = None -> c <> "="%char -> c <> ":"%char ->
  decryptSecret aes256 key (s1 ++ String c s2) =
  decryptSecret aes256 key (s1 ++ s2).
Proof.
  intros Hc He Hs. unfold decryptSecret.
  pose proof (split_insert c s1 s2 Hc He Hs) as H.
  destruct H as [|p0 q0 ps qs H0 H]; [reflexivity|].
  destruct H as [|p1 q1 ps qs H1 H]; [reflexivity|].
  destruct H as [|p2 q2 ps qs H2 H].
  - cbn [length Nat.eqb negb nth].
    unfold Decipher_update, Buffer_from_base64. now rewrite H0, H1.
  - reflexivity.
Qed.



(** ** The key check *)

Lemma checkApiKey_answer (cfg : Config) (req : Request) (res : Response) :
  checkApiKey cfg req = Some res -> res = unauthorized.
Proof.
  unfold checkApiKey. destruct (_ || _); [|discriminate]. now intros [= <-].
Qed.

(** X6.  In a process that serves, the key check passes on exactly the
    requests whose [x-api-key] header is the configured key; every other
    request is answered 401. *)
Theorem key_check_passes_exactly
    (env : string -> option string) (cfg : Config) (req : Request) :
  startup env = Some cfg ->
  (checkApiKey cfg req = None <->
   header (headers req) "x-api-key" = Some (API_KEY cfg)) /\
  (checkApiKey cfg req <> None -> checkApiKey cfg req = Some unauthorized).
Proof.
  intros Hstart. destruct (startup_config env cfg Hstart) as [Hkey _].
  split.
  - unfold checkApiKey.
    destruct (header (headers req) "x-api-key") as [k|]; cbn [orb].
    + destruct (String.eqb_spec k (API_KEY cfg)) as [->|Hne]; cbn [negb].
      * destruct (String.eqb_spec (API_KEY cfg) ""); [contradiction|].
        cbn [orb]. now split.
      * rewrite orb_true_r. split; [discriminate|]. intros [= E]. contradiction.
    + split; discriminate.
  - destruct (checkApiKey cfg req) as [res|] eqn:E; [|contradiction].
    intros _. f_equal. now apply checkApiKey_answer in E.
Qed.

(** ** The handlers, whatever the request *)

(** Case analysis along the execution: the scrutinee that is not itself
    a case analysis first. *)
Ltac break :=
  repeat match goal with
         | |- context [match ?x with _ => _ end] =>
             lazymatch x with
             | context [match _ with _ => _ end] => fail
             | _ => destruct x eqn:?
             end
         end.

Ltac run_try :=
  unfold api_buy_try, getJupiterSwapTransaction, bind, lift, call, emit,
    throw, ret, start.


Lemma Array_get_map {A B : Type} (g : A -> B) (arr : list A) (i : float) :
  Array_get (map g arr) i = option_map g (Array_get arr i).
Proof.
  unfold Array_get. destruct (float_to_Z i) as [z|]; [|reflexivity].
  destruct (z <? 0)%Z; [reflexivity|]. apply nth_error_map.
Qed.

Section Handlers.

Variable W : Type.
Variable aes256 : BlockCipher.
Variable rt : Runtime.
Variable web3 : Web3.
Variable svc : Services W.
Variable cfg : Config.

#[local] Abbreviation buy_try := (api_buy_try aes256 rt web3 svc cfg).
#[local] Abbreviation server := (app aes256 rt web3 svc cfg).

(** What a trade route answers, from the [try] block. *)
Lemma trade_answer (req : Request) (body : JsObject) (st : State W) :
  payload req = BodyParsed body ->
  checkApiKey cfg req = None ->
  is_trade_route (route req) = true ->
  exists text,
    server req st =
    match buy_try body st with
    | (Ok res, st') => (Ok res, st')
    | (Throw e, st') =>
        (Ok (res_status_json 500 (json_error (message e))),
         {| world := world st';
            trace := (trace st' ++ [EvConsoleError text e])%list |})
    end.
Proof.
  intros Hp Hk Hr. unfold app. rewrite Hp, Hk.
  destruct (route req); try discriminate;
    unfold api_buy, api_sell, try_catch;
    change (api_sell_try aes256 rt web3 svc cfg body) with (buy_try body);
    (destruct (buy_try body st) as [[res|e] st'];
     [exists "" | eexists]; reflexivity).
Qed.

Lemma buy_try_statuses (body : JsObject) (st st' : State W) (res : Response) :
  buy_try body st = (Ok res, st') -> In (status res) [200; 400; 500].
Proof.
  run_try. break; intros [= <- <-]; cbn; auto.
Qed.

(** X7.  No error escapes: every request is answered.  A request whose
    payload the body parser rejects gets the parser's status; every
    other request gets 401, 404, 400, 500 or 200, and 200, 400 or 500
    once it has passed the key check on a trade route. *)
Theorem every_request_is_answered (req : Request) (st : State W) :
  exists res st',
    server req st = (Ok res, st') /\
    match payload req with
    | BodyRejected code _ => status res = code
    | BodyParsed _ =>
        match checkApiKey cfg req with
        | Some _ => status res = 401
        | None =>
            if is_trade_route (route req)
            then In (status res) [200; 400; 500]
            else status res = 404
        end
    end.
Proof.
  destruct (payload req) as [body|code page] eqn:Hp.
  - destruct (checkApiKey cfg req) as [res|] eqn:Hk.
    + exists res, st. unfold app. rewrite Hp, Hk. split; [reflexivity|].
      now rewrite (checkApiKey_answer _ _ _ Hk).
    + destruct (is_trade_route (route req)) eqn:Hr.
      * destruct (trade_answer req body st Hp Hk Hr) as [text ->].
        destruct (buy_try body st) as [[res|e] st'] eqn:Ht.
        -- exists res, st'. split; [reflexivity|].
           exact (buy_try_statuses _ _ _ _ Ht).
        -- eexists _, _. split; [reflexivity|]. cbn. auto.
      * unfold app. rewrite Hp, Hk.
        destruct (route req); try discriminate.
        eexists _, _. split; reflexivity.
  - unfold app. rewrite Hp. eexists _, _. split; reflexivity.
Qed.



Lemma buy_try_200 (body : JsObject) (w : W) (res : Response) (st' : State W) :
  buy_try body (start w) = (Ok res, st') ->
  status res = 200 ->
  exists before raw signature w1 w2,
    sendRawTransaction svc raw w1 = (Ok signature, w2) /\
    confirmTransaction svc signature w2 = (Ok tt, world st') /\
    trace st' =
      (before ++ [EvPartialSign; EvSendRawTransaction raw;
                  EvConfirmTransaction signature])%list /\
    existsb is_log before = false /\
    res = res_json (JObj [("success", JBool true);
                          ("signature", JStr signature)]).
Proof.
  run_try. break; intros [= <- <-] Hs; try discriminate Hs.
  subst. cbn [world trace Datatypes.app].
  match goal with
  | H : confirmTransaction _ _ _ = (Ok ?u, _) |- _ => destruct u
  end.
  eexists [_; _; _], _, _, _, _.
  split; [eassumption|]. split; [eassumption|].
  split; [reflexivity|]. split; reflexivity.
Qed.

(** X9.  A trade is answered 200 only after the network has accepted
    the broadcast of the signed transaction and the confirmation has
    been awaited without error; the answer carries the signature the
    broadcast returned, and nothing was logged. *)
Theorem success_means_broadcast_and_confirmed
    (req : Request) (body : JsObject) (w : W) :
  payload req = BodyParsed body ->
  responded (server req (start w)) 200 ->
  exists before raw signature w1 w2,
    sendRawTransaction svc raw w1 = (Ok signature, w2) /\
    confirmTransaction svc signature w2
      = (Ok tt, world (snd (server req (start w)))) /\
    trace (snd (server req (start w))) =
      (before ++ [EvPartialSign; EvSendRawTransaction raw;
                  EvConfirmTransaction signature])%list /\
    existsb is_log before = false /\
    fst (server req (start w)) =
      Ok (res_json (JObj [("success", JBool true);
                          ("signature", JStr signature)])).
Proof.
  intros Hp (res & Hres & Hstatus).
  destruct (checkApiKey cfg req) as [res'|] eqn:Hk.
  { unfold app in Hres. rewrite Hp, Hk in Hres. injection Hres as <-.
    rewrite (checkApiKey_answer _ _ _ Hk) in Hstatus. discriminate. }
  destruct (is_trade_route (route req)) eqn:Hr.
  2: { unfold app in Hres. rewrite Hp, Hk in Hres.
       destruct (route req); try discriminate.
       injection Hres as <-. discriminate. }
  destruct (trade_answer req body (start w) Hp Hk Hr) as [text Hserver].
  rewrite Hserver in *. clear Hserver.
  destruct (buy_try body (start w)) as [[res'|e] st'] eqn:Ht;
    cbn [fst snd] in *; injection Hres as <-; [|discriminate].
  destruct (buy_try_200 body w res' st' Ht Hstatus)
    as (before & raw & signature & w1 & w2 & H1 & H2 & H3 & H4 & ->).
  exists before, raw, signature, w1, w2. repeat split; assumption.
Qed.

(** An event of the application that is no log line is an event of the
    [try] block of a trade route, at the same place. *)
Lemma server_call (req : Request) (w : W) (k : nat) (e : Event) :
  nth_error (trace (snd (server req (start w)))) k = Some e ->
  is_log e = false ->
  exists body,
    payload req = BodyParsed body /\ checkApiKey cfg req = None /\
    nth_error (trace (snd (buy_try body (start w)))) k = Some e.
Proof.
  intros He Hlog.
  destruct (payload req) as [body|code page] eqn:Hp.
  2: { unfold app in He. rewrite Hp in He. now destruct k. }
  destruct (checkApiKey cfg req) as [res|] eqn:Hk.
  { unfold app in He. rewrite Hp, Hk in He. now destruct k. }
  destruct (is_trade_route (route req)) eqn:Hr.
  2: { unfold app in He. rewrite Hp, Hk in He.
       destruct (route req); try discriminate. now destruct k. }
  exists body. split; [reflexivity|]. split; [reflexivity|].
  destruct (trade_answer req body (start w) Hp Hk Hr) as [text Hserver].
  rewrite Hserver in He. clear Hserver.
  destruct (buy_try body (start w)) as [[res|e'] st']; cbn [snd trace] in *;
    [exact He|].
  destruct (Nat.lt_ge_cases k (length (trace st'))) as [Hlt|Hge].
  - now rewrite nth_error_app1 in He.
  - rewrite nth_error_app2 in He by assumption.
    destruct (k - length (trace st')) as [|n]; cbn [nth_error] in He.
    + injection He as <-. discriminate.
    + now destruct n.
Qed.

Lemma buy_try_quote (body : JsObject) (w : W) (r : FetchRequest) :
  nth_error (trace (snd (buy_try body (start w)))) 1 = Some (EvFetch r) ->
  exists tradeAmount' inputMint' outputMint' slippage',
    ToNumber rt (get_property body "tradeAmount") = Ok tradeAmount' /\
    ToString rt (get_property body "inputMint") = Ok inputMint' /\
    ToString rt (get_property body "outputMint") = Ok outputMint' /\
    ToString rt (get_property body "slippage") = Ok slippage' /\
    r = quote_request inputMint' outputMint'
          (NumberToString rt (Math_floor (tradeAmount' * LAMPORTS_PER_SOL)))
          slippage'.
Proof.
  run_try. break; cbn [snd trace world Datatypes.app nth_error];
    intros [= <-];
    eexists _, _, _, _; repeat split; eassumption.
Qed.

(** X10.  The request the application makes after the store lookup is
    the quote request for the two mints and the slippage of the body,
    as strings, and for the amount [Math.floor(tradeAmount * 10^9)] of
    the body's trade amount as a number. *)
Theorem quote_is_asked_for_the_request
    (req : Request) (w : W) (r : FetchRequest) :
  nth_error (trace (snd (server req (start w)))) 1 = Some (EvFetch r) ->
  exists body tradeAmount' inputMint' outputMint' slippage',
    payload req = BodyParsed body /\
    ToNumber rt (get_property body "tradeAmount") = Ok tradeAmount' /\
    ToString rt (get_property body "inputMint") = Ok inputMint' /\
    ToString rt (get_property body "outputMint") = Ok outputMint' /\
    ToString rt (get_property body "slippage") = Ok slippage' /\
    r = quote_request inputMint' outputMint'
          (NumberToString rt (Math_floor (tradeAmount' * LAMPORTS_PER_SOL)))
          slippage'.
Proof.
  intros He.
  destruct (server_call req w 1 _ He eq_refl) as (body & Hp & _ & Htry).
  destruct (buy_try_quote body w r Htry)
    as (tradeAmount' & inputMint' & outputMint' & slippage' & H).
  now exists body, tradeAmount', inputMint', outputMint', slippage'.
Qed.

Lemma buy_try_swap (body : JsObject) (w : W) (r : FetchRequest) :
  nth_error (trace (snd (buy_try body (start w)))) 2 = Some (EvFetch r) ->
  exists w' user activeWallet stored route,
    User_findOne svc (get_property body "telegramId") w
      = (Ok (Some user), w') /\
    Array_get (wallets user) (activeWalletIndex user) = Some activeWallet /\
    new_PublicKey web3 (publicKey activeWallet) = Ok stored /\
    r = swap_request rt route (PublicKey_toString web3 stored).
Proof.
  run_try. break; cbn [snd trace world Datatypes.app nth_error];
    intros [= <-];
    eexists _, _, _, _, _;
    (split; [eassumption|]); (split; [eassumption|]);
    (split; [eassumption|]);
    match goal with
    | H : negb (String.eqb ?a ?b) = false |- _ =>
        apply negb_false_iff, String.eqb_eq in H; rewrite <- H
    end;
    reflexivity.
Qed.

(** X11.  The second request to the aggregator asks for a swap
    transaction on behalf of the public key stored with the active
    wallet of the user the store returned (as [new PublicKey] reads
    it), and of nobody else. *)
Theorem swap_is_asked_for_the_stored_key
    (req : Request) (w : W) (r : FetchRequest) :
  nth_error (trace (snd (server req (start w)))) 2 = Some (EvFetch r) ->
  exists body w' user activeWallet stored route,
    payload req = BodyParsed body /\
    User_findOne svc (get_property body "telegramId") w
      = (Ok (Some user), w') /\
    Array_get (wallets user) (activeWalletIndex user) = Some activeWallet /\
    new_PublicKey web3 (publicKey activeWallet) = Ok stored /\
    r = swap_request rt route (PublicKey_toString web3 stored).
Proof.
  intros He.
  destruct (server_call req w 2 _ He eq_refl) as (body & Hp & _ & Htry).
  destruct (buy_try_swap body w r Htry)
    as (w' & user & activeWallet & stored & route & H).
  now exists body, w', user, activeWallet, stored, route.
Qed.

End Handlers.

(** ** A trade that reaches the broadcast *)

Lemma Array_get_some_length {A : Type} (arr : list A) (i : float) (a : A) :
  Array_get arr i = Some a -> (length arr =? 0)%nat = false.
Proof.
  unfold Array_get. destruct arr as [|x l]; [|reflexivity].
  destruct (float_to_Z i) as [z|]; [|discriminate].
  destruct (z <? 0)%Z; [discriminate|].
  now destruct (Z.to_nat z).
Qed.

Section SignedTrade.

Variable W : Type.
Variable aes256 : BlockCipher.
Variable rt : Runtime.
Variable web3 : Web3.
Variable svc : Services W.
Variable cfg : Config.

#[local] Abbreviation buy_try := (api_buy_try aes256 rt web3 svc cfg).

Variables (body : JsObject) (w w1 : W).
Variables (user : User) (activeWallet : Wallet) (stored : PublicKey web3).
Variables (decryptedSecret : string) (secret : Buffer).
Variables (userKeypair : Keypair web3) (tradeAmount' : float).
Variables (swapTxBase64 : JsValue) (st2 : State W) (swapTxBuffer : Buffer).
Variables (swapTransaction signedTransaction : Transaction web3).
Variables (raw : Buffer) (signature : string) (w3 : W).

Hypothesis fields_given : fields_present body = true.
Hypothesis user_found :
  User_findOne svc (get_property body "telegramId") w = (Ok (Some user), w1).
Hypothesis wallet_selected :
  Array_get (wallets user) (activeWalletIndex user) = Some activeWallet.
Hypothesis key_stored :
  new_PublicKey web3 (publicKey activeWallet) = Ok stored.
Hypothesis secret_decrypted :
  decryptSecret aes256 (encryptionKeyBuffer cfg) (secretKey activeWallet)
    = Ok decryptedSecret.
Hypothesis secret_decoded :
  decodeKeypairSecret web3 decryptedSecret = Ok secret.
Hypothesis keypair_rebuilt : Keypair_fromSecretKey web3 secret = Ok userKeypair.
Hypothesis keys_match :
  PublicKey_toString web3 (Keypair_publicKey web3 userKeypair)
    = PublicKey_toString web3 stored.
Hypothesis amount_converted :
  ToNumber rt (get_property body "tradeAmount") = Ok tradeAmount'.
Hypothesis swap_obtained :
  getJupiterSwapTransaction rt web3 svc (Keypair_publicKey web3 userKeypair)
    (get_property body "inputMint") (get_property body "outputMint")
    (Math_floor (tradeAmount' * LAMPORTS_PER_SOL))
    (get_property body "slippage")
    {| world := w1; trace := [EvFindOne (get_property body "telegramId")] |}
  = (Ok swapTxBase64, st2).
Hypothesis swap_decoded : Buffer_from rt swapTxBase64 = Ok swapTxBuffer.
Hypothesis swap_parsed : Transaction_from web3 swapTxBuffer = Ok swapTransaction.
Hypothesis swap_signed :
  partialSign web3 swapTransaction userKeypair = Ok signedTransaction.
Hypothesis swap_serialized : serialize web3 signedTransaction = Ok raw.
Hypothesis broadcast_accepted :
  sendRawTransaction svc raw (world st2) = (Ok signature, w3).

Lemma buy_try_broadcast (confirmed : Outcome unit) (w4 : W) :
  confirmTransaction svc signature w3 = (confirmed, w4) ->
  buy_try body (start w) =
  (match confirmed with
   | Ok _ => Ok (res_json (JObj [("success", JBool true);
                                 ("signature", JStr signature)]))
   | Throw e => Throw e
   end,
   {| world := w4;
      trace := (trace st2 ++ [EvPartialSign; EvSendRawTransaction raw;
                              EvConfirmTransaction signature])%list |}).
Proof.
  intros Hconfirm. unfold api_buy_try.
  rewrite missing_fields_condition, fields_given. cbn [negb].
  unfold bind at 1. unfold call at 1. unfold start. cbn [world trace].
  rewrite user_found. cbn [Datatypes.app].
  rewrite (Array_get_some_length _ _ _ wallet_selected), wallet_selected.
  unfold bind at 1. unfold lift at 1. rewrite key_stored.
  unfold bind at 1. unfold lift at 1. rewrite secret_decrypted.
  unfold bind at 1. unfold lift at 1. rewrite secret_decoded.
  unfold bind at 1. unfold lift at 1. rewrite keypair_rebuilt.
  rewrite keys_match, String.eqb_refl. cbn [negb].
  unfold bind at 1. unfold lift at 1. rewrite amount_converted.
  unfold bind at 1. rewrite swap_obtained.
  unfold bind at 1. unfold lift at 1. rewrite swap_decoded.
  unfold bind at 1. unfold lift at 1. rewrite swap_parsed.
  unfold bind at 1. unfold emit at 1.
  unfold bind at 1. unfold lift at 1. rewrite swap_signed.
  unfold bind at 1. unfold lift at 1. rewrite swap_serialized.
  unfold bind at 1. unfold call at 1. cbn [world trace].
  rewrite broadcast_accepted.
  unfold bind at 1. unfold call at 1. cbn [world trace].
  rewrite Hconfirm. rewrite <- !app_assoc. cbn [Datatypes.app].
  destruct confirmed; reflexivity.
Qed.

End SignedTrade.

Section TradeOutcome.

Variable W : Type.
Variable aes256 : BlockCipher.
Variable rt : Runtime.
Variable web3 : Web3.
Variable svc : Services W.
Variable cfg : Config.

#[local] Abbreviation server := (app aes256 rt web3 svc cfg).

(** X12.  A trade whose every step succeeds is answered 200 with
    [success: true] and the signature the broadcast returned; after the
    calls of the aggregator client come the signature, the broadcast of
    the signed transaction and the confirmation of that signature, and
    nothing else. *)
Theorem confirmed_trade_is_200
    (req : Request) (body : JsObject) (w w1 : W) (user : User)
    (activeWallet : Wallet) (stored : PublicKey web3)
    (decryptedSecret : string) (secret : Buffer)
    (userKeypair : Keypair web3) (tradeAmount' : float)
    (swapTxBase64 : JsValue) (st2 : State W) (swapTxBuffer : Buffer)
    (swapTransaction signedTransaction : Transaction web3)
    (raw : Buffer) (signature : string) (w3 w4 : W) :
  is_trade_route (route req) = true ->
  payload req = BodyParsed body ->
  checkApiKey cfg req = None ->
  fields_present body = true ->
  User_findOne svc (get_property body "telegramId") w = (Ok (Some user), w1) ->
  Array_get (wallets user) (activeWalletIndex user) = Some activeWallet ->
  new_PublicKey web3 (publicKey activeWallet) = Ok stored ->
  decryptSecret aes256 (encryptionKeyBuffer cfg) (secretKey activeWallet)
    = Ok decryptedSecret ->
  decodeKeypairSecret web3 decryptedSecret = Ok secret ->
  Keypair_fromSecretKey web3 secret = Ok userKeypair ->
  PublicKey_toString web3 (Keypair_publicKey web3 userKeypair)
    = PublicKey_toString web3 stored ->
  ToNumber rt (get_property body "tradeAmount") = Ok tradeAmount' ->
  getJupiterSwapTransaction rt web3 svc (Keypair_publicKey web3 userKeypair)
    (get_property body "inputMint") (get_property body "outputMint")
    (Math_floor (tradeAmount' * LAMPORTS_PER_SOL))
    (get_property body "slippage")
    {| world := w1; trace := [EvFindOne (get_property body "telegramId")] |}
  = (Ok swapTxBase64, st2) ->
  Buffer_from rt swapTxBase64 = Ok swapTxBuffer ->
  Transaction_from web3 swapTxBuffer = Ok swapTransaction ->
  partialSign web3 swapTransaction userKeypair = Ok signedTransaction ->
  serialize web3 signedTransaction = Ok raw ->
  sendRawTransaction svc raw (world st2) = (Ok signature, w3) ->
  confirmTransaction svc signature w3 = (Ok tt, w4) ->
  server req (start w) =
  (Ok (res_json (JObj [("success", JBool true);
                       ("signature", JStr signature)])),
   {| world := w4;
      trace := (trace st2 ++ [EvPartialSign; EvSendRawTransaction raw;
                              EvConfirmTransaction signature])%list |}).
Proof.
  intros Hr Hp Hk Hf Hu Hi Hpk Hd Hs Hkp Hm Hn Hc Hb Ht Hsg Hser Hsend Hconf.
  apply (app_trade_ok W aes256 rt web3 svc cfg req body); try assumption.
  exact (buy_try_broadcast W aes256 rt web3 svc cfg body w w1 user
           activeWallet stored decryptedSecret secret userKeypair
           tradeAmount' swapTxBase64 st2 swapTxBuffer swapTransaction
           signedTransaction raw signature w3
           Hf Hu Hi Hpk Hd Hs Hkp Hm Hn Hc Hb Ht Hsg Hser Hsend
           (Ok tt) w4 Hconf).
Qed.

(** X13.  When the confirmation fails after the network has accepted
    the broadcast, the answer is 500 with the message of that failure,
    although the transaction has been sent: the world is the one the
    network left, and the broadcast is in the trace before the log
    line. *)
Theorem unconfirmed_broadcast_is_500
    (req : Request) (body : JsObject) (w w1 : W) (user : User)
    (activeWallet : Wallet) (stored : PublicKey web3)
    (decryptedSecret : string) (secret : Buffer)
    (userKeypair : Keypair web3) (tradeAmount' : float)
    (swapTxBase64 : JsValue) (st2 : State W) (swapTxBuffer : Buffer)
    (swapTransaction signedTransaction : Transaction web3)
    (raw : Buffer) (signature : string) (w3 w4 : W) (e : JsError) :
  is_trade_route (route req) = true ->
  payload req = BodyParsed body ->
  checkApiKey cfg req = None ->
  fields_present body = true ->
  User_findOne svc (get_property body "telegramId") w = (Ok (Some user), w1) ->
  Array_get (wallets user) (activeWalletIndex user) = Some activeWallet ->
  new_PublicKey web3 (publicKey activeWallet) = Ok stored ->
  decryptSecret aes256 (encryptionKeyBuffer cfg) (secretKey activeWallet)
    = Ok decryptedSecret ->
  decodeKeypairSecret web3 decryptedSecret = Ok secret ->
  Keypair_fromSecretKey web3 secret = Ok userKeypair ->
  PublicKey_toString web3 (Keypair_publicKey web3 userKeypair)
    = PublicKey_toString web3 stored ->
  ToNumber rt (get_property body "tradeAmount") = Ok tradeAmount' ->
  getJupiterSwapTransaction rt web3 svc (Keypair_publicKey web3 userKeypair)
    (get_property body "inputMint") (get_property body "outputMint")
    (Math_floor (tradeAmount' * LAMPORTS_PER_SOL))
    (get_property body "slippage")
    {| world := w1; trace := [EvFindOne (get_property body "telegramId")] |}
  = (Ok swapTxBase64, st2) ->
  Buffer_from rt swapTxBase64 = Ok swapTxBuffer ->
  Transaction_from web3 swapTxBuffer = Ok swapTransaction ->
  partialSign web3 swapTransaction userKeypair = Ok signedTransaction ->
  serialize web3 signedTransaction = Ok raw ->
  sendRawTransaction svc raw (world st2) = (Ok signature, w3) ->
  confirmTransaction svc signature w3 = (Throw e, w4) ->
  exists text,
    server req (start w) =
    (Ok (res_status_json 500 (json_error (message e))),
     {| world := w4;
        trace := (trace st2 ++ [EvPartialSign; EvSendRawTransaction raw;
                                EvConfirmTransaction signature;
                                EvConsoleError text e])%list |}).
Proof.
  intros Hr Hp Hk Hf Hu Hi Hpk Hd Hs Hkp Hm Hn Hc Hb Ht Hsg Hser Hsend Hconf.
  destruct (app_trade_throw W aes256 rt web3 svc cfg req body (start w) _ e
              Hr Hp Hk
              (buy_try_broadcast W aes256 rt web3 svc cfg body w w1 user
                 activeWallet stored decryptedSecret secret userKeypair
                 tradeAmount' swapTxBase64 st2 swapTxBuffer swapTransaction
                 signedTransaction raw signature w3
                 Hf Hu Hi Hpk Hd Hs Hkp Hm Hn Hc Hb Ht Hsg Hser Hsend
                 (Throw e) w4 Hconf)) as [text H].
  exists text. rewrite H. cbn [world trace].
  now rewrite <- app_assoc.
Qed.

End TradeOutcome.

(** ** Failures before the quote *)

Section EarlyFailures.

Variable W : Type.
Variable aes256 : BlockCipher.
Variable rt : Runtime.
Variable web3 : Web3.
Variable svc : Services W.
Variable cfg : Config.

#[local] Abbreviation buy_try := (api_buy_try aes256 rt web3 svc cfg).
#[local] Abbreviation server := (app aes256 rt web3 svc cfg).

(** X14.  When the store lookup fails, the answer is 500 with the
    message of the store's error; the lookup and the log line are all
    that happened. *)
Theorem store_failure_is_500
    (req : Request) (body : JsObject) (w w' : W) (e : JsError) :
  is_trade_route (route req) = true ->
  payload req = BodyParsed body ->
  checkApiKey cfg req = None ->
  fields_present body = true ->
  User_findOne svc (get_property body "telegramId") w = (Throw e, w') ->
  exists text,
    server req (start w) =
    (Ok (res_status_json 500 (json_error (message e))),
     {| world := w';
        trace := [EvFindOne (get_property body "telegramId");
                  EvConsoleError text e] |}).
Proof.
  intros Hr Hp Hk Hf Hu.
  apply (app_trade_throw W aes256 rt web3 svc cfg req body (start w)
           {| world := w';
              trace := [EvFindOne (get_property body "telegramId")] |} e);
    try assumption.
  unfold api_buy_try. rewrite missing_fields_condition, Hf. cbn [negb].
  unfold bind at 1. unfold call, start. cbn [world trace]. now rewrite Hu.
Qed.

(** X15.  When the stored secret of the active wallet cannot be
    decrypted, the answer is 500 with the message [decryptSecret]
    threw; the aggregator is not called, nothing is signed and nothing
    reaches the network. *)
Theorem undecryptable_secret_is_500
    (req : Request) (body : JsObject) (w w' : W) (user : User)
    (activeWallet : Wallet) (stored : PublicKey web3) (e : JsError) :
  is_trade_route (route req) = true ->
  payload req = BodyParsed body ->
  checkApiKey cfg req = None ->
  fields_present body = true ->
  User_findOne svc (get_property body "telegramId") w = (Ok (Some user), w') ->
  Array_get (wallets user) (activeWalletIndex user) = Some activeWallet ->
  new_PublicKey web3 (publicKey activeWallet) = Ok stored ->
  decryptSecret aes256 (encryptionKeyBuffer cfg) (secretKey activeWallet)
    = Throw e ->
  exists text,
    server req (start w) =
    (Ok (res_status_json 500 (json_error (message e))),
     {| world := w';
        trace := [EvFindOne (get_property body "telegramId");
                  EvConsoleError text e] |}).
Proof.
  intros Hr Hp Hk Hf Hu Hi Hpk Hd.
  apply (app_trade_throw W aes256 rt web3 svc cfg req body (start w)
           {| world := w';
              trace := [EvFindOne (get_property body "telegramId")] |} e);
    try assumption.
  unfold api_buy_try. rewrite missing_fields_condition, Hf. cbn [negb].
  unfold bind at 1. unfold call, start. cbn [world trace]. rewrite Hu.
  cbn [Datatypes.app].
  rewrite (Array_get_some_length _ _ _ Hi), Hi. unfold bind, lift. now rewrite Hpk, Hd.
Qed.

End EarlyFailures.

(** ** What the handlers do not read *)

Section Unread.

Variable W : Type.
Variable aes256 : BlockCipher.
Variable rt : Runtime.
Variable web3 : Web3.
Variable svc : Services W.
Variable cfg : Config.

Lemma buy_try_map_users (f : User -> User) (body : JsObject) (st : State W) :
  (forall u, same_wallets (f u) u) ->
  api_buy_try aes256 rt web3 (map_users f svc) cfg body st =
  api_buy_try aes256 rt web3 svc cfg body st.
Proof.
  intros Hf.
  unfold api_buy_try, getJupiterSwapTransaction, bind, call, lift, emit,
    throw, ret.
  destruct (_ || _); [reflexivity|].
  cbn [User_findOne fetch sendRawTransaction confirmTransaction map_users].
  destruct (User_findOne svc _ (world st)) as [[[u|]|e] w']; try reflexivity.
  destruct (Hf u) as [Hi Hm]. rewrite Hi.
  assert (Hl : length (wallets (f u)) = length (wallets u)).
  { rewrite <- (length_map wallet_keys (wallets (f u))), Hm.
    apply length_map. }
  rewrite Hl. destruct (length (wallets u) =? 0)%nat; [reflexivity|].
  pose proof (Array_get_map wallet_keys (wallets (f u)) (activeWalletIndex u))
    as H1.
  rewrite Hm, Array_get_map in H1.
  destruct (Array_get (wallets (f u)) _) as [a'|],
           (Array_get (wallets u) _) as [a|];
    try discriminate; [|reflexivity].
  injection H1 as Hpk Hsk. rewrite Hpk, Hsk. reflexivity.
Qed.

(** X16.  Of a stored user the handlers read the wallet index and the
    two keys of each wallet, and nothing else: the stored settings
    (slippage and trade amount, both ways), the wallet labels and the
    stored [telegramId] have no influence on the answer, on the calls
    or on the world. *)
Theorem stored_settings_are_not_read
    (f : User -> User) (req : Request) (st : State W) :
  (forall u, same_wallets (f u) u) ->
  app aes256 rt web3 (map_users f svc) cfg req st =
  app aes256 rt web3 svc cfg req st.
Proof.
  intros Hf. unfold app.
  destruct (payload req) as [body|code page]; [|reflexivity].
  destruct (checkApiKey cfg req); [reflexivity|].
  destruct (route req); [| |reflexivity];
    unfold api_buy, api_sell, try_catch;
    change (api_sell_try aes256 rt web3 ?s cfg body)
      with (api_buy_try aes256 rt web3 s cfg body);
    now rewrite (buy_try_map_users f body st Hf).
Qed.

(** X17.  Of a request the application reads the [x-api-key] header,
    the route and the five required fields of the body: two requests
    that agree on these get the same answer, with the same calls. *)
Theorem only_the_key_and_five_fields_are_read
    (req req' : Request) (body body' : JsObject) (st : State W) :
  header (headers req) "x-api-key" = header (headers req') "x-api-key" ->
  route req = route req' ->
  payload req = BodyParsed body ->
  payload req' = BodyParsed body' ->
  (forall name, In name required_fields ->
                get_property body name = get_property body' name) ->
  app aes256 rt web3 svc cfg req st = app aes256 rt web3 svc cfg req' st.
Proof.
  intros Hh Hr Hp Hp' Hfields. unfold app, checkApiKey.
  rewrite Hp, Hp', Hh, Hr.
  assert (Htry : api_buy_try aes256 rt web3 svc cfg body
                 = api_buy_try aes256 rt web3 svc cfg body').
  { unfold api_buy_try.
    rewrite !(Hfields "telegramId"), !(Hfields "tradeAmount"),
      !(Hfields "slippage"), !(Hfields "inputMint"), !(Hfields "outputMint")
      by (cbn; tauto).
    reflexivity. }
  destruct (_ || _); [reflexivity|].
  destruct (route req'); [| |reflexivity];
    unfold api_buy, api_sell;
    change (api_sell_try aes256 rt web3 svc cfg ?b)
      with (api_buy_try aes256 rt web3 svc cfg b);
    now rewrite Htry.
Qed.

End Unread.

(** ** The aggregator client, whatever its arguments *)

Section SwapClientRequests.

Variable W : Type.
Variable rt : Runtime.
Variable web3 : Web3.
Variable svc : Services W.

(** X18.  [getJupiterSwapTransaction] makes at most two requests and
    nothing else: first a GET of the quote URL, then a POST to the swap
    URL.  A value it returns is truthy, and has taken both requests. *)
Theorem swap_client_requests
    (userPublicKey : PublicKey web3) (inputMint outputMint : JsValue)
    (amount : float) (slippage : JsValue) (st : State W) :
  let out :=
    getJupiterSwapTransaction rt web3 svc userPublicKey inputMint outputMint
      amount slippage st in
  exists requests,
    trace (snd out) = (trace st ++ map EvFetch requests)%list /\
    length requests <= 2 /\
    (forall r, nth_error requests 0 = Some r ->
       init r = None /\
       prefix "https://quote-api.jup.ag/v1/quote?" (url r) = true) /\
    (forall r, nth_error requests 1 = Some r ->
       url r = "https://quote-api.jup.ag/v1/swap" /\
       exists i, init r = Some i /\ init_method i = "POST") /\
    (forall tx, fst out = Ok tx ->
       ToBoolean tx = true /\ length requests = 2).
Proof.
  intros out. subst out.
  unfold getJupiterSwapTransaction, bind, lift, call, throw, ret.
  break; cbn [fst snd trace world];
    first
      [ exists []; cbn [map length nth_error]; rewrite app_nil_r;
        split; [reflexivity|]; split; [lia|];
        split; [discriminate|]; split; [discriminate|];
        intros tx; discriminate
      | eexists [_]; cbn [map length nth_error];
        split; [reflexivity|]; split; [lia|];
        split; [intros r [= <-]; split; reflexivity|];
        split; [discriminate|];
        intros tx; discriminate
      | eexists [_; _]; cbn [map length nth_error];
        split; [now rewrite <- app_assoc|]; split; [lia|];
        split; [intros r [= <-]; split; reflexivity|];
        split; [intros r [= <-]; split; [reflexivity | eexists; split; reflexivity]|];
        try (intros tx; discriminate) ].
  intros tx [= <-]. split; [|reflexivity].
  match goal with
  | H : negb (ToBoolean ?v) = false |- ToBoolean ?v = true =>
      now destruct (ToBoolean v)
  end.
Qed.

End SwapClientRequests.

(** ** The integrity check *)

(** X19.  Whatever the request, the application signs or reaches the
    network only after the key check has passed, the user has been
    found, the secret of the active wallet has been decrypted and
    decoded, and the keypair rebuilt from it has, as a string, the
    public key stored with the wallet. *)
Theorem nothing_is_signed_without_the_matching_key
    (W : Type) (aes256 : BlockCipher) (rt : Runtime) (web3 : Web3)
    (svc : Services W) (cfg : Config) (req : Request) (w : W) :
  existsb (fun e => is_sign e || is_network_call e)
    (trace (snd (app aes256 rt web3 svc cfg req (start w)))) = true ->
  exists body w' user activeWallet stored decryptedSecret secret userKeypair,
    payload req = BodyParsed body /\
    checkApiKey cfg req = None /\
    User_findOne svc (get_property body "telegramId") w = (Ok (Some user), w') /\
    Array_get (wallets user) (activeWalletIndex user) = Some activeWallet /\
    new_PublicKey web3 (publicKey activeWallet) = Ok stored /\
    decryptSecret aes256 (encryptionKeyBuffer cfg) (secretKey activeWallet)
      = Ok decryptedSecret /\
    decodeKeypairSecret web3 decryptedSecret = Ok secret /\
    Keypair_fromSecretKey web3 secret = Ok userKeypair /\
    PublicKey_toString web3 (Keypair_publicKey web3 userKeypair)
      = PublicKey_toString web3 stored.
Proof.
  exact (app_signing_requires_matching_key W aes256 rt web3 svc cfg req w).
Qed.

(* ================================================================== *)
(** * Part 8: the further properties at work on the stubbed world *)
(* ================================================================== *)


Lemma encryptSecret_format_witness :
  exists p0 p1,
    encryptSecret AES256 Stub.key Stub.iv "secret" = Ok (p0 ++ ":" ++ p1) /\
    split ":" (p0 ++ ":" ++ p1) = [p0; p1] /\
    Buffer_from_base64 p0 = Stub.iv /\
    length (Buffer_from_base64 p1) = 16.
Proof.
  apply (encryptSecret_format Stub.key Stub.iv "secret"); reflexivity.
Defined.

(** A line feed in the middle of the ciphertext part. *)
Lemma decryptSecret_ignores_foreign_characters_witness :
  decryptSecret AES256 Stub.key
    ("AAECAwQFBgcICQoLDA0ODw==:6H5G+J59"
     ++ String (ascii_of_nat 10) "TZQMdlkJH18ekw==")
  = decryptSecret AES256 Stub.key
      ("AAECAwQFBgcICQoLDA0ODw==:6H5G+J59" ++ "TZQMdlkJH18ekw==").
Proof.
  apply (decryptSecret_ignores_foreign_characters AES256 Stub.key
           (ascii_of_nat 10) "AAECAwQFBgcICQoLDA0ODw==:6H5G+J59"
           "TZQMdlkJH18ekw==");
    [reflexivity | discriminate | discriminate].
Defined.



Lemma key_check_passes_exactly_witness :
  checkApiKey Stub.config (Stub.request PostApiBuy "12345" 0.1) = None.
Proof.
  destruct (key_check_passes_exactly Stub.env Stub.config
              (Stub.request PostApiBuy "12345" 0.1)) as [[_ Hpass] _].
  - vm_compute. reflexivity.
  - apply Hpass. reflexivity.
Defined.

Lemma success_means_broadcast_and_confirmed_witness :
  let out := Stub.server (Stub.request PostApiSell "12345" 0.1) (start 0) in
  exists before raw signature w1 w2,
    sendRawTransaction Stub.services raw w1 = (Ok signature, w2) /\
    confirmTransaction Stub.services signature w2 = (Ok tt, world (snd out)) /\
    trace (snd out) =
      (before ++ [EvPartialSign; EvSendRawTransaction raw;
                  EvConfirmTransaction signature])%list /\
    existsb is_log before = false /\
    fst out = Ok (res_json (JObj [("success", JBool true);
                                  ("signature", JStr signature)])).
Proof.
  apply (success_means_broadcast_and_confirmed
           Stub.World AES256 Stub.runtime Stub.web3 Stub.services Stub.config
           (Stub.request PostApiSell "12345" 0.1) (Stub.trade "12345" 0.1) 0).
  - reflexivity.
  - exists (res_json (JObj [("success", JBool true);
                            ("signature", JStr "stub-signature")])).
    split; [vm_compute; reflexivity | reflexivity].
Defined.

Lemma confirmed_trade_is_200_witness :
  Stub.server (Stub.request PostApiBuy "12345" 0.1) (start 0) =
  (Ok (res_json (JObj [("success", JBool true);
                       ("signature", JStr "stub-signature")])),
   {| world := 1;
      trace :=
        [EvFindOne (JStr "12345");
         EvFetch (quote_request
                    "So11111111111111111111111111111111111111112"
                    "EPjFWdd5AufqSSqeM2qN1xzybapC8G4wEGGkZwyTDt1v"
                    "100000000" "0.5");
         EvFetch (swap_request Stub.runtime (JStr "route-1") "pub-secret");
         EvPartialSign;
         EvSendRawTransaction (Buffer_from_utf8 "tx");
         EvConfirmTransaction "stub-signature"] |}).
Proof.
  apply (confirmed_trade_is_200
           Stub.World AES256 Stub.runtime Stub.web3 Stub.services Stub.config
           (Stub.request PostApiBuy "12345" 0.1) (Stub.trade "12345" 0.1) 0 0
           Stub.user Stub.wallet "pub-secret" "secret"
           (Buffer_from_utf8 "secret") "secret" 0.1 (JStr "dHg=")
           {| world := 0;
              trace :=
                [EvFindOne (JStr "12345");
                 EvFetch (quote_request
                            "So11111111111111111111111111111111111111112"
                            "EPjFWdd5AufqSSqeM2qN1xzybapC8G4wEGGkZwyTDt1v"
                            "100000000" "0.5");
                 EvFetch (swap_request Stub.runtime (JStr "route-1")
                            "pub-secret")] |}
           (Buffer_from_utf8 "tx") (Buffer_from_utf8 "tx", [])
           (Buffer_from_utf8 "tx", ["secret"]) (Buffer_from_utf8 "tx")
           "stub-signature" 1 1);
    vm_compute; reflexivity.
Defined.

Lemma unconfirmed_broadcast_is_500_witness :
  exists text,
    app AES256 Stub.runtime Stub.web3 Faults.unconfirmed Stub.config
      (Stub.request PostApiBuy "12345" 0.1) (start 0) =
    (Ok (res_status_json 500
           (json_error "Transaction was not confirmed in 30.00 seconds")),
     {| world := 1;
        trace :=
          [EvFindOne (JStr "12345");
           EvFetch (quote_request
                      "So11111111111111111111111111111111111111112"
                      "EPjFWdd5AufqSSqeM2qN1xzybapC8G4wEGGkZwyTDt1v"
                      "100000000" "0.5");
           EvFetch (swap_request Stub.runtime (JStr "route-1") "pub-secret");
           EvPartialSign;
           EvSendRawTransaction (Buffer_from_utf8 "tx");
           EvConfirmTransaction "stub-signature";
           EvConsoleError text
             (Error "Transaction was not confirmed in 30.00 seconds")] |}).
Proof.
  apply (unconfirmed_broadcast_is_500
           Stub.World AES256 Stub.runtime Stub.web3 Faults.unconfirmed
           Stub.config
           (Stub.request PostApiBuy "12345" 0.1) (Stub.trade "12345" 0.1) 0 0
           Stub.user Stub.wallet "pub-secret" "secret"
           (Buffer_from_utf8 "secret") "secret" 0.1 (JStr "dHg=")
           {| world := 0;
              trace :=
                [EvFindOne (JStr "12345");
                 EvFetch (quote_request
                            "So11111111111111111111111111111111111111112"
                            "EPjFWdd5AufqSSqeM2qN1xzybapC8G4wEGGkZwyTDt1v"
                            "100000000" "0.5");
                 EvFetch (swap_request Stub.runtime (JStr "route-1")
                            "pub-secret")] |}
           (Buffer_from_utf8 "tx") (Buffer_from_utf8 "tx", [])
           (Buffer_from_utf8 "tx", ["secret"]) (Buffer_from_utf8 "tx")
           "stub-signature" 1 1
           (Error "Transaction was not confirmed in 30.00 seconds"));
    vm_compute; reflexivity.
Defined.

Lemma store_failure_is_500_witness :
  exists text,
    app AES256 Stub.runtime Stub.web3 Faults.store_down Stub.config
      (Stub.request PostApiBuy "12345" 0.1) (start 0) =
    (Ok (res_status_json 500
           (json_error "connect ECONNREFUSED 127.0.0.1:27017")),
     {| world := 0;
        trace :=
          [EvFindOne (JStr "12345");
           EvConsoleError text
             (Error "connect ECONNREFUSED 127.0.0.1:27017")] |}).
Proof.
  apply (store_failure_is_500
           Stub.World AES256 Stub.runtime Stub.web3 Faults.store_down
           Stub.config (Stub.request PostApiBuy "12345" 0.1)
           (Stub.trade "12345" 0.1) 0 0
           (Error "connect ECONNREFUSED 127.0.0.1:27017"));
    reflexivity.
Defined.

Lemma undecryptable_secret_is_500_witness :
  exists text,
    app AES256 Stub.runtime Stub.web3 Faults.corrupted_store Stub.config
      (Stub.request PostApiSell "corrupted" 0.1) (start 0) =
    (Ok (res_status_json 500 (json_error "Invalid encrypted text format")),
     {| world := 0;
        trace :=
          [EvFindOne (JStr "corrupted");
           EvConsoleError text (Error "Invalid encrypted text format")] |}).
Proof.
  apply (undecryptable_secret_is_500
           Stub.World AES256 Stub.runtime Stub.web3 Faults.corrupted_store
           Stub.config (Stub.request PostApiSell "corrupted" 0.1)
           (Stub.trade "corrupted" 0.1) 0 0 Faults.user_corrupted
           {| label := "Unnamed Wallet"; publicKey := "pub-secret";
              secretKey := "6H5G+J59TZQMdlkJH18ekw==" |}
           "pub-secret" (Error "Invalid encrypted text format"));
    vm_compute; reflexivity.
Defined.

Lemma stored_settings_are_not_read_witness :
  app AES256 Stub.runtime Stub.web3
    (map_users Faults.relabel Stub.services) Stub.config
    (Stub.request PostApiBuy "12345" 0.1) (start 0)
  = Stub.server (Stub.request PostApiBuy "12345" 0.1) (start 0).
Proof.
  apply (stored_settings_are_not_read
           Stub.World AES256 Stub.runtime Stub.web3 Stub.services Stub.config
           Faults.relabel (Stub.request PostApiBuy "12345" 0.1) (start 0)).
  intros u. split; [reflexivity|].
  cbn [Faults.relabel wallets]. rewrite map_map. reflexivity.
Defined.

Lemma only_the_key_and_five_fields_are_read_witness :
  Stub.server
    {| headers := [("x-api-key", "test-api-key"); ("x-wallet-index", "1")];
       route := PostApiBuy;
       payload := BodyParsed (("activeWalletIndex", JNum 1)
                              :: ("settings", JObj [("slippage", JNum 50)])
                              :: Stub.trade "12345" 0.1) |}
    (start 0)
  = Stub.server (Stub.request PostApiBuy "12345" 0.1) (start 0).
Proof.
  apply (only_the_key_and_five_fields_are_read
           Stub.World AES256 Stub.runtime Stub.web3 Stub.services Stub.config
           _ (Stub.request PostApiBuy "12345" 0.1)
           (("activeWalletIndex", JNum 1)
            :: ("settings", JObj [("slippage", JNum 50)])
            :: Stub.trade "12345" 0.1)
           (Stub.trade "12345" 0.1) (start 0));
    try reflexivity.
  intros name [<-|[<-|[<-|[<-|[<-|[]]]]]]; reflexivity.
Defined.

Lemma nothing_is_signed_without_the_matching_key_witness :
  exists body w' user activeWallet stored decryptedSecret secret userKeypair,
    payload (Stub.request PostApiBuy "12345" 0.1) = BodyParsed body /\
    checkApiKey Stub.config (Stub.request PostApiBuy "12345" 0.1) = None /\
    User_findOne Stub.services (get_property body "telegramId") 0
      = (Ok (Some user), w') /\
    Array_get (wallets user) (activeWalletIndex user) = Some activeWallet /\
    new_PublicKey Stub.web3 (publicKey activeWallet) = Ok stored /\
    decryptSecret AES256 (encryptionKeyBuffer Stub.config)
      (secretKey activeWallet) = Ok decryptedSecret /\
    decodeKeypairSecret Stub.web3 decryptedSecret = Ok secret /\
    Keypair_fromSecretKey Stub.web3 secret = Ok userKeypair /\
    PublicKey_toString Stub.web3 (Keypair_publicKey Stub.web3 userKeypair)
      = PublicKey_toString Stub.web3 stored.
Proof.
  apply (nothing_is_signed_without_the_matching_key
           Stub.World AES256 Stub.runtime Stub.web3 Stub.services Stub.config
           (Stub.request PostApiBuy "12345" 0.1) 0).
  vm_compute. reflexivity.
Defined.

Lemma quote_is_asked_for_the_request_witness :
  exists body tradeAmount' inputMint' outputMint' slippage',
    payload (Stub.request PostApiBuy "12345" 0.1) = BodyParsed body /\
    ToNumber Stub.runtime (get_property body "tradeAmount") = Ok tradeAmount' /\
    ToString Stub.runtime (get_property body "inputMint") = Ok inputMint' /\
    ToString Stub.runtime (get_property body "outputMint") = Ok outputMint' /\
    ToString Stub.runtime (get_property body "slippage") = Ok slippage' /\
    quote_request "So11111111111111111111111111111111111111112"
      "EPjFWdd5AufqSSqeM2qN1xzybapC8G4wEGGkZwyTDt1v" "100000000" "0.5"
    = quote_request inputMint' outputMint'
        (NumberToString Stub.runtime
           (Math_floor (tradeAmount' * LAMPORTS_PER_SOL)))
        slippage'.
Proof.
  apply (quote_is_asked_for_the_request
           Stub.World AES256 Stub.runtime Stub.web3 Stub.services Stub.config
           (Stub.request PostApiBuy "12345" 0.1) 0
           (quote_request "So11111111111111111111111111111111111111112"
              "EPjFWdd5AufqSSqeM2qN1xzybapC8G4wEGGkZwyTDt1v"
              "100000000" "0.5")).
  vm_compute. reflexivity.
Defined.

Lemma swap_is_asked_for_the_stored_key_witness :
  exists body w' user activeWallet stored route,
    payload (Stub.request PostApiSell "12345" 0.1) = BodyParsed body /\
    User_findOne Stub.services (get_property body "telegramId") 0
      = (Ok (Some user), w') /\
    Array_get (wallets user) (activeWalletIndex user) = Some activeWallet /\
    new_PublicKey Stub.web3 (publicKey activeWallet) = Ok stored /\
    swap_request Stub.runtime (JStr "route-1") "pub-secret"
    = swap_request Stub.runtime route (PublicKey_toString Stub.web3 stored).
Proof.
  apply (swap_is_asked_for_the_stored_key
           Stub.World AES256 Stub.runtime Stub.web3 Stub.services Stub.config
           (Stub.request PostApiSell "12345" 0.1) 0
           (swap_request Stub.runtime (JStr "route-1") "pub-secret")).
  vm_compute. reflexivity.
Defined.
